(** * EA Foods pre-order core: a shallow embedding of [preorder/views.py]

    The development models the Django views of the pre-order application as
    pure functions over an explicit database value:

    - [PreOrderCreateView_create]      (views.py, [PreOrderCreateView.create])
    - [CancelOrderView_post]           (views.py, [CancelOrderView.post])
    - [StockUpdateView_perform_update] (views.py, [StockUpdateView.perform_update])
    - [OrderListBySlotView_list]       (views.py, [OrderListBySlotView.list])
    - [TopProductsReportView_get]      (views.py, [TopProductsReportView.get])

    Tables whose rows are addressed by primary key are finite maps from the
    key to the row; tables that are scanned in primary-key order (products,
    delivery slots) are lists of rows.  Every ORM call is one step of the
    sequential execution of a request; a view returns its HTTP response
    together with the database it leaves behind. *)

From Stdlib Require Import ZArith Ascii String List Bool Lia Permutation DecimalString.
From stdpp Require Import base option list gmap strings fin_maps sorting.

Local Open Scope string_scope.
Local Open Scope Z_scope.

(** ** Text: the fragment of Python's [str] the views use

    Strings are sequences of 8-bit characters; the case and class tests are
    the ASCII ones (a code above 127 is no letter, digit or space and has no
    other case). *)

Module Text.

Definition code (c : ascii) : Z := Z.of_N (N_of_ascii c).

Definition is_lower (c : ascii) : bool := (97 <=? code c) && (code c <=? 122).
Definition is_upper (c : ascii) : bool := (65 <=? code c) && (code c <=? 90).
Definition is_digit (c : ascii) : bool := (48 <=? code c) && (code c <=? 57).

(** [str.isalpha], [str.isalnum] and [str.isspace] on one character. *)
Definition isalpha (c : ascii) : bool := is_lower c || is_upper c.
Definition isalnum (c : ascii) : bool := isalpha c || is_digit c.
Definition isspace (c : ascii) : bool :=
  ((9 <=? code c) && (code c <=? 13)) ||
  ((28 <=? code c) && (code c <=? 32)).

Definition upper_char (c : ascii) : ascii :=
  if is_lower c then ascii_of_N (Z.to_N (code c - 32)) else c.
Definition lower_char (c : ascii) : ascii :=
  if is_upper c then ascii_of_N (Z.to_N (code c + 32)) else c.

Fixpoint map_chars (f : ascii -> ascii) (s : string) : string :=
  match s with
  | EmptyString => EmptyString
  | String c s' => String (f c) (map_chars f s')
  end.

(** [s.upper()] and [s.lower()]. *)
Definition upper (s : string) : string := map_chars upper_char s.
Definition lower (s : string) : string := map_chars lower_char s.

(** [any(p(c) for c in s)] and [all(p(c) for c in s)]. *)
Fixpoint any_char (p : ascii -> bool) (s : string) : bool :=
  match s with
  | EmptyString => false
  | String c s' => p c || any_char p s'
  end.

Fixpoint all_chars (p : ascii -> bool) (s : string) : bool :=
  match s with
  | EmptyString => true
  | String c s' => p c && all_chars p s'
  end.

Fixpoint lstrip (s : string) : string :=
  match s with
  | EmptyString => EmptyString
  | String c s' => if isspace c then lstrip s' else s
  end.

Fixpoint rstrip (s : string) : string :=
  match s with
  | EmptyString => EmptyString
  | String c s' =>
      match rstrip s' with
      | EmptyString => if isspace c then EmptyString else String c EmptyString
      | r => String c r
      end
  end.

(** [s.strip()]: leading and trailing whitespace removed. *)
Definition strip (s : string) : string := rstrip (lstrip s).

(** Python truthiness of a string: [not s] holds for the empty string. *)
Definition is_empty (s : string) : bool :=
  match s with EmptyString => true | _ => false end.

Fixpoint starts_with (p s : string) : bool :=
  match p, s with
  | EmptyString, _ => true
  | String a p', String b s' => (Ascii.eqb a b) && starts_with p' s'
  | String _ _, EmptyString => false
  end.

(** [needle in hay]. *)
Fixpoint contains (needle hay : string) : bool :=
  starts_with needle hay ||
  match hay with
  | EmptyString => false
  | String _ hay' => contains needle hay'
  end.

(** The ORM lookups [name__iexact] and [name__icontains]. *)
Definition iexact (field value : string) : bool :=
  String.eqb (lower field) (lower value).
Definition icontains (field value : string) : bool :=
  contains (lower value) (lower field).

(** [sep.join(parts)]. *)
Fixpoint join (sep : string) (parts : list string) : string :=
  match parts with
  | [] => EmptyString
  | [p] => p
  | p :: rest => p ++ sep ++ join sep rest
  end.

End Text.

(** ** Wall-clock values: [datetime.time], [datetime.date], [datetime] *)

Module Clock.

(** [datetime.time(hour, minute, second, microsecond)]. *)
Record time := mk_time {
  hour : Z;
  minute : Z;
  second : Z;
  microsecond : Z
}.

Definition valid_time (t : time) : Prop :=
  0 <= hour t < 24 /\ 0 <= minute t < 60 /\
  0 <= second t < 60 /\ 0 <= microsecond t < 1000000.

(** Naive times compare as the tuples (hour, minute, second, microsecond). *)
Definition time_compare (a b : time) : comparison :=
  match hour a ?= hour b with
  | Eq =>
      match minute a ?= minute b with
      | Eq =>
          match second a ?= second b with
          | Eq => microsecond a ?= microsecond b
          | c => c
          end
      | c => c
      end
  | c => c
  end.

Definition time_le (a b : time) : bool :=
  match time_compare a b with Gt => false | _ => true end.
Definition time_ge (a b : time) : bool :=
  match time_compare a b with Lt => false | _ => true end.

(** Microseconds since midnight. *)
Definition micros (t : time) : Z :=
  ((hour t * 60 + minute t) * 60 + second t) * 1000000 + microsecond t.

(** A [datetime.date] is its proleptic Gregorian ordinal
    ([date.toordinal()]); [date.min] is day 1 and [date.max], 9999-12-31,
    is day 3652059. *)
Definition date := Z.
Definition date_min : date := 1.
Definition date_max : date := 3652059.

Definition valid_date (d : date) : Prop := date_min <= d <= date_max.

(** [d + timedelta(days=n)]: [None] stands for the [OverflowError] Python
    raises when the sum leaves the range of [date]. *)
Definition add_days (d : date) (n : Z) : option date :=
  if (date_min <=? d + n) && (d + n <=? date_max) then Some (d + n) else None.

(** What [timezone.localtime()] returns: [now.date()] and [now.time()]. *)
Record datetime := mk_datetime {
  dt_date : date;
  dt_time : time
}.

Definition valid_datetime (now : datetime) : Prop :=
  valid_date (dt_date now) /\ valid_time (dt_time now).

End Clock.

(** ** The database and the views *)

Module Model.
Import Text Clock.

(** *** Tables ([preorder/models.py])

    Only the columns a view reads or writes are kept: a product's
    description and a stock row's [updated_at] stamp are never consulted. *)

Record Product := mk_product {
  product_id : nat;
  product_name : string
}.

(** [quantity] is a [PositiveIntegerField]; the row is stored under its own
    primary key and points to its product ([OneToOneField]). *)
Record StockBalance := mk_stock {
  sb_product : nat;
  sb_quantity : Z
}.

Record DeliverySlot := mk_slot {
  slot_id : nat;
  slot_name : string
}.

Record PreOrder := mk_preorder {
  po_user : nat;
  po_product : nat;
  po_slot : nat;
  po_quantity : Z;
  po_created_at : datetime;
  po_delivery_date : date;
  po_delivery_address : string;
  po_is_cancelled : bool
}.

Record DB := mk_db {
  users : gmap nat string;          (* CustomUser: id -> username *)
  products : list Product;          (* Product rows, by ascending id *)
  stocks : gmap nat StockBalance;   (* StockBalance: id -> row *)
  slots : list DeliverySlot;        (* DeliverySlot rows, by ascending id *)
  preorders : gmap nat PreOrder     (* PreOrder: id -> row *)
}.

Definition set_stocks (db : DB) (s : gmap nat StockBalance) : DB :=
  mk_db (users db) (products db) s (slots db) (preorders db).
Definition set_preorders (db : DB) (o : gmap nat PreOrder) : DB :=
  mk_db (users db) (products db) (stocks db) (slots db) o.

(** [DeliverySlot.SLOT_CHOICES]. *)
Definition SLOT_CHOICES : list (string * string) :=
  [("MORNING", "8AM - 11AM"); ("AFTERNOON", "12PM - 3PM");
   ("EVENING", "4PM - 7PM")]%string.

(** *** ORM queries *)

(** The three outcomes of [Model.objects.get(...)]. *)
Inductive GetResult (A : Type) :=
| Got (a : A)
| DoesNotExist
| MultipleObjectsReturned.
Arguments Got {A} a.
Arguments DoesNotExist {A}.
Arguments MultipleObjectsReturned {A}.

Definition get_one {A : Type} (rows : list A) : GetResult A :=
  match rows with
  | [] => DoesNotExist
  | [a] => Got a
  | _ :: _ :: _ => MultipleObjectsReturned
  end.

(** [Product.objects.filter(name__iexact=name)] and
    [Product.objects.filter(name__icontains=name)]. *)
Definition Product_filter_iexact (db : DB) (name : string) : list Product :=
  List.filter (fun p => iexact (product_name p) name) (products db).
Definition Product_filter_icontains (db : DB) (name : string) : list Product :=
  List.filter (fun p => icontains (product_name p) name) (products db).

(** [queryset.values("id", "name")]. *)
Definition values_id_name (ps : list Product) : list (nat * string) :=
  List.map (fun p => (product_id p, product_name p)) ps.

(** [DeliverySlot.objects.get(name=name)]. *)
Definition DeliverySlot_get (db : DB) (name : string) : GetResult DeliverySlot :=
  get_one (List.filter (fun s => String.eqb (slot_name s) name) (slots db)).

(** [StockBalance.objects.get(product=product)]: the row and its key. *)
Definition StockBalance_get (db : DB) (product : nat)
  : GetResult (nat * StockBalance) :=
  get_one (map_to_list (filter (fun kv => sb_product (snd kv) = product) (stocks db))).

(** [PreOrder.objects.get(pk=pk, user=user)]: [None] is [DoesNotExist]. *)
Definition PreOrder_get (db : DB) (pk user : nat) : option PreOrder :=
  match preorders db !! pk with
  | Some o => if decide (po_user o = user) then Some o else None
  | None => None
  end.

(** The key the database gives the next inserted row: one that is not in
    use, here the successor of the largest one. *)
Definition next_pk {A : Type} (table : gmap nat A) : nat :=
  S (max_list (List.map fst (map_to_list table))).

(** [PreOrder.objects.create(...)]. *)
Definition PreOrder_create (db : DB) (o : PreOrder) : nat * DB :=
  let pk := next_pk (preorders db) in
  (pk, set_preorders db (<[pk := o]> (preorders db))).

(** [preorder.save()] and [stock.save()] on a row loaded under key [pk]. *)
Definition PreOrder_save (db : DB) (pk : nat) (o : PreOrder) : DB :=
  set_preorders db (<[pk := o]> (preorders db)).
Definition StockBalance_save (db : DB) (pk : nat) (s : StockBalance) : DB :=
  set_stocks db (<[pk := s]> (stocks db)).

(** *** Requests and responses *)

(** [request.user]. *)
Inductive RequestUser :=
| AnonymousUser
| Authenticated (uid : nat).

(** The body of a create request, as the view reads it:
    [request.data.get("product_name", "")], [request.data.get("slot", "")]
    and [request.data.get("delivery_address", "")] are strings (absent
    fields are empty); [req_quantity] is the value of
    [int(request.data.get("quantity", 0))], with [None] when [int] raises
    [ValueError] or [TypeError]. *)
Record PlaceRequest := mk_request {
  req_product_name : string;
  req_quantity : option Z;
  req_slot : string;
  req_delivery_address : string
}.

(** Exceptions no view catches; the framework answers them with status 500. *)
Inductive Exception :=
| OverflowError
| MultipleObjects
| StockBalanceDoesNotExist
| UnboundLocalError.

(** One row of the report query's [values(...)]. *)
Record ReportRow := mk_row {
  rr_id : nat;
  rr_user__username : string;
  rr_product__name : string;
  rr_quantity : Z;
  rr_created_at : datetime;
  rr_delivery_date : date
}.

(** The responses of the views, one constructor per [Response(...)] or
    raised error in views.py. *)
Inductive Response :=
| AuthenticationRequired
| ProvideProductName
| NoProductsFound (name : string)
| NoExactMatch (name : string) (suggestions : list (nat * string))
| QuantityNotPositive
| QuantityNotNumber
| InvalidSlot (valid_slots : list string)
| AddressEmpty
| AddressNoLetter
| AddressBadCharacters
| StockNotFound
| InsufficientStock (name : string) (available : Z)
| OrderCreated (pk : nat) (order : PreOrder)
| OrderNotFound
| OrderAlreadyCancelled
| OrderCancelled
| StockUpdateNotFound
| StockQuantityInvalid
| StockUpdateOutsideSlots
| StockUpdated (pk : nat) (row : StockBalance)
| SlotRequired
| NoOrdersFound (slot : string)
| OrderList (rows : list (nat * PreOrder))
| InvalidDateFormat
| Report (rows : list ReportRow)
| Unhandled (e : Exception).

(** HTTP status of each response. *)
Definition status (r : Response) : Z :=
  match r with
  | AuthenticationRequired => 401
  | NoProductsFound _ | StockNotFound | OrderNotFound | StockUpdateNotFound => 404
  | NoExactMatch _ _ => 300
  | OrderCreated _ _ => 201
  | OrderCancelled | StockUpdated _ _ | NoOrdersFound _ | OrderList _
  | Report _ => 200
  | Unhandled _ => 500
  | _ => 400
  end.

Definition str_of_int (z : Z) : string := NilZero.string_of_int (Z.to_int z).

(** The text under ["error"] (or the validation detail) of each failure. *)
Definition error_text (r : Response) : option string :=
  match r with
  | AuthenticationRequired => Some "Authentication required"
  | ProvideProductName => Some "Provide product_name"
  | NoProductsFound n => Some ("No products found for '" ++ n ++ "'")
  | NoExactMatch n _ => Some ("No exact match for '" ++ n ++ "'")
  | QuantityNotPositive => Some "Quantity must be greater than zero."
  | QuantityNotNumber => Some "Quantity must be a valid number."
  | InvalidSlot vs => Some ("Invalid slot. Choose one of: " ++ join ", " vs)
  | AddressEmpty => Some "Delivery address cannot be empty."
  | AddressNoLetter => Some "Delivery address must contain at least one letter."
  | AddressBadCharacters =>
      Some "Delivery address can only contain letters, numbers, spaces, and ,.-"
  | StockNotFound => Some "Stock not found"
  | InsufficientStock n q =>
      Some ("Insufficient stock for " ++ n ++ ". Available: " ++ str_of_int q)
  | OrderNotFound => Some "Order not found or not authorized"
  | OrderAlreadyCancelled => Some "Order already cancelled"
  | StockUpdateOutsideSlots =>
      Some ("Stock can only be updated during allowed slots: "
            ++ "Morning (8AM–12PM) or Evening (6PM–7PM).")
  | SlotRequired => Some "Slot parameter is required."
  | InvalidDateFormat => Some "Invalid date format. Use YYYY-MM-DD"
  | _ => None
  end%string.

(** *** [PreOrderCreateView.create] *)

(** Lines 150-164: the exact match, else the suggestions, else nothing. *)
Inductive Resolution :=
| Exact (product : Product)
| Suggestions (candidates : list (nat * string))
| NoMatch.

Definition resolve_product (db : DB) (product_name : string) : Resolution :=
  match Product_filter_iexact db product_name with
  | product :: _ => Exact product                     (* .first() *)
  | [] =>
      match Product_filter_icontains db product_name with
      | [] => NoMatch                                 (* not suggestions.exists() *)
      | suggestions => Suggestions (values_id_name suggestions)
      end
  end.

(** Lines 215-218, the cut-off rule. *)
Definition cutoff : time := mk_time 18 0 0 0.

Definition compute_delivery_date (now : datetime) : option date :=
  match add_days (dt_date now) 1 with
  | None => None
  | Some delivery_date =>
      if time_ge (dt_time now) cutoff
      then add_days delivery_date 1
      else Some delivery_date
  end.

Definition valid_slots : list string := List.map fst SLOT_CHOICES.

(** Line 196: [c.isalnum() or c.isspace() or c in ",.-"]. *)
Definition address_char_ok (c : ascii) : bool :=
  isalnum c || isspace c || any_char (Ascii.eqb c) ",.-".

Definition PreOrderCreateView_create
    (db : DB) (user : RequestUser) (req : PlaceRequest) (now : datetime)
  : Response * DB :=
  match user with
  | AnonymousUser => (AuthenticationRequired, db)
  | Authenticated uid =>
  (* --- Product --- *)
  let product_name_in := strip (req_product_name req) in
  if is_empty product_name_in then (ProvideProductName, db) else
  match resolve_product db product_name_in with
  | NoMatch => (NoProductsFound product_name_in, db)
  | Suggestions l => (NoExactMatch product_name_in l, db)
  | Exact product =>
  (* --- Quantity --- *)
  match req_quantity req with
  | None => (QuantityNotNumber, db)
  | Some qty =>
  if qty <=? 0 then (QuantityNotPositive, db) else
  (* --- Slot --- *)
  let slot_input := upper (strip (req_slot req)) in
  match DeliverySlot_get db slot_input with
  | DoesNotExist => (InvalidSlot valid_slots, db)
  | MultipleObjectsReturned => (Unhandled MultipleObjects, db)
  | Got slot =>
  (* --- Delivery Address --- *)
  let address := strip (req_delivery_address req) in
  if is_empty address then (AddressEmpty, db) else
  if negb (any_char isalpha address) then (AddressNoLetter, db) else
  if negb (all_chars address_char_ok address) then (AddressBadCharacters, db) else
  (* --- Stock Check --- *)
  match StockBalance_get db (product_id product) with
  | DoesNotExist => (StockNotFound, db)
  | MultipleObjectsReturned => (Unhandled MultipleObjects, db)
  | Got (stock_pk, stock) =>
  if sb_quantity stock <? qty
  then (InsufficientStock (product_name product) (sb_quantity stock), db) else
  (* --- Cutoff Logic --- *)
  match compute_delivery_date now with
  | None => (Unhandled OverflowError, db)
  | Some delivery_date =>
  (* --- Create PreOrder --- (created_at is stamped by the ORM at the
     insertion, a clock read of its own; it is taken to be the instant of
     the request) *)
  let preorder :=
    mk_preorder uid (product_id product) (slot_id slot) qty now
                delivery_date address false in
  let (pk, db1) := PreOrder_create db preorder in
  (* Deduct stock *)
  let db2 :=
    StockBalance_save db1 stock_pk
      (mk_stock (sb_product stock) (sb_quantity stock - qty)) in
  (OrderCreated pk preorder, db2)
  end end end end end end.

(** *** [CancelOrderView.post] *)

Definition mark_cancelled (o : PreOrder) : PreOrder :=
  mk_preorder (po_user o) (po_product o) (po_slot o) (po_quantity o)
              (po_created_at o) (po_delivery_date o) (po_delivery_address o)
              true.

Definition CancelOrderView_post (db : DB) (user pk : nat) : Response * DB :=
  match PreOrder_get db pk user with
  | None => (OrderNotFound, db)
  | Some preorder =>
  if po_is_cancelled preorder then (OrderAlreadyCancelled, db) else
  (* preorder.is_cancelled = True; preorder.save() *)
  let db1 := PreOrder_save db pk (mark_cancelled preorder) in
  match StockBalance_get db1 (po_product preorder) with
  | DoesNotExist => (Unhandled StockBalanceDoesNotExist, db1)
  | MultipleObjectsReturned => (Unhandled MultipleObjects, db1)
  | Got (stock_pk, stock) =>
  (* stock.quantity += preorder.quantity; stock.save() (the column is
     taken to hold the sum) *)
  let db2 :=
    StockBalance_save db1 stock_pk
      (mk_stock (sb_product stock) (sb_quantity stock + po_quantity preorder)) in
  (OrderCancelled, db2)
  end end.

(** *** [StockUpdateView] *)

(** Line 114: the two closed intervals of the day in which stock may be
    written. *)
Definition in_update_slot (t : time) : bool :=
  (time_le (mk_time 8 0 0 0) t && time_le t (mk_time 12 0 0 0)) ||
  (time_le (mk_time 18 0 0 0) t && time_le t (mk_time 19 0 0 0)).

(** The serializer handed to [perform_update]: the row [get_object] loaded
    and the validated quantity of the request.  The requests covered are
    those that send a quantity and no [product_id]. *)
Record StockSerializer := mk_serializer {
  ser_pk : nat;
  ser_instance : StockBalance;
  ser_quantity : Z
}.

(** [serializer.save()]. *)
Definition StockSerializer_save (db : DB) (ser : StockSerializer)
  : StockBalance * DB :=
  let row := mk_stock (sb_product (ser_instance ser)) (ser_quantity ser) in
  (row, StockBalance_save db (ser_pk ser) row).

Definition StockUpdateView_perform_update
    (db : DB) (ser : StockSerializer) (now : datetime) : Response * DB :=
  if negb (in_update_slot (dt_time now))
  then (StockUpdateOutsideSlots, db)
  else let (row, db1) := StockSerializer_save db ser in
       (StockUpdated (ser_pk ser) row, db1).

(** The inherited [UpdateAPIView] handler around [perform_update]:
    [get_object()] answers 404 for an unknown key, the serializer rejects a
    negative quantity (the largest value of the column is not part of this
    model), and only then [perform_update] runs. *)
Definition StockUpdateView_update
    (db : DB) (pk : nat) (quantity : Z) (now : datetime) : Response * DB :=
  match stocks db !! pk with
  | None => (StockUpdateNotFound, db)
  | Some instance =>
      if quantity <? 0 then (StockQuantityInvalid, db)
      else StockUpdateView_perform_update db (mk_serializer pk instance quantity) now
  end.

(** *** [OrderListBySlotView.list] *)

(** [PreOrder.objects.filter(slot=slot, is_cancelled=False)]. *)
Definition PreOrder_filter_slot_active (db : DB) (slot : nat)
  : list (nat * PreOrder) :=
  List.filter
    (fun kv => Nat.eqb (po_slot (snd kv)) slot && negb (po_is_cancelled (snd kv)))
    (map_to_list (preorders db)).

Definition OrderListBySlotView_list (db : DB) (slot_param : option string)
  : Response :=
  match slot_param with
  | None => SlotRequired
  | Some slot_input =>
  if is_empty slot_input then SlotRequired else
  let slot_input := upper (strip slot_input) in
  match DeliverySlot_get db slot_input with
  | DoesNotExist => InvalidSlot valid_slots
  | MultipleObjectsReturned => Unhandled MultipleObjects
  | Got slot =>
  match PreOrder_filter_slot_active db (slot_id slot) with
  | [] => NoOrdersFound (slot_name slot)
  | queryset => OrderList queryset
  end end end.

(** *** [TopProductsReportView.get] *)

(** [filter(delivery_date__range=[start_date, end_date], is_cancelled=False)]. *)
Definition PreOrder_filter_range_active (db : DB) (start_date end_date : date)
  : list (nat * PreOrder) :=
  List.filter
    (fun kv => (start_date <=? po_delivery_date (snd kv)) &&
               (po_delivery_date (snd kv) <=? end_date) &&
               negb (po_is_cancelled (snd kv)))
    (map_to_list (preorders db)).

(** [values("id", "user__username", "product__name", "quantity",
    "created_at", "delivery_date")]: the joins follow the two foreign keys. *)
Definition report_row (db : DB) (kv : nat * PreOrder) : option ReportRow :=
  match users db !! po_user (snd kv),
        List.find (fun p => Nat.eqb (product_id p) (po_product (snd kv)))
                  (products db) with
  | Some username, Some product =>
      Some (mk_row (fst kv) username (product_name product)
                   (po_quantity (snd kv)) (po_created_at (snd kv))
                   (po_delivery_date (snd kv)))
  | _, _ => None
  end.

(** [order_by("-quantity")]. *)
Definition quantity_desc (a b : ReportRow) : Prop := rr_quantity b <= rr_quantity a.

#[global] Instance quantity_desc_dec : RelDecision quantity_desc.
Proof. intros a b. unfold quantity_desc. apply Z_le_dec. Defined.

Definition order_by_quantity_desc (rows : list ReportRow) : list ReportRow :=
  merge_sort quantity_desc rows.

(** [start] and [end_] are the results of
    [datetime.strptime(..., "%Y-%m-%d").date()] on the two query
    parameters, [None] when it raises [TypeError] or [ValueError].  The
    assignment to [qs] sits inside the [if start_date > end_date] block;
    on the other branch the final [Response(qs, ...)] reads a local that was
    never bound. *)
Definition TopProductsReportView_get (db : DB) (start end_ : option date)
  : Response :=
  match start, end_ with
  | Some start_date, Some end_date =>
      if end_date <? start_date then
        let (start_date, end_date) := (end_date, start_date) in
        let qs :=
          order_by_quantity_desc
            (omap (report_row db)
                  (PreOrder_filter_range_active db start_date end_date)) in
        Report qs
      else Unhandled UnboundLocalError
  | _, _ => InvalidDateFormat
  end.

(** *** Sequences of requests *)

Inductive Op :=
| PlaceOrder (user : RequestUser) (req : PlaceRequest) (now : datetime)
| CancelOrder (user pk : nat)
| AdjustStock (pk : nat) (quantity : Z) (now : datetime).

Definition exec (db : DB) (op : Op) : Response * DB :=
  match op with
  | PlaceOrder user req now => PreOrderCreateView_create db user req now
  | CancelOrder user pk => CancelOrderView_post db user pk
  | AdjustStock pk quantity now => StockUpdateView_update db pk quantity now
  end.

Definition run (db : DB) (ops : list Op) : DB :=
  fold_left (fun d op => snd (exec d op)) ops db.

End Model.

(** ** Predicates the properties are stated with *)

Module Props.
Import Text Clock Model.

(** Every stored quantity respects its [PositiveIntegerField]. *)
Definition stock_nonneg (db : DB) : Prop :=
  map_Forall (fun _ s => 0 <= sb_quantity s) (stocks db).
Definition orders_nonneg (db : DB) : Prop :=
  map_Forall (fun _ o => 0 <= po_quantity o) (preorders db).
Definition db_ok (db : DB) : Prop := stock_nonneg db /\ orders_nonneg db.

(** The three checks of lines 188-200 on the stripped address. *)
Definition address_ok (address : string) : bool :=
  negb (is_empty address) && any_char isalpha address &&
  all_chars address_char_ok address.

(** 08:00-12:00 and 18:00-19:00, in microseconds since midnight. *)
Definition inside_update_windows (t : time) : Prop :=
  28800000000 <= micros t <= 43200000000 \/
  64800000000 <= micros t <= 68400000000.

(** The slot table holds a row for each name of [SLOT_CHOICES], as the
    [seed_products] command leaves it. *)
Definition slots_seeded (db : DB) : Prop :=
  forall name, In name valid_slots ->
               exists s, DeliverySlot_get db name = Got s /\ slot_name s = name.

(** [text] is [name] in some mix of upper and lower case, possibly
    surrounded by whitespace. *)
Definition padded_case_variant (text name : string) : Prop :=
  exists ws1 t ws2,
    text = (ws1 ++ t ++ ws2)%string /\
    all_chars isspace ws1 = true /\ all_chars isspace ws2 = true /\
    iexact t name = true.

(** An order counts for the report over [lo, hi]. *)
Definition reported (db : DB) (lo hi : date) (pk : nat) (o : PreOrder) : Prop :=
  preorders db !! pk = Some o /\
  lo <= po_delivery_date o <= hi /\ po_is_cancelled o = false.

(** The (product, quantity) columns of a report. *)
Definition report_pairs (r : Response) : option (list (string * Z)) :=
  match r with
  | Report rows =>
      Some (List.map (fun row => (rr_product__name row, rr_quantity row)) rows)
  | _ => None
  end.

(** The report as the specification words it: one pair per product,
    carrying the sum of the quantities of that product's non-cancelled
    orders in the range, by descending total. *)
Definition total_quantity (db : DB) (lo hi : date) (name : string) : Z :=
  foldr Z.add 0
    (List.map rr_quantity
       (List.filter (fun row => String.eqb (rr_product__name row) name)
          (omap (report_row db) (PreOrder_filter_range_active db lo hi)))).

Definition aggregated_per_product
    (db : DB) (lo hi : date) (pairs : list (string * Z)) : Prop :=
  NoDup (List.map fst pairs) /\
  (forall name q, In (name, q) pairs -> q = total_quantity db lo hi name) /\
  Sorted (fun a b => snd b <= snd a) pairs.

(** What a successful placement went through, and what it wrote: the
    request [req] of user [uid] at [now] stored order [o] under key [pk] and
    left the database [db']. *)
Inductive placed (db : DB) (req : PlaceRequest) (now : datetime)
          (uid pk : nat) (o : PreOrder) (db' : DB) : Prop :=
| Placed (product : Product) (slot : DeliverySlot)
         (stock_pk : nat) (stock : StockBalance) :
    resolve_product db (strip (req_product_name req)) = Exact product ->
    req_quantity req = Some (po_quantity o) ->
    0 < po_quantity o ->
    DeliverySlot_get db (upper (strip (req_slot req))) = Got slot ->
    StockBalance_get db (product_id product) = Got (stock_pk, stock) ->
    po_quantity o <= sb_quantity stock ->
    compute_delivery_date now = Some (po_delivery_date o) ->
    o = mk_preorder uid (product_id product) (slot_id slot) (po_quantity o)
                    now (po_delivery_date o)
                    (strip (req_delivery_address req)) false ->
    pk = next_pk (preorders db) ->
    db' = StockBalance_save
            (set_preorders db (<[pk := o]> (preorders db))) stock_pk
            (mk_stock (sb_product stock) (sb_quantity stock - po_quantity o)) ->
    placed db req now uid pk o db'.

End Props.

(** ** Sample data *)

Module Examples.
Import Text Clock Model.

Definition noon_before_cutoff : datetime := mk_datetime 739000 (mk_time 17 30 0 0).

Definition seeded_slots : list DeliverySlot :=
  [mk_slot 1 "MORNING"; mk_slot 2 "AFTERNOON"; mk_slot 3 "EVENING"].

Definition an_order (user product : nat) (quantity : Z) (cancelled : bool)
  : PreOrder :=
  mk_preorder user product 1 quantity noon_before_cutoff 739001
              "123 Street" cancelled.

(** The catalogue of the test fixtures, extended with a second product
    starting with "Ban". *)
Definition shop : DB :=
  mk_db {[ 1%nat := "cust"; 2%nat := "other" ]}
        [mk_product 1 "Apple"; mk_product 2 "Banana"; mk_product 3 "Bandaid"]
        {[ 1%nat := mk_stock 1 10; 2%nat := mk_stock 2 5 ]}
        seeded_slots
        ∅.

(** [shop] with one active order of user 1 for two apples. *)
Definition shop_one_order : DB :=
  set_preorders shop {[ 1%nat := an_order 1 1 2 false ]}.

(** [shop_one_order] after the stock row of the apples was deleted: an
    active order whose product has no stock row. *)
Definition shop_without_stock : DB :=
  set_stocks shop_one_order (delete 1%nat (stocks shop_one_order)).

(** Two active orders for apples, by two users. *)
Definition shop_two_orders : DB :=
  set_preorders shop
    {[ 1%nat := an_order 1 1 6 false; 2%nat := an_order 2 1 1 false ]}.

Definition apple_request (quantity : Z) : PlaceRequest :=
  mk_request " apple " (Some quantity) " Evening " "12 Main St.".

End Examples.

(** ** Requests in flight

    [PreOrderCreateView.create] opens no transaction, takes no lock and
    writes the stock row back from the value it has read
    ([stock.quantity -= qty; stock.save()]), so each of its ORM calls is a
    statement of its own and the calls of two requests that are served at
    the same time may alternate.  Here the view is cut at its ORM calls: a
    request in flight is the call it will make next, with the local
    variables it holds at that point. *)

Module Interleaving.
Import Text Clock Model.

Inductive Pending :=
(* line 140, before [Product.objects.filter(name__iexact=...).first()] *)
| AtProduct (user : RequestUser) (req : PlaceRequest) (now : datetime)
(* line 153, before [suggestions.exists()] *)
| AtSuggestions (product_name : string)
(* line 161, before [list(suggestions.values("id", "name"))] *)
| AtSuggestionsList (product_name : string)
(* line 177, before [DeliverySlot.objects.get(name=slot_input)] *)
| AtSlot (uid : nat) (product : Product) (qty : Z) (req : PlaceRequest)
         (now : datetime)
(* line 204, before [StockBalance.objects.get(product=product)] *)
| AtStock (uid : nat) (product : Product) (qty : Z) (slot : DeliverySlot)
          (address : string) (now : datetime)
(* line 221, before [PreOrder.objects.create(...)]; [stock] is the row as
   it was read *)
| AtCreate (uid : nat) (product : Product) (qty : Z) (slot : DeliverySlot)
           (address : string) (stock_pk : nat) (stock : StockBalance)
           (delivery_date : date) (now : datetime)
(* line 232, before [stock.save()] *)
| AtSave (pk : nat) (preorder : PreOrder) (qty : Z)
         (stock_pk : nat) (stock : StockBalance)
(* the response is returned *)
| Finished (response : Response).

(** The next ORM call of a request, and the Python code that follows it up
    to the call after it. *)
Definition step (db : DB) (p : Pending) : Pending * DB :=
  match p with
  | AtProduct user req now =>
      match user with
      | AnonymousUser => (Finished AuthenticationRequired, db)
      | Authenticated uid =>
      let product_name_in := strip (req_product_name req) in
      if is_empty product_name_in then (Finished ProvideProductName, db) else
      match Product_filter_iexact db product_name_in with
      | [] => (AtSuggestions product_name_in, db)
      | product :: _ =>
      match req_quantity req with
      | None => (Finished QuantityNotNumber, db)
      | Some qty =>
      if qty <=? 0 then (Finished QuantityNotPositive, db)
      else (AtSlot uid product qty req now, db)
      end end end
  | AtSuggestions product_name_in =>
      match Product_filter_icontains db product_name_in with
      | [] => (Finished (NoProductsFound product_name_in), db)
      | _ => (AtSuggestionsList product_name_in, db)
      end
  | AtSuggestionsList product_name_in =>
      (Finished (NoExactMatch product_name_in
                   (values_id_name (Product_filter_icontains db product_name_in))),
       db)
  | AtSlot uid product qty req now =>
      let slot_input := upper (strip (req_slot req)) in
      match DeliverySlot_get db slot_input with
      | DoesNotExist => (Finished (InvalidSlot valid_slots), db)
      | MultipleObjectsReturned => (Finished (Unhandled MultipleObjects), db)
      | Got slot =>
      let address := strip (req_delivery_address req) in
      if is_empty address then (Finished AddressEmpty, db) else
      if negb (any_char isalpha address) then (Finished AddressNoLetter, db) else
      if negb (all_chars address_char_ok address)
      then (Finished AddressBadCharacters, db)
      else (AtStock uid product qty slot address now, db)
      end
  | AtStock uid product qty slot address now =>
      match StockBalance_get db (product_id product) with
      | DoesNotExist => (Finished StockNotFound, db)
      | MultipleObjectsReturned => (Finished (Unhandled MultipleObjects), db)
      | Got (stock_pk, stock) =>
      if sb_quantity stock <? qty
      then (Finished (InsufficientStock (product_name product)
                                        (sb_quantity stock)), db) else
      match compute_delivery_date now with
      | None => (Finished (Unhandled OverflowError), db)
      | Some delivery_date =>
          (AtCreate uid product qty slot address stock_pk stock delivery_date now,
           db)
      end end
  | AtCreate uid product qty slot address stock_pk stock delivery_date now =>
      let preorder :=
        mk_preorder uid (product_id product) (slot_id slot) qty now
                    delivery_date address false in
      let (pk, db1) := PreOrder_create db preorder in
      (AtSave pk preorder qty stock_pk stock, db1)
  | AtSave pk preorder qty stock_pk stock =>
      (Finished (OrderCreated pk preorder),
       StockBalance_save db stock_pk
         (mk_stock (sb_product stock) (sb_quantity stock - qty)))
  | Finished response => (Finished response, db)
  end.

(** [n] consecutive steps of one request. *)
Fixpoint steps (n : nat) (db : DB) (p : Pending) : Pending * DB :=
  match n with
  | O => (p, db)
  | S n' => let (p', db') := step db p in steps n' db' p'
  end.

(** The requests being served, and a schedule: which of them makes its next
    call, turn by turn.  A turn given to a finished request, or to none,
    does nothing. *)
Definition turn (db : DB) (pool : list Pending) (i : nat)
  : list Pending * DB :=
  match pool !! i with
  | Some p => let (p', db') := step db p in (<[i := p']> pool, db')
  | None => (pool, db)
  end.

Definition interleave (db : DB) (pool : list Pending) (schedule : list nat)
  : list Pending * DB :=
  fold_left (fun s i => turn (snd s) (fst s) i) schedule (pool, db).

(** The longest path through the view makes five calls; [whole i] lets
    request [i] run from its start to its response, and [serial] runs the
    requests one after the other in the given order. *)
Definition whole (i : nat) : list nat := replicate 5 i.

Definition serial (db : DB) (pool : list Pending) (order : list nat)
  : list Pending * DB :=
  interleave db pool (flat_map whole order).

(** A schedule is linearizable when the requests get the responses of some
    serial order. *)
Definition linearizable (db : DB) (pool : list Pending) (schedule : list nat)
  : Prop :=
  exists order,
    order ≡ₚ seq 0 (length pool) /\
    fst (interleave db pool schedule) = fst (serial db pool order).

(** The scenario of two customers asking for six apples each while ten are
    in stock: both read the stock row before either writes. *)
Definition six_and_six : list Pending :=
  [AtProduct (Authenticated 1) (Examples.apple_request 6)
             Examples.noon_before_cutoff;
   AtProduct (Authenticated 2) (Examples.apple_request 6)
             Examples.noon_before_cutoff].

Definition checks_then_writes : list nat :=
  [0; 0; 0; 1; 1; 1; 0; 0; 1; 1]%nat.

End Interleaving.

(** ** Integrity constraints and stock accounting *)

Module Ledger.
Import Text Clock Model.

(** The [OneToOneField] of [StockBalance]: no two stock rows share a
    product. *)
Definition stock_unique (db : DB) : Prop :=
  forall k1 k2 s1 s2,
    stocks db !! k1 = Some s1 -> stocks db !! k2 = Some s2 ->
    sb_product s1 = sb_product s2 -> k1 = k2.

(** Every order is for a product that has a stock row. *)
Definition orders_stocked (db : DB) : Prop :=
  forall pk o,
    preorders db !! pk = Some o ->
    exists k s, stocks db !! k = Some s /\ sb_product s = po_product o.

Definition consistent (db : DB) : Prop := stock_unique db /\ orders_stocked db.

(** [unique=True] on [DeliverySlot.name] and the primary keys of the two
    tables that are kept as lists of rows. *)
Definition slot_names_unique (db : DB) : Prop :=
  NoDup (List.map slot_name (slots db)).
Definition slot_ids_unique (db : DB) : Prop :=
  NoDup (List.map slot_id (slots db)).
Definition product_ids_unique (db : DB) : Prop :=
  NoDup (List.map product_id (products db)).

(** The sum of [f] over the rows of a table. *)
Definition total {A : Type} (f : A -> Z) (table : gmap nat A) : Z :=
  foldr Z.add 0 (List.map (fun kv => f (snd kv)) (map_to_list table)).

(** What the stock rows of [product] hold, and what its active orders have
    taken. *)
Definition on_hand (db : DB) (product : nat) : Z :=
  total (fun s => if Nat.eqb (sb_product s) product then sb_quantity s else 0)
        (stocks db).
Definition reserved (db : DB) (product : nat) : Z :=
  total (fun o => if po_is_cancelled o then 0
                  else if Nat.eqb (po_product o) product then po_quantity o
                       else 0)
        (preorders db).

(** Requests that place or cancel, as opposed to stock updates. *)
Definition is_customer_op (op : Op) : Prop :=
  match op with
  | AdjustStock _ _ _ => False
  | _ => True
  end.

(** What a [PositiveIntegerField] column holds: nothing below zero and
    nothing above [column_max], the largest value of the integer column of
    the database in use (2147483647 is within it on every backend Django
    supports).  [save] raises for a value outside this range. *)
Definition column_holds (column_max q : Z) : Prop := 0 <= q <= column_max.

(** What a product has in stock and what its active orders hold fit the
    column together, so that giving back an order never asks the stock row
    for more than it can hold. *)
Definition within_capacity (column_max : Z) (db : DB) : Prop :=
  forall product, on_hand db product + reserved db product <= column_max.

(** The databases on which placing and cancelling are studied below: the
    constraints of the tables hold, no stored quantity is negative, and the
    quantities fit their column. *)
Definition sound (column_max : Z) (db : DB) : Prop :=
  consistent db /\ Props.db_ok db /\ within_capacity column_max db.

(** Text within ASCII, on which the character tests of [Text] are those of
    Python's [str]. *)
Definition is_ascii (s : string) : bool :=
  all_chars (fun c => code c <? 128) s.

Definition ascii_request (req : PlaceRequest) : Prop :=
  is_ascii (req_product_name req) = true /\
  is_ascii (req_slot req) = true /\
  is_ascii (req_delivery_address req) = true.

(** The order [o] stored under [pk] is listed for the slot [slot]. *)
Definition listed (db : DB) (slot : DeliverySlot) (pk : nat) (o : PreOrder) : Prop :=
  preorders db !! pk = Some o /\
  po_slot o = slot_id slot /\ po_is_cancelled o = false.

End Ledger.

(** ** Accounts, roles and permissions
    ([models.py] [CustomUser], [permissions.py], [serializers.py]
    [SignupSerializer], and the [permission_classes] of [views.py]) *)

Module Auth.
Import Text Clock Model.

(** [CustomUser]: the columns the permission classes and the signup use.
    The password is write-only and stored hashed; nothing here reads it. *)
Record CustomUser := mk_user {
  cu_username : string;
  cu_role : string;
  cu_is_staff : bool
}.

(** [CustomUser.ROLE_CHOICES]. *)
Definition ROLE_CHOICES : list (string * string) :=
  [("customer", "Customer"); ("ops_manager", "Ops Manager")]%string.

(** [CustomUser.is_ops_manager] and [CustomUser.is_customer]. *)
Definition is_ops_manager (u : CustomUser) : bool :=
  String.eqb (cu_role u) "ops_manager".
Definition is_customer (u : CustomUser) : bool :=
  String.eqb (cu_role u) "customer".

(** [request.user]: Django's anonymous user, or a stored account and its
    key. *)
Inductive Requester :=
| Anonymous
| Account (uid : nat) (u : CustomUser).

Definition is_authenticated (r : Requester) : bool :=
  match r with Anonymous => false | Account _ _ => true end.
Definition is_staff (r : Requester) : bool :=
  match r with Anonymous => false | Account _ u => cu_is_staff u end.

(** [request.user.role == role]; the anonymous user has no role, and the
    [and] chains below only look at it after [is_authenticated]. *)
Definition role_is (r : Requester) (role : string) : bool :=
  match r with Anonymous => false | Account _ u => String.eqb (cu_role u) role end.

(** [permissions.py]: [request.user and request.user.is_authenticated and
    request.user.role == ...] ([request.user] is an object, hence true). *)
Definition IsOpsManager_has_permission (r : Requester) : bool :=
  true && is_authenticated r && role_is r "ops_manager".
Definition IsCustomer_has_permission (r : Requester) : bool :=
  true && is_authenticated r && role_is r "customer".

(** The permission classes the views name: the two above and the
    framework's [AllowAny], [IsAuthenticated] and [IsAdminUser]. *)
Inductive Permission :=
| AllowAny
| IsAuthenticated
| IsAdminUser
| IsOpsManager
| IsCustomer.

Definition has_permission (p : Permission) (r : Requester) : bool :=
  match p with
  | AllowAny => true
  | IsAuthenticated => is_authenticated r
  | IsAdminUser => is_staff r
  | IsOpsManager => IsOpsManager_has_permission r
  | IsCustomer => IsCustomer_has_permission r
  end.

Inductive View :=
| SignupView
| LoginView
| LogoutView
| OpsManagerCreateView
| ProductListView
| DeliverySlotListView
| StockUpdateView
| PreOrderCreateView
| CancelOrderView
| OrderListBySlotView
| TopProductsReportView.

(** The [permission_classes] attribute of each view class. *)
Definition permission_classes (v : View) : list Permission :=
  match v with
  | SignupView | LoginView | ProductListView | DeliverySlotListView => [AllowAny]
  | LogoutView => [IsAuthenticated]
  | OpsManagerCreateView => [IsAdminUser]
  | StockUpdateView | OrderListBySlotView | TopProductsReportView => [IsOpsManager]
  | PreOrderCreateView | CancelOrderView => [IsCustomer]
  end.

(** The framework's [check_permissions]: every class of the view must
    grant the request before the handler runs. *)
Definition check_permissions (v : View) (r : Requester) : bool :=
  forallb (fun p => has_permission p r) (permission_classes v).

(** What reaches the caller: the refusal of the permission check, or the
    response of the handler. *)
Inductive Outcome :=
| Refused
| Handled (response : Response).

Definition request_user (r : Requester) : RequestUser :=
  match r with Anonymous => AnonymousUser | Account uid _ => Authenticated uid end.

(** The five endpoints of the ordering core, behind their permission
    checks. *)
Definition place_order (db : DB) (r : Requester) (req : PlaceRequest)
    (now : datetime) : Outcome * DB :=
  if check_permissions PreOrderCreateView r
  then let (response, db') :=
         PreOrderCreateView_create db (request_user r) req now in
       (Handled response, db')
  else (Refused, db).

Definition cancel_order (db : DB) (r : Requester) (pk : nat) : Outcome * DB :=
  match r with
  | Account uid _ =>
      if check_permissions CancelOrderView r
      then let (response, db') := CancelOrderView_post db uid pk in
           (Handled response, db')
      else (Refused, db)
  | Anonymous => (Refused, db)
  end.

Definition update_stock (db : DB) (r : Requester) (pk : nat) (quantity : Z)
    (now : datetime) : Outcome * DB :=
  if check_permissions StockUpdateView r
  then let (response, db') := StockUpdateView_update db pk quantity now in
       (Handled response, db')
  else (Refused, db).

Definition list_orders (db : DB) (r : Requester) (slot_param : option string)
  : Outcome :=
  if check_permissions OrderListBySlotView r
  then Handled (OrderListBySlotView_list db slot_param)
  else Refused.

Definition top_products (db : DB) (r : Requester) (start end_ : option date)
  : Outcome :=
  if check_permissions TopProductsReportView r
  then Handled (TopProductsReportView_get db start end_)
  else Refused.

(** *** Signing up *)

(** The account table, by primary key. *)
Definition username_taken (accounts : gmap nat CustomUser) (value : string)
  : bool :=
  existsb (fun kv => String.eqb (cu_username (snd kv)) value)
          (map_to_list accounts).

(** [SignupSerializer.validate_username]: [None] is the
    [ValidationError("User already exists, please login.")]. *)
Definition validate_username (accounts : gmap nat CustomUser) (value : string)
  : option string :=
  if username_taken accounts value then None else Some value.

(** The body of a signup request as the three fields of the serializer
    hand it on.  [run_validation] of a field gives the cleaned value or
    fails, and [None] stands for the failure: [sr_username] comes from the
    field the framework derives from the [username] column (the text is
    required, may not be blank and has to pass the validators of the
    column), [sr_password] from the declared [CharField] (required, not
    blank).  [sr_role] is the role text the request sent, if it sent one;
    the choice field checks it against [ROLE_CHOICES]. *)
Record SignupRequest := mk_signup_request {
  sr_username : option string;
  sr_password : option string;
  sr_role : option string
}.

(** The validated data of the signup serializer: the username, the
    password and, when the request sent one, the role. *)
Record SignupData := mk_signup {
  sd_username : string;
  sd_password : string;
  sd_role : option string
}.

(** [SignupSerializer.create]: the role defaults to "customer"; the
    password goes through [set_password] and is not kept in the model of
    the account. *)
Definition SignupSerializer_create
    (accounts : gmap nat CustomUser) (validated_data : SignupData)
  : nat * CustomUser * gmap nat CustomUser :=
  let role := default "customer"%string (sd_role validated_data) in
  let user := mk_user (sd_username validated_data) role false in
  let pk := next_pk accounts in
  (pk, user, <[pk := user]> accounts).

(** [serializer.save] with keyword arguments: they override the validated
    data before [create] runs. *)
Definition SignupSerializer_save
    (accounts : gmap nat CustomUser) (validated_data : SignupData)
    (role_kwarg : option string)
  : nat * CustomUser * gmap nat CustomUser :=
  SignupSerializer_create accounts
    (mk_signup (sd_username validated_data) (sd_password validated_data)
               (match role_kwarg with
                | Some role => Some role
                | None => sd_role validated_data
                end)).

(** The answers of the two account-creating views.  A rejection carries the
    fields that failed validation: the serializer checks every field and
    reports all errors together. *)
Inductive SignupResponse :=
| SignedUp (pk : nat) (user : CustomUser)
| Rejected (username_error password_error role_error : bool)
| NotAuthenticated
| PermissionDenied.

(** The choice field the serializer derives from [ROLE_CHOICES]. *)
Definition role_valid (role : option string) : bool :=
  match role with
  | None => true
  | Some r => existsb (fun c => String.eqb (fst c) r) ROLE_CHOICES
  end.

Definition failed {A : Type} (checked : option A) : bool :=
  match checked with None => true | Some _ => false end.

(** The username after its field and then [validate_username], which the
    serializer runs on the value the field has accepted. *)
Definition checked_username
    (accounts : gmap nat CustomUser) (request : SignupRequest) : option string :=
  match sr_username request with
  | Some value => validate_username accounts value
  | None => None
  end.

(** Validation of the signup serializer: each field in turn, the errors
    collected. *)
Definition SignupSerializer_is_valid
    (accounts : gmap nat CustomUser) (request : SignupRequest)
  : SignupResponse + SignupData :=
  match checked_username accounts request, sr_password request,
        role_valid (sr_role request) with
  | Some value, Some password, true =>
      inr (mk_signup value password (sr_role request))
  | username, password, role_ok =>
      inl (Rejected (failed username) (failed password) (negb role_ok))
  end.

(** [SignupView]: [AllowAny], and the inherited [perform_create], which is
    [serializer.save()]. *)
Definition SignupView_create
    (accounts : gmap nat CustomUser) (request : SignupRequest)
  : SignupResponse * gmap nat CustomUser :=
  match SignupSerializer_is_valid accounts request with
  | inl error => (error, accounts)
  | inr validated_data =>
      let '(pk, user, accounts') :=
        SignupSerializer_save accounts validated_data None in
      (SignedUp pk user, accounts')
  end.

(** [OpsManagerCreateView.permission_denied]. *)
Definition OpsManagerCreateView_permission_denied (r : Requester)
  : SignupResponse :=
  if negb (is_authenticated r) then NotAuthenticated else PermissionDenied.

(** [OpsManagerCreateView]: [IsAdminUser], and [perform_create], which is
    [serializer.save(role="ops_manager")]. *)
Definition OpsManagerCreateView_create
    (accounts : gmap nat CustomUser) (r : Requester) (request : SignupRequest)
  : SignupResponse * gmap nat CustomUser :=
  if check_permissions OpsManagerCreateView r then
    match SignupSerializer_is_valid accounts request with
    | inl error => (error, accounts)
    | inr validated_data =>
        let '(pk, user, accounts') :=
          SignupSerializer_save accounts validated_data (Some "ops_manager"%string) in
        (SignedUp pk user, accounts')
    end
  else (OpsManagerCreateView_permission_denied r, accounts).

(** [unique=True] on the username column. *)
Definition usernames_unique (accounts : gmap nat CustomUser) : Prop :=
  forall k1 k2 u1 u2,
    accounts !! k1 = Some u1 -> accounts !! k2 = Some u2 ->
    cu_username u1 = cu_username u2 -> k1 = k2.

End Auth.

(** ** [PreOrderSerializer] ([serializers.py])

    The create view builds its orders itself and uses this serializer only
    to render them; [validate_quantity] and [validate] are the serializer's
    own statement of the stock and cut-off rules. *)

Module Serializers.
Import Text Clock Model.

(** The dict handed to [validate]: the entries it reads. *)
Record OrderData := mk_data {
  vd_product : option Product;
  vd_quantity : Z;
  vd_delivery_date : option date
}.

Inductive ValidationError :=
| QuantityMustBePositive
| NoStockRecord (name : string)
| InsufficientStockFor (name : string) (available : Z)
| NextDayAfterCutoff.

Inductive Raised :=
| AttributeError
| StockMultipleObjects
| DateOverflow.

Inductive Validated (A : Type) :=
| Valid (a : A)
| Invalid (e : ValidationError)
| Crashed (e : Raised).
Arguments Valid {A} a.
Arguments Invalid {A} e.
Arguments Crashed {A} e.

(** The text of each [serializers.ValidationError]. *)
Definition validation_text (e : ValidationError) : string :=
  match e with
  | QuantityMustBePositive => "Quantity must be greater than zero."
  | NoStockRecord n => "No stock record found for " ++ n ++ "."
  | InsufficientStockFor n q =>
      "Insufficient stock for " ++ n ++ ". Available: " ++ str_of_int q
  | NextDayAfterCutoff =>
      "Orders placed after 6PM cannot be scheduled for next day. Choose +2 days."
  end%string.

(** [PreOrderSerializer.validate_quantity]. *)
Definition validate_quantity (value : Z) : Validated Z :=
  if value <=? 0 then Invalid QuantityMustBePositive else Valid value.

(** [(now + timedelta(days=n)).date()]. *)
Definition date_after (now : datetime) (n : Z) : option date :=
  add_days (dt_date now) n.

(** Lines 166-171: the date given to an order that came without one. *)
Definition assigned_delivery_date (now : datetime) : option date :=
  if time_ge (dt_time now) (mk_time 18 0 0 0)
  then date_after now 2
  else date_after now 1.

(** Lines 161-177, the cut-off part of [validate]. *)
Definition validate_cutoff (data : OrderData) (now : datetime)
  : Validated OrderData :=
  match vd_delivery_date data with
  | None =>
      match assigned_delivery_date now with
      | Some d => Valid (mk_data (vd_product data) (vd_quantity data) (Some d))
      | None => Crashed DateOverflow
      end
  | Some delivery_date =>
      if time_ge (dt_time now) (mk_time 18 0 0 0) then
        match date_after now 1 with
        | Some tomorrow =>
            if delivery_date =? tomorrow then Invalid NextDayAfterCutoff
            else Valid data
        | None => Crashed DateOverflow
        end
      else Valid data
  end.

(** [PreOrderSerializer.validate]; [product.stock] is the stock row of the
    product, looked up as [StockBalance.objects.get] does. *)
Definition PreOrderSerializer_validate
    (db : DB) (data : OrderData) (now : datetime) : Validated OrderData :=
  match vd_product data with
  | None => Crashed AttributeError
  | Some product =>
      match StockBalance_get db (product_id product) with
      | DoesNotExist => Invalid (NoStockRecord (product_name product))
      | MultipleObjectsReturned => Crashed StockMultipleObjects
      | Got (_, stock) =>
          if sb_quantity stock <? vd_quantity data
          then Invalid (InsufficientStockFor (product_name product)
                                             (sb_quantity stock))
          else validate_cutoff data now
      end
  end.

(** What the serializer renders of an order: the fields of [Meta.fields]
    that are not write-only, with [slot_name], [user_name] and [product]
    read through the order's foreign keys.  [None] stands for the exception
    of a foreign key that leads nowhere. *)
Record OrderView := mk_view {
  ov_quantity : Z;
  ov_id : nat;
  ov_slot_name : string;
  ov_delivery_date : date;
  ov_user_name : string;
  ov_product : string;
  ov_delivery_address_output : string
}.

Definition PreOrderSerializer_data (db : DB) (pk : nat) (o : PreOrder)
  : option OrderView :=
  match List.find (fun s => Nat.eqb (slot_id s) (po_slot o)) (slots db),
        users db !! po_user o,
        List.find (fun p => Nat.eqb (product_id p) (po_product o)) (products db)
  with
  | Some slot, Some username, Some product =>
      Some (mk_view (po_quantity o) pk (slot_name slot) (po_delivery_date o)
                    username (product_name product) (po_delivery_address o))
  | _, _, _ => None
  end.

End Serializers.

(** ** The seeding command ([management/commands/seed_products.py]) *)

Module Seed.
Import Text Clock Model.

Definition set_products (db : DB) (ps : list Product) : DB :=
  mk_db (users db) ps (stocks db) (slots db) (preorders db).
Definition set_slots (db : DB) (ss : list DeliverySlot) : DB :=
  mk_db (users db) (products db) (stocks db) ss (preorders db).

(** The key of the next row of a table kept as a list. *)
Definition next_id (ids : list nat) : nat := S (max_list ids).

(** [Product.objects.get(name=name)]. *)
Definition Product_get (db : DB) (name : string) : GetResult Product :=
  get_one (List.filter (fun p => String.eqb (product_name p) name) (products db)).

(** [Model.objects.get_or_create(...)]: the row found, or a new one; [None]
    stands for the [MultipleObjectsReturned] that [get] raises. *)
Definition Product_get_or_create (db : DB) (name : string)
  : option (Product * DB) :=
  match Product_get db name with
  | Got p => Some (p, db)
  | DoesNotExist =>
      let p := mk_product (next_id (List.map product_id (products db))) name in
      Some (p, set_products db (products db ++ [p]))
  | MultipleObjectsReturned => None
  end.

Definition StockBalance_get_or_create (db : DB) (product : nat) (quantity : Z)
  : option (nat * StockBalance * DB) :=
  match StockBalance_get db product with
  | Got (k, s) => Some (k, s, db)
  | DoesNotExist =>
      let k := next_pk (stocks db) in
      let s := mk_stock product quantity in
      Some (k, s, StockBalance_save db k s)
  | MultipleObjectsReturned => None
  end.

Definition DeliverySlot_get_or_create (db : DB) (name : string)
  : option (DeliverySlot * DB) :=
  match DeliverySlot_get db name with
  | Got s => Some (s, db)
  | DoesNotExist =>
      let s := mk_slot (next_id (List.map slot_id (slots db))) name in
      Some (s, set_slots db (slots db ++ [s]))
  | MultipleObjectsReturned => None
  end.

(** The names of [products_data] and the keys of [slots_data]. *)
Definition products_data : list string :=
  ["Apple"; "Banana"; "Carrot"; "Tomato"; "Milk"; "Bread"; "Eggs"]%string.
Definition slots_data : list string :=
  ["MORNING"; "AFTERNOON"; "EVENING"]%string.

(** How the command ends: with the database it has built, or in the
    exception of a [get], with what it had written until then.  The lines
    it prints are not part of the database. *)
Inductive SeedResult :=
| Seeded (db : DB)
| SeedCrashed (db : DB).

(** The first loop of [handle]: each product, then its stock row with the
    default quantity 50. *)
Fixpoint seed_products (db : DB) (names : list string) : SeedResult :=
  match names with
  | [] => Seeded db
  | name :: rest =>
      match Product_get_or_create db name with
      | None => SeedCrashed db
      | Some (product, db1) =>
          match StockBalance_get_or_create db1 (product_id product) 50 with
          | None => SeedCrashed db1
          | Some (_, _, db2) => seed_products db2 rest
          end
      end
  end.

(** The second loop of [handle]. *)
Fixpoint seed_slots (db : DB) (names : list string) : SeedResult :=
  match names with
  | [] => Seeded db
  | name :: rest =>
      match DeliverySlot_get_or_create db name with
      | None => SeedCrashed db
      | Some (_, db1) => seed_slots db1 rest
      end
  end.

(** [Command.handle]. *)
Definition handle (db : DB) : SeedResult :=
  match seed_products db products_data with
  | Seeded db1 => seed_slots db1 slots_data
  | SeedCrashed db1 => SeedCrashed db1
  end.

(** The unique constraints the three [get]s rely on. *)
Definition gets_are_unique (db : DB) : Prop :=
  (forall name, Product_get db name <> MultipleObjectsReturned) /\
  (forall product, StockBalance_get db product <> MultipleObjectsReturned) /\
  (forall name, DeliverySlot_get db name <> MultipleObjectsReturned).

(** [db'] keeps every row of [db]: the product and slot tables are extended
    at the end, the stock table only gains rows, which hold the default
    quantity, and users and orders are the same. *)
Definition extends (db db' : DB) : Prop :=
  (exists ps, products db' = (products db ++ ps)%list) /\
  (exists ss, slots db' = (slots db ++ ss)%list) /\
  (forall k s, stocks db !! k = Some s -> stocks db' !! k = Some s) /\
  (forall k s, stocks db' !! k = Some s ->
               stocks db !! k = Some s \/ sb_quantity s = 50) /\
  preorders db' = preorders db /\ users db' = users db.

(** What the three [get]s find in [db] they find in [db']. *)
Definition keeps_found (db db' : DB) : Prop :=
  (forall name p, Product_get db name = Got p -> Product_get db' name = Got p) /\
  (forall product ks, StockBalance_get db product = Got ks ->
                      StockBalance_get db' product = Got ks) /\
  (forall name s, DeliverySlot_get db name = Got s ->
                  DeliverySlot_get db' name = Got s).

(** What a step of the command that did not crash leaves behind. *)
Record step_ok (db db1 : DB) : Prop := {
  step_extends : extends db db1;
  step_keeps : keeps_found db db1;
  step_unique : gets_are_unique db -> gets_are_unique db1
}.

(** Every name of the seed data has its product with a stock row, and every
    slot key its slot. *)
Definition seeded (db : DB) : Prop :=
  (forall name, In name products_data ->
     exists p k s,
       Product_get db name = Got p /\
       StockBalance_get db (product_id p) = Got (k, s)) /\
  (forall name, In name slots_data ->
     exists s, DeliverySlot_get db name = Got s).

(** A database with no rows. *)
Definition empty_db : DB := mk_db ∅ [] ∅ [] ∅.

(** What the command makes of the empty database. *)
Definition seeded_store : DB :=
  match handle empty_db with
  | Seeded db => db
  | SeedCrashed db => db
  end.

End Seed.

Import Text Clock Model Props Examples.
Import Interleaving Ledger Auth Serializers Seed.

(** * Properties *)

(** ** Clock facts *)

Section ClockFacts.

Lemma time_compare_micros (a b : time) :
  valid_time a -> valid_time b ->
  time_compare a b = (micros a ?= micros b).
Proof.
  intros Ha Hb. unfold valid_time in *. unfold time_compare, micros.
  destruct a as [h1 m1 s1 u1], b as [h2 m2 s2 u2]; simpl in *.
  symmetry.
  destruct (Z.compare_spec h1 h2) as [->| |];
    [destruct (Z.compare_spec m1 m2) as [->| |];
      [destruct (Z.compare_spec s1 s2) as [->| |];
        [destruct (Z.compare_spec u1 u2) as [->| |] | |] | |] | |];
    first [apply Z.compare_eq_iff | apply Z.compare_lt_iff | apply Z.compare_gt_iff];
    nia.
Qed.

Lemma time_le_micros (a b : time) :
  valid_time a -> valid_time b ->
  time_le a b = true <-> micros a <= micros b.
Proof.
  intros Ha Hb. unfold time_le. rewrite time_compare_micros by assumption.
  destruct (Z.compare_spec (micros a) (micros b));
    split; intros; try lia; try discriminate; reflexivity.
Qed.

Lemma time_ge_micros (a b : time) :
  valid_time a -> valid_time b ->
  time_ge a b = true <-> micros b <= micros a.
Proof.
  intros Ha Hb. unfold time_ge. rewrite time_compare_micros by assumption.
  destruct (Z.compare_spec (micros a) (micros b));
    split; intros; try lia; try discriminate; reflexivity.
Qed.

Lemma valid_cutoff : valid_time cutoff.
Proof. unfold valid_time, cutoff; simpl; lia. Qed.

Lemma add_days_in_range (d n : Z) :
  date_min <= d + n <= date_max -> add_days d n = Some (d + n).
Proof.
  intros [Hlo Hhi]. unfold add_days.
  apply Z.leb_le in Hlo, Hhi. rewrite Hlo, Hhi. reflexivity.
Qed.

Lemma add_days_twice (d : date) :
  valid_date d ->
  match add_days d 1 with Some d1 => add_days d1 1 | None => None end
  = add_days d 2.
Proof.
  unfold valid_date, add_days, date_min, date_max. intros Hd.
  destruct (Z.leb_spec 1 (d + 1)), (Z.leb_spec (d + 1) 3652059); simpl;
  destruct (Z.leb_spec 1 (d + 1 + 1)), (Z.leb_spec (d + 1 + 1) 3652059); simpl;
  destruct (Z.leb_spec 1 (d + 2)), (Z.leb_spec (d + 2) 3652059); simpl;
    try reflexivity; try (f_equal; lia); lia.
Qed.

End ClockFacts.

(** ** Inversion of the create view *)

Section CreateView.

Variables (db : DB) (req : PlaceRequest) (now : datetime).

(** A branch that answers without writing. *)
Local Ltac refused H :=
  injection H as <- <-; left; split; [reflexivity | discriminate].

Lemma create_inv user r db' :
  PreOrderCreateView_create db user req now = (r, db') ->
  (db' = db /\ forall pk o, r <> OrderCreated pk o) \/
  (exists uid pk o,
      user = Authenticated uid /\ r = OrderCreated pk o /\
      placed db req now uid pk o db').
Proof.
  unfold PreOrderCreateView_create, PreOrder_create. intros H.
  destruct user as [|uid]; [refused H |].
  destruct (is_empty _); [refused H |].
  destruct (resolve_product _ _) as [product| |] eqn:Hres; [| refused H ..].
  destruct (req_quantity req) as [qty|] eqn:Hqty; [| refused H].
  destruct (Z.leb_spec qty 0) as [Hle|Hpos]; [refused H |].
  destruct (DeliverySlot_get _ _) as [slot| |] eqn:Hslot; [| refused H ..].
  destruct (is_empty _); [refused H |].
  destruct (negb _); [refused H |].
  destruct (negb _); [refused H |].
  destruct (StockBalance_get _ _) as [[stock_pk stock]| |] eqn:Hstock;
    [| refused H ..].
  destruct (Z.ltb_spec (sb_quantity stock) qty) as [Hlt|Hge]; [refused H |].
  destruct (compute_delivery_date now) as [d|] eqn:Hdate; [| refused H].
  injection H as <- <-. right. eexists uid, _, _.
  split; [reflexivity | split; [reflexivity |]].
  eapply Placed; simpl; try eassumption; reflexivity.
Qed.

Lemma create_accepts uid product qty slot stock_pk stock :
  strip (req_product_name req) <> EmptyString ->
  resolve_product db (strip (req_product_name req)) = Exact product ->
  req_quantity req = Some qty -> 0 < qty ->
  DeliverySlot_get db (upper (strip (req_slot req))) = Got slot ->
  address_ok (strip (req_delivery_address req)) = true ->
  StockBalance_get db (product_id product) = Got (stock_pk, stock) ->
  PreOrderCreateView_create db (Authenticated uid) req now =
    if sb_quantity stock <? qty
    then (InsufficientStock (product_name product) (sb_quantity stock), db)
    else
      match compute_delivery_date now with
      | None => (Unhandled OverflowError, db)
      | Some d =>
          let o := mk_preorder uid (product_id product) (slot_id slot) qty now d
                               (strip (req_delivery_address req)) false in
          let pk := next_pk (preorders db) in
          (OrderCreated pk o,
           StockBalance_save (set_preorders db (<[pk := o]> (preorders db)))
             stock_pk (mk_stock (sb_product stock) (sb_quantity stock - qty)))
      end.
Proof.
  intros Hname Hres Hqty Hpos Hslot Haddr Hstock.
  unfold PreOrderCreateView_create, PreOrder_create.
  unfold address_ok in Haddr. apply andb_true_iff in Haddr as [Haddr Hall].
  apply andb_true_iff in Haddr as [Hne Hany].
  destruct (strip (req_product_name req)) eqn:En; [congruence|]. simpl is_empty.
  rewrite Hres, Hqty.
  destruct (Z.leb_spec qty 0); [lia|].
  rewrite Hslot.
  apply negb_true_iff in Hne. rewrite Hne, Hany, Hall. simpl negb. cbv iota.
  rewrite Hstock. reflexivity.
Qed.

Lemma create_insufficient_inv user name available db' :
  PreOrderCreateView_create db user req now
  = (InsufficientStock name available, db') ->
  db' = db /\
  exists product stock_pk stock qty,
    resolve_product db (strip (req_product_name req)) = Exact product /\
    name = product_name product /\
    StockBalance_get db (product_id product) = Got (stock_pk, stock) /\
    available = sb_quantity stock /\
    req_quantity req = Some qty /\ available < qty.
Proof.
  unfold PreOrderCreateView_create, PreOrder_create. intros H.
  destruct user as [|uid]; [discriminate |].
  destruct (is_empty _); [discriminate |].
  destruct (resolve_product _ _) as [product| |] eqn:Hres; [| discriminate ..].
  destruct (req_quantity req) as [qty|] eqn:Hqty; [| discriminate].
  destruct (qty <=? 0); [discriminate |].
  destruct (DeliverySlot_get _ _) as [slot| |]; [| discriminate ..].
  destruct (is_empty _); [discriminate |].
  destruct (negb _); [discriminate |].
  destruct (negb _); [discriminate |].
  destruct (StockBalance_get _ _) as [[stock_pk stock]| |] eqn:Hstock;
    [| discriminate ..].
  destruct (Z.ltb_spec (sb_quantity stock) qty) as [Hlt|Hge].
  - injection H as <- <- <-. split; [reflexivity |].
    exists product, stock_pk, stock, qty. repeat split; assumption.
  - destruct (compute_delivery_date now); discriminate.
Qed.

End CreateView.

(** ** Scheduling: the 18:00 cut-off *)

Section Scheduling.

Lemma cutoff_rule (now : datetime) :
  valid_datetime now ->
  (micros (dt_time now) < micros cutoff ->
   compute_delivery_date now = add_days (dt_date now) 1) /\
  (micros cutoff <= micros (dt_time now) ->
   compute_delivery_date now = add_days (dt_date now) 2).
Proof.
  intros [Hd Ht]. unfold compute_delivery_date.
  pose proof (time_ge_micros (dt_time now) cutoff Ht valid_cutoff) as Hge.
  split; intros Hcmp.
  - destruct (time_ge (dt_time now) cutoff).
    + assert (micros cutoff <= micros (dt_time now)) by (apply Hge; reflexivity).
      lia.
    + destruct (add_days (dt_date now) 1); reflexivity.
  - destruct (time_ge (dt_time now) cutoff) eqn:E.
    + apply add_days_twice; assumption.
    + apply Hge in Hcmp. discriminate.
Qed.

(** C3: the delivery date is [now.date()] plus one day strictly before
    18:00 and plus two days from 18:00 on (in [date] arithmetic, and as the
    plain sum whenever two days later is still a date); 17:59:59 gives one
    day and 18:00:00 two; the date of a created order is this function of
    [now], whatever the database, the user and the request are. *)
Theorem delivery_date_cutoff_rule :
  (forall now : datetime,
      valid_datetime now ->
      (micros (dt_time now) < micros cutoff ->
       compute_delivery_date now = add_days (dt_date now) 1) /\
      (micros cutoff <= micros (dt_time now) ->
       compute_delivery_date now = add_days (dt_date now) 2) /\
      (dt_date now + 2 <= date_max ->
       compute_delivery_date now =
         Some (dt_date now +
               (if micros (dt_time now) <? 64800000000 then 1 else 2)))) /\
  (forall d : date,
      valid_date d ->
      compute_delivery_date (mk_datetime d (mk_time 17 59 59 0)) = add_days d 1 /\
      compute_delivery_date (mk_datetime d (mk_time 18 0 0 0)) = add_days d 2) /\
  (forall db user req now pk o db',
      PreOrderCreateView_create db user req now = (OrderCreated pk o, db') ->
      compute_delivery_date now = Some (po_delivery_date o)).
Proof.
  split; [|split].
  - intros now Hv. destruct (cutoff_rule now Hv) as [H1 H2].
    split; [exact H1 | split; [exact H2 |]].
    intros Hmax. destruct Hv as [[Hlo Hhi] Ht]. unfold date_min in Hlo.
    change 64800000000 with (micros cutoff).
    destruct (Z.ltb_spec (micros (dt_time now)) (micros cutoff)).
    + rewrite H1 by assumption. apply add_days_in_range. unfold date_min; lia.
    + rewrite H2 by assumption. apply add_days_in_range. unfold date_min; lia.
  - intros d Hd. split.
    + apply (cutoff_rule (mk_datetime d (mk_time 17 59 59 0))).
      * split; [exact Hd | unfold valid_time; simpl; lia].
      * reflexivity.
    + apply (cutoff_rule (mk_datetime d (mk_time 18 0 0 0))).
      * split; [exact Hd | unfold valid_time; simpl; lia].
      * discriminate.
  - intros db user req now pk o db' H.
    destruct (create_inv _ _ _ _ _ _ H) as [[_ Hno] | (uid & pk' & o' & _ & Heq & Hp)].
    + exfalso. exact (Hno pk o eq_refl).
    + injection Heq as <- <-. destruct Hp. assumption.
Qed.

Lemma delivery_date_cutoff_rule_witness :
  (valid_datetime (mk_datetime 739000 (mk_time 17 59 59 999999)) /\
   micros (mk_time 17 59 59 999999) < micros cutoff /\
   compute_delivery_date (mk_datetime 739000 (mk_time 17 59 59 999999))
   = add_days 739000 1) /\
  (micros cutoff <= micros (mk_time 18 0 0 0) /\
   compute_delivery_date (mk_datetime 739000 (mk_time 18 0 0 0))
   = add_days 739000 2) /\
  (valid_date 739000 /\
   compute_delivery_date (mk_datetime 739000 (mk_time 17 59 59 0))
   = add_days 739000 1) /\
  (fst (PreOrderCreateView_create shop (Authenticated 1) (apple_request 6)
          noon_before_cutoff)
   = OrderCreated 1 (mk_preorder 1 1 3 6 noon_before_cutoff 739001
                                 "12 Main St." false) /\
   compute_delivery_date noon_before_cutoff = Some 739001).
Proof.
  assert (Hd : valid_date 739000) by (unfold valid_date, date_min, date_max; lia).
  assert (Hv : valid_datetime (mk_datetime 739000 (mk_time 17 59 59 999999))).
  { split; [exact Hd | unfold valid_time; simpl; lia]. }
  assert (Hv' : valid_datetime (mk_datetime 739000 (mk_time 18 0 0 0))).
  { split; [exact Hd | unfold valid_time; simpl; lia]. }
  assert (Hlt : micros (mk_time 17 59 59 999999) < micros cutoff) by reflexivity.
  assert (Hge : micros cutoff <= micros (mk_time 18 0 0 0)) by discriminate.
  assert (Hc : PreOrderCreateView_create shop (Authenticated 1) (apple_request 6)
                 noon_before_cutoff
               = (OrderCreated 1 (mk_preorder 1 1 3 6 noon_before_cutoff 739001
                                              "12 Main St." false),
                  snd (PreOrderCreateView_create shop (Authenticated 1)
                         (apple_request 6) noon_before_cutoff)))
    by reflexivity.
  split; [| split; [| split]].
  - split; [exact Hv | split; [exact Hlt |]].
    exact (proj1 (proj1 delivery_date_cutoff_rule _ Hv) Hlt).
  - split; [exact Hge |].
    exact (proj1 (proj2 (proj1 delivery_date_cutoff_rule _ Hv')) Hge).
  - split; [exact Hd |].
    exact (proj1 (proj1 (proj2 delivery_date_cutoff_rule) 739000 Hd)).
  - split; [rewrite Hc; reflexivity |].
    exact (proj2 (proj2 delivery_date_cutoff_rule) _ _ _ _ _ _ _ Hc).
Defined.

End Scheduling.

(** ** Stock updates: the two daily windows *)

Section StockWindow.

Lemma in_update_slot_spec (t : time) :
  valid_time t -> in_update_slot t = true <-> inside_update_windows t.
Proof.
  intros Ht. unfold in_update_slot, inside_update_windows.
  rewrite orb_true_iff, !andb_true_iff.
  rewrite !time_le_micros
    by (first [assumption | unfold valid_time; simpl; lia]).
  reflexivity.
Qed.

(** C7: [perform_update] writes only when [now.time()] lies in 08:00-12:00
    or 18:00-19:00; at every other time it raises the out-of-slot
    validation error and the database is unchanged, and so the whole
    update request never succeeds and never writes then. *)
Theorem stock_update_only_in_windows
    (db : DB) (ser : StockSerializer) (now : datetime) :
  valid_time (dt_time now) ->
  (forall pk row db',
      StockUpdateView_perform_update db ser now = (StockUpdated pk row, db') ->
      inside_update_windows (dt_time now)) /\
  (inside_update_windows (dt_time now) ->
   StockUpdateView_perform_update db ser now =
     (StockUpdated (ser_pk ser)
        (mk_stock (sb_product (ser_instance ser)) (ser_quantity ser)),
      StockBalance_save db (ser_pk ser)
        (mk_stock (sb_product (ser_instance ser)) (ser_quantity ser)))) /\
  (~ inside_update_windows (dt_time now) ->
   StockUpdateView_perform_update db ser now = (StockUpdateOutsideSlots, db) /\
   forall pk quantity,
     snd (StockUpdateView_update db pk quantity now) = db /\
     status (fst (StockUpdateView_update db pk quantity now)) <> 200).
Proof.
  intros Ht. pose proof (in_update_slot_spec _ Ht) as Hspec.
  unfold StockUpdateView_update, StockUpdateView_perform_update,
    StockSerializer_save.
  destruct (in_update_slot (dt_time now)) eqn:E; simpl.
  - split; [|split].
    + intros _ _ _ _. apply Hspec. reflexivity.
    + intros _. reflexivity.
    + intros Hout. exfalso. apply Hout, Hspec. reflexivity.
  - split; [|split].
    + intros pk row db' H. discriminate.
    + intros Hin. apply Hspec in Hin. discriminate.
    + intros _. split; [reflexivity|].
      intros pk quantity.
      destruct (stocks db !! pk); [destruct (quantity <? 0)|];
        simpl; split; (reflexivity || discriminate).
Qed.

Lemma stock_update_only_in_windows_witness :
  (valid_time (mk_time 14 0 0 0) /\
   ~ inside_update_windows (mk_time 14 0 0 0) /\
   StockUpdateView_perform_update shop
     (mk_serializer 1 (mk_stock 1 10) 20) (mk_datetime 739000 (mk_time 14 0 0 0))
   = (StockUpdateOutsideSlots, shop)) /\
  (valid_time (mk_time 8 30 0 0) /\
   inside_update_windows (mk_time 8 30 0 0) /\
   StockUpdateView_perform_update shop
     (mk_serializer 1 (mk_stock 1 10) 20) (mk_datetime 739000 (mk_time 8 30 0 0))
   = (StockUpdated 1 (mk_stock 1 20),
      StockBalance_save shop 1 (mk_stock 1 20))).
Proof.
  assert (Hv : valid_time (mk_time 14 0 0 0))
    by (unfold valid_time; simpl; lia).
  assert (Ho : ~ inside_update_windows (mk_time 14 0 0 0)).
  { unfold inside_update_windows.
    change (micros (mk_time 14 0 0 0)) with 50400000000. lia. }
  assert (Hv' : valid_time (mk_time 8 30 0 0))
    by (unfold valid_time; simpl; lia).
  assert (Hi : inside_update_windows (mk_time 8 30 0 0)).
  { unfold inside_update_windows.
    change (micros (mk_time 8 30 0 0)) with 30600000000. lia. }
  split.
  - split; [exact Hv | split; [exact Ho |]].
    exact (proj1 (proj2 (proj2 (stock_update_only_in_windows shop
             (mk_serializer 1 (mk_stock 1 10) 20)
             (mk_datetime 739000 (mk_time 14 0 0 0)) Hv)) Ho)).
  - split; [exact Hv' | split; [exact Hi |]].
    exact (proj1 (proj2 (stock_update_only_in_windows shop
             (mk_serializer 1 (mk_stock 1 10) 20)
             (mk_datetime 739000 (mk_time 8 30 0 0)) Hv')) Hi).
Defined.

End StockWindow.

(** ** Cancellation: ownership *)

Section Ownership.

Lemma PreOrder_get_None db pk user :
  (preorders db !! pk = None \/
   exists o, preorders db !! pk = Some o /\ po_user o <> user) ->
  PreOrder_get db pk user = None.
Proof.
  unfold PreOrder_get. intros [-> | (o & -> & Hne)]; [reflexivity|].
  destruct (decide (po_user o = user)); [contradiction | reflexivity].
Qed.

Lemma PreOrder_get_Some db pk user o :
  PreOrder_get db pk user = Some o <->
  preorders db !! pk = Some o /\ po_user o = user.
Proof.
  unfold PreOrder_get. destruct (preorders db !! pk) as [o'|].
  - destruct (decide (po_user o' = user)); split.
    + intros [= ->]. auto.
    + intros [[= ->] _]. reflexivity.
    + discriminate.
    + intros [[= ->] ?]. contradiction.
  - split; [discriminate | intros [? _]; discriminate].
Qed.

(** C6: cancelling an order that does not exist, or that exists but was
    placed by someone else, answers "not found" and changes nothing; the
    caller cannot tell the two situations apart. *)
Theorem cancel_not_owned_is_not_found :
  (forall db user pk,
      (preorders db !! pk = None \/
       exists o, preorders db !! pk = Some o /\ po_user o <> user) ->
      CancelOrderView_post db user pk = (OrderNotFound, db)) /\
  (forall db1 db2 user pk o,
      preorders db1 !! pk = None ->
      preorders db2 !! pk = Some o -> po_user o <> user ->
      fst (CancelOrderView_post db1 user pk)
      = fst (CancelOrderView_post db2 user pk) /\
      snd (CancelOrderView_post db1 user pk) = db1 /\
      snd (CancelOrderView_post db2 user pk) = db2).
Proof.
  assert (H : forall db user pk,
      (preorders db !! pk = None \/
       exists o, preorders db !! pk = Some o /\ po_user o <> user) ->
      CancelOrderView_post db user pk = (OrderNotFound, db)).
  { intros db user pk Hcase. unfold CancelOrderView_post.
    rewrite (PreOrder_get_None _ _ _ Hcase). reflexivity. }
  split; [exact H|].
  intros db1 db2 user pk o H1 H2 Hne.
  rewrite (H db1 user pk) by (left; exact H1).
  rewrite (H db2 user pk) by (right; exists o; split; assumption).
  repeat split.
Qed.

Lemma cancel_not_owned_is_not_found_witness :
  (exists o, preorders shop_one_order !! 1%nat = Some o /\ po_user o <> 2%nat) /\
  CancelOrderView_post shop_one_order 2 1 = (OrderNotFound, shop_one_order) /\
  preorders shop !! 1%nat = None /\
  fst (CancelOrderView_post shop 2 1)
  = fst (CancelOrderView_post shop_one_order 2 1).
Proof.
  assert (Hl : preorders shop_one_order !! 1%nat = Some (an_order 1 1 2 false))
    by reflexivity.
  assert (Hne : po_user (an_order 1 1 2 false) <> 2%nat) by discriminate.
  assert (Hnone : preorders shop !! 1%nat = None) by reflexivity.
  split; [exists (an_order 1 1 2 false); split; assumption |].
  split; [| split; [exact Hnone |]].
  - exact (proj1 cancel_not_owned_is_not_found shop_one_order 2%nat 1%nat
             (or_intror (ex_intro _ _ (conj Hl Hne)))).
  - exact (proj1 (proj2 cancel_not_owned_is_not_found shop shop_one_order
                    2%nat 1%nat _ Hnone Hl Hne)).
Defined.

End Ownership.

(** ** Product resolution *)

Section Resolution.

Lemma filter_nil_iff {A} (f : A -> bool) (l : list A) :
  List.filter f l = [] <-> forall x, In x l -> f x = false.
Proof.
  split.
  - intros H x Hx. destruct (f x) eqn:E; [|reflexivity].
    assert (Hin : In x (List.filter f l)) by (apply filter_In; auto).
    rewrite H in Hin. destruct Hin.
  - intros H. induction l as [|a l IH]; [reflexivity|]. simpl.
    rewrite (H a) by (left; reflexivity). apply IH. intros x Hx. apply H. right; exact Hx.
Qed.

Lemma resolve_exact db name :
  (exists p, In p (products db) /\ iexact (product_name p) name = true) ->
  exists p, resolve_product db name = Exact p /\
            In p (products db) /\ iexact (product_name p) name = true.
Proof.
  intros (p & Hin & Hp). unfold resolve_product.
  destruct (Product_filter_iexact db name) as [|q rest] eqn:E.
  - unfold Product_filter_iexact in E.
    rewrite (proj1 (filter_nil_iff _ _) E p Hin) in Hp. discriminate.
  - exists q. split; [reflexivity|].
    assert (Hq : In q (Product_filter_iexact db name)) by (rewrite E; left; reflexivity).
    unfold Product_filter_iexact in Hq. apply filter_In in Hq. exact Hq.
Qed.

Lemma resolve_suggestions db name :
  (forall p, In p (products db) -> iexact (product_name p) name = false) ->
  (exists p, In p (products db) /\ icontains (product_name p) name = true) ->
  resolve_product db name =
    Suggestions (values_id_name (Product_filter_icontains db name)) /\
  Product_filter_icontains db name <> [].
Proof.
  intros Hno (p & Hin & Hp). unfold resolve_product.
  replace (Product_filter_iexact db name) with (@nil Product)
    by (symmetry; apply filter_nil_iff; exact Hno).
  destruct (Product_filter_icontains db name) as [|q rest] eqn:E.
  - unfold Product_filter_icontains in E.
    rewrite (proj1 (filter_nil_iff _ _) E p Hin) in Hp. discriminate.
  - split; [reflexivity | discriminate].
Qed.

Lemma resolve_no_match db name :
  (forall p, In p (products db) -> iexact (product_name p) name = false) ->
  (forall p, In p (products db) -> icontains (product_name p) name = false) ->
  resolve_product db name = NoMatch.
Proof.
  intros Hno Hnc. unfold resolve_product.
  replace (Product_filter_iexact db name) with (@nil Product)
    by (symmetry; apply filter_nil_iff; exact Hno).
  replace (Product_filter_icontains db name) with (@nil Product)
    by (symmetry; apply filter_nil_iff; exact Hnc).
  reflexivity.
Qed.

Lemma is_empty_false s : s <> EmptyString -> is_empty s = false.
Proof. destruct s; [congruence | reflexivity]. Qed.

Lemma create_exact_proceeds db uid req now p :
  resolve_product db (strip (req_product_name req)) = Exact p ->
  forall r db', PreOrderCreateView_create db (Authenticated uid) req now = (r, db') ->
    (forall n, r <> NoProductsFound n) /\ (forall n l, r <> NoExactMatch n l) /\
    (forall pk o, r = OrderCreated pk o -> po_product o = product_id p).
Proof.
  intros Hres r db' H. unfold PreOrderCreateView_create, PreOrder_create in H.
  rewrite Hres in H.
  repeat match type of H with
         | context [match ?x with _ => _ end] => destruct x eqn:?
         end; inversion H; subst; repeat split; try discriminate.
  intros pk o Ho. inversion Ho; subst. reflexivity.
Qed.

(** C5: for a non-empty stripped name the create view does exactly one of
    three things: with a product whose name equals it up to case, it goes
    on with such a product; with none but some product containing it up to
    case, it answers with all those products as (id, name) suggestions and
    writes nothing; with neither, it answers that no product was found. *)
Theorem product_resolution_trichotomy
    (db : DB) (uid : nat) (req : PlaceRequest) (now : datetime) :
  let name := strip (req_product_name req) in
  name <> EmptyString ->
  ((exists p, In p (products db) /\ iexact (product_name p) name = true) ->
   exists p, resolve_product db name = Exact p /\
             In p (products db) /\ iexact (product_name p) name = true /\
             forall r db',
               PreOrderCreateView_create db (Authenticated uid) req now = (r, db') ->
               (forall n, r <> NoProductsFound n) /\
               (forall n l, r <> NoExactMatch n l) /\
               (forall pk o, r = OrderCreated pk o -> po_product o = product_id p)) /\
  ((forall p, In p (products db) -> iexact (product_name p) name = false) ->
   (exists p, In p (products db) /\ icontains (product_name p) name = true) ->
   exists candidates,
     candidates <> [] /\
     (forall i n, In (i, n) candidates <->
                  exists p, In p (products db) /\
                            icontains (product_name p) name = true /\
                            i = product_id p /\ n = product_name p) /\
     PreOrderCreateView_create db (Authenticated uid) req now
     = (NoExactMatch name candidates, db)) /\
  ((forall p, In p (products db) -> iexact (product_name p) name = false) ->
   (forall p, In p (products db) -> icontains (product_name p) name = false) ->
   PreOrderCreateView_create db (Authenticated uid) req now
   = (NoProductsFound name, db)).
Proof.
  intros name Hname. split; [|split].
  - intros Hex. destruct (resolve_exact db name Hex) as (p & Hres & Hin & Hp).
    exists p. repeat (split; [assumption|]).
    intros r db'. apply create_exact_proceeds. exact Hres.
  - intros Hno Hsome.
    destruct (resolve_suggestions db name Hno Hsome) as [Hres Hne].
    exists (values_id_name (Product_filter_icontains db name)).
    split; [|split].
    + unfold values_id_name. intros Hnil. apply map_eq_nil in Hnil. contradiction.
    + intros i n. unfold values_id_name, Product_filter_icontains.
      rewrite in_map_iff. split.
      * intros (p & Heq & Hp). apply filter_In in Hp. destruct Hp as [Hin Hc].
        exists p. inversion Heq; subst. auto.
      * intros (p & Hin & Hc & -> & ->). exists p. split; [reflexivity|].
        apply filter_In. auto.
    + unfold PreOrderCreateView_create. fold name.
      rewrite (is_empty_false name Hname), Hres. reflexivity.
  - intros Hno Hnc. unfold PreOrderCreateView_create. fold name.
    rewrite (is_empty_false name Hname), (resolve_no_match db name Hno Hnc).
    reflexivity.
Qed.

Lemma product_resolution_trichotomy_witness :
  strip "Ban" <> EmptyString /\
  (exists candidates,
      candidates <> [] /\
      PreOrderCreateView_create shop (Authenticated 1)
        (mk_request "Ban" (Some 1) "MORNING" "1 Main St") noon_before_cutoff
      = (NoExactMatch "Ban" candidates, shop)) /\
  (exists p,
      resolve_product shop (strip " apple ") = Exact p /\
      iexact (product_name p) "apple" = true) /\
  PreOrderCreateView_create shop (Authenticated 1)
    (mk_request "Cherry" (Some 1) "MORNING" "1 Main St") noon_before_cutoff
  = (NoProductsFound "Cherry", shop).
Proof.
  assert (Hne : strip "Ban" <> EmptyString) by discriminate.
  assert (Hne' : strip " apple " <> EmptyString) by discriminate.
  assert (Hne'' : strip "Cherry" <> EmptyString) by discriminate.
  split; [exact Hne |]. split; [| split].
  - destruct (proj1 (proj2 (product_resolution_trichotomy shop 1
                (mk_request "Ban" (Some 1) "MORNING" "1 Main St")
                noon_before_cutoff Hne)))
      as (candidates & Hc & _ & Hcreate).
    + intros p [<- | [<- | [<- | []]]]; reflexivity.
    + exists (mk_product 2 "Banana").
      split; [right; left; reflexivity | reflexivity].
    + exists candidates. split; [exact Hc | exact Hcreate].
  - destruct (proj1 (product_resolution_trichotomy shop 1 (apple_request 1)
                       noon_before_cutoff Hne'))
      as (p & Hres & _ & Hp & _).
    + exists (mk_product 1 "Apple"). split; [left; reflexivity | reflexivity].
    + exists p. split; [exact Hres | exact Hp].
  - apply (proj2 (proj2 (product_resolution_trichotomy shop 1
                (mk_request "Cherry" (Some 1) "MORNING" "1 Main St")
                noon_before_cutoff Hne''))).
    + intros p [<- | [<- | [<- | []]]]; reflexivity.
    + intros p [<- | [<- | [<- | []]]]; reflexivity.
Defined.

(** The catalogue holding "Banana" and "Bandaid" answers "Ban" with both. *)
Example resolve_ban :
  PreOrderCreateView_create shop (Authenticated 1)
    (mk_request "Ban" (Some 1) "MORNING" "1 Main St") noon_before_cutoff
  = (NoExactMatch "Ban" [(2%nat, "Banana"); (3%nat, "Bandaid")], shop).
Proof. reflexivity. Qed.

End Resolution.

(** ** Slot names: stripping and upper-casing *)

Section SlotInput.

Lemma upper_lower_char (c : ascii) : upper_char (lower_char c) = upper_char c.
Proof. destruct c as [[] [] [] [] [] [] [] []]; reflexivity. Qed.

Lemma isspace_lower_char (c : ascii) : isspace (lower_char c) = isspace c.
Proof. destruct c as [[] [] [] [] [] [] [] []]; reflexivity. Qed.

Lemma upper_lower (s : string) : upper (lower s) = upper s.
Proof.
  induction s as [|c s IH]; [reflexivity|].
  unfold upper, lower in *. simpl. rewrite upper_lower_char, IH. reflexivity.
Qed.

Lemma no_space_lower (s : string) :
  all_chars (fun c => negb (isspace c)) (lower s)
  = all_chars (fun c => negb (isspace c)) s.
Proof.
  induction s as [|c s IH]; [reflexivity|].
  unfold lower in *. simpl. rewrite isspace_lower_char, IH. reflexivity.
Qed.

Lemma lstrip_spaces (ws s : string) :
  all_chars isspace ws = true -> lstrip (ws ++ s) = lstrip s.
Proof.
  induction ws as [|c ws IH]; intros H; [reflexivity|].
  simpl in *. apply andb_true_iff in H as [Hc Hws]. rewrite Hc. auto.
Qed.

Lemma lstrip_only_spaces (ws : string) :
  all_chars isspace ws = true -> lstrip ws = EmptyString.
Proof.
  induction ws as [|c ws IH]; intros H; [reflexivity|].
  simpl in *. apply andb_true_iff in H as [Hc Hws]. rewrite Hc. auto.
Qed.

Lemma rstrip_spaces (ws : string) :
  all_chars isspace ws = true -> rstrip ws = EmptyString.
Proof.
  induction ws as [|c ws IH]; intros H; [reflexivity|].
  simpl in *. apply andb_true_iff in H as [Hc Hws].
  rewrite (IH Hws), Hc. reflexivity.
Qed.

Lemma rstrip_no_space (t ws : string) :
  all_chars (fun c => negb (isspace c)) t = true ->
  all_chars isspace ws = true ->
  rstrip (t ++ ws) = t.
Proof.
  intros Ht Hws. induction t as [|c t IH].
  - simpl. apply rstrip_spaces. exact Hws.
  - simpl in *. apply andb_true_iff in Ht as [Hc Ht].
    rewrite (IH Ht). apply negb_true_iff in Hc. rewrite Hc.
    destruct t; reflexivity.
Qed.

Lemma strip_padded (ws1 t ws2 : string) :
  all_chars isspace ws1 = true -> all_chars isspace ws2 = true ->
  all_chars (fun c => negb (isspace c)) t = true ->
  strip (ws1 ++ t ++ ws2) = t.
Proof.
  intros H1 H2 Ht. unfold strip. rewrite lstrip_spaces by assumption.
  destruct t as [|c t].
  - simpl. rewrite lstrip_only_spaces by assumption. reflexivity.
  - simpl in *. apply andb_true_iff in Ht as [Hc Ht].
    pose proof Hc as Hc'. apply negb_true_iff in Hc'. rewrite Hc'.
    apply (rstrip_no_space (String c t) ws2); [|assumption].
    simpl. rewrite Hc, Ht. reflexivity.
Qed.

(** Stripping and upper-casing a padded case variant of a slot name yields
    the slot name. *)
Lemma normalise_padded_variant (text name : string) :
  In name valid_slots -> padded_case_variant text name ->
  upper (strip text) = name.
Proof.
  intros Hin (ws1 & t & ws2 & -> & H1 & H2 & Ht).
  unfold iexact in Ht. apply String.eqb_eq in Ht.
  assert (Hns : all_chars (fun c => negb (isspace c)) t = true).
  { rewrite <- no_space_lower, Ht.
    destruct Hin as [<- | [<- | [<- | []]]]; reflexivity. }
  rewrite strip_padded by assumption.
  rewrite <- upper_lower, Ht.
  destruct Hin as [<- | [<- | [<- | []]]]; reflexivity.
Qed.

Lemma create_invalid_slot_inv db user req now vs db' :
  PreOrderCreateView_create db user req now = (InvalidSlot vs, db') ->
  vs = valid_slots /\ db' = db /\
  DeliverySlot_get db (upper (strip (req_slot req))) = DoesNotExist.
Proof.
  unfold PreOrderCreateView_create, PreOrder_create. intros H.
  destruct user as [|uid]; [discriminate |].
  destruct (is_empty _); [discriminate |].
  destruct (resolve_product _ _) as [product| |]; [| discriminate ..].
  destruct (req_quantity req) as [qty|]; [| discriminate].
  destruct (qty <=? 0); [discriminate |].
  destruct (DeliverySlot_get _ _) as [slot| |] eqn:Hslot;
    [| injection H as <- <-; auto | discriminate].
  destruct (is_empty _); [discriminate |].
  destruct (negb _); [discriminate |].
  destruct (negb _); [discriminate |].
  destruct (StockBalance_get _ _) as [[stock_pk stock]| |]; [| discriminate ..].
  destruct (sb_quantity stock <? qty); [discriminate |].
  destruct (compute_delivery_date now); discriminate.
Qed.

Lemma list_invalid_slot_iff db slot_param vs :
  OrderListBySlotView_list db slot_param = InvalidSlot vs <->
  vs = valid_slots /\
  exists s, slot_param = Some s /\ s <> EmptyString /\
            DeliverySlot_get db (upper (strip s)) = DoesNotExist.
Proof.
  unfold OrderListBySlotView_list. destruct slot_param as [s|].
  - destruct s as [|c s]; simpl is_empty; cbv iota.
    + split; [discriminate | intros (_ & s & [= <-] & Hne & _); congruence].
    + destruct (DeliverySlot_get _ _) as [slot| |] eqn:Hslot.
      * split.
        -- destruct (PreOrder_filter_slot_active _ _); discriminate.
        -- intros (_ & s' & [= <-] & _ & Hd). congruence.
      * split.
        -- intros [= <-]. split; [reflexivity|].
           exists (String c s). split; [reflexivity |].
           split; [discriminate | exact Hslot].
        -- intros (-> & _). reflexivity.
      * split; [discriminate | intros (_ & s' & [= <-] & _ & Hd); congruence].
  - split; [discriminate | intros (_ & s & Hs & _); discriminate].
Qed.

(** C10: both views strip and upper-case the slot they are given before
    looking it up.  With the slot table seeded, every padded case variant
    of MORNING, AFTERNOON or EVENING normalises to that name and is found,
    so neither view answers it with the invalid-slot error; and that error,
    which lists MORNING, AFTERNOON, EVENING, is only given when the
    normalised input is none of the three. *)
Theorem slot_input_normalised (db : DB) :
  slots_seeded db ->
  (forall text name,
      In name valid_slots -> padded_case_variant text name ->
      upper (strip text) = name /\
      (exists s, DeliverySlot_get db (upper (strip text)) = Got s /\
                 slot_name s = name) /\
      (forall user req now vs db',
          req_slot req = text ->
          PreOrderCreateView_create db user req now <> (InvalidSlot vs, db')) /\
      (forall vs, OrderListBySlotView_list db (Some text) <> InvalidSlot vs)) /\
  (forall user req now vs db',
      PreOrderCreateView_create db user req now = (InvalidSlot vs, db') ->
      vs = ["MORNING"; "AFTERNOON"; "EVENING"]%string /\ db' = db /\
      ~ In (upper (strip (req_slot req))) valid_slots) /\
  (forall slot_param vs,
      OrderListBySlotView_list db slot_param = InvalidSlot vs ->
      vs = ["MORNING"; "AFTERNOON"; "EVENING"]%string /\
      exists text, slot_param = Some text /\
                   ~ In (upper (strip text)) valid_slots).
Proof.
  intros Hseed.
  assert (Hmiss : forall n, DeliverySlot_get db n = DoesNotExist ->
                            ~ In n valid_slots).
  { intros n Hd Hin. destruct (Hseed n Hin) as (s & Hs & _). congruence. }
  split; [|split].
  - intros text name Hin Hvar.
    pose proof (normalise_padded_variant text name Hin Hvar) as Hnorm.
    destruct (Hseed name Hin) as (s & Hs & Hname).
    split; [exact Hnorm |]. rewrite Hnorm.
    split; [exists s; split; assumption |]. split.
    + intros user req now vs db' Htext H.
      apply create_invalid_slot_inv in H as (_ & _ & Hd).
      rewrite Htext, Hnorm in Hd. congruence.
    + intros vs H. apply list_invalid_slot_iff in H as (_ & s' & [= <-] & _ & Hd).
      rewrite Hnorm in Hd. congruence.
  - intros user req now vs db' H.
    apply create_invalid_slot_inv in H as (-> & -> & Hd).
    split; [reflexivity | split; [reflexivity |]]. apply Hmiss, Hd.
  - intros slot_param vs H.
    apply list_invalid_slot_iff in H as (-> & s & -> & _ & Hd).
    split; [reflexivity |]. exists s. split; [reflexivity |]. apply Hmiss, Hd.
Qed.

Lemma shop_slots_seeded : slots_seeded shop.
Proof.
  intros name [<- | [<- | [<- | []]]]; eexists; split; reflexivity.
Qed.

Lemma slot_input_normalised_witness :
  slots_seeded shop /\
  padded_case_variant " Evening " "EVENING" /\
  upper (strip " Evening ") = "EVENING"%string /\
  (OrderListBySlotView_list shop (Some "night")
   = InvalidSlot ["MORNING"; "AFTERNOON"; "EVENING"]%string /\
   exists text, Some "night"%string = Some text /\
                ~ In (upper (strip text)) valid_slots) /\
  (PreOrderCreateView_create shop (Authenticated 1)
     (mk_request "Apple" (Some 1) "night" "1 Main St") noon_before_cutoff
   = (InvalidSlot ["MORNING"; "AFTERNOON"; "EVENING"]%string, shop) /\
   ~ In (upper (strip "night")) valid_slots).
Proof.
  assert (Hvar : padded_case_variant " Evening " "EVENING").
  { exists " "%string, "Evening"%string, " "%string. repeat split. }
  assert (Hlist : OrderListBySlotView_list shop (Some "night")
                  = InvalidSlot ["MORNING"; "AFTERNOON"; "EVENING"]%string)
    by reflexivity.
  assert (Hcreate : PreOrderCreateView_create shop (Authenticated 1)
                      (mk_request "Apple" (Some 1) "night" "1 Main St")
                      noon_before_cutoff
                    = (InvalidSlot ["MORNING"; "AFTERNOON"; "EVENING"]%string, shop))
    by reflexivity.
  split; [exact shop_slots_seeded | split; [exact Hvar |]].
  split; [| split].
  - exact (proj1 (proj1 (slot_input_normalised shop shop_slots_seeded)
                    " Evening "%string "EVENING"%string
                    (or_intror (or_intror (or_introl eq_refl))) Hvar)).
  - split; [exact Hlist |].
    exact (proj2 (proj2 (proj2 (slot_input_normalised shop shop_slots_seeded))
                    _ _ Hlist)).
  - split; [exact Hcreate |].
    exact (proj2 (proj2 (proj1 (proj2 (slot_input_normalised shop
                    shop_slots_seeded)) _ _ _ _ _ Hcreate))).
Defined.

Example slot_lowercase_accepted :
  DeliverySlot_get shop (upper (strip "morning")) = Got (mk_slot 1 "MORNING").
Proof. reflexivity. Qed.

End SlotInput.

(** ** The stock and order tables *)

Section Tables.

Lemma get_one_Got {A} (rows : list A) (a : A) :
  get_one rows = Got a <-> rows = [a].
Proof.
  destruct rows as [|x [|y rows]]; simpl; split; intros H;
    try discriminate; congruence.
Qed.

Lemma StockBalance_get_Got db product k s :
  StockBalance_get db product = Got (k, s) ->
  stocks db !! k = Some s /\ sb_product s = product.
Proof.
  unfold StockBalance_get. intros H. apply get_one_Got in H.
  assert (Hin : (k, s) ∈ map_to_list
            (filter (fun kv => sb_product (snd kv) = product) (stocks db)))
    by (rewrite H; apply list_elem_of_singleton; reflexivity).
  apply elem_of_map_to_list in Hin.
  apply map_lookup_filter_Some in Hin. exact Hin.
Qed.

Lemma StockBalance_get_save db product k s s' :
  StockBalance_get db product = Got (k, s) ->
  sb_product s' = product ->
  StockBalance_get (StockBalance_save db k s') product = Got (k, s').
Proof.
  unfold StockBalance_get, StockBalance_save. simpl. intros H Hp.
  apply get_one_Got in H. apply get_one_Got.
  rewrite map_filter_insert_True by exact Hp.
  rewrite <- (list_to_map_to_list
                (filter (fun kv => sb_product (snd kv) = product) (stocks db))).
  rewrite H. simpl. rewrite insert_insert_eq.
  rewrite insert_empty. apply map_to_list_singleton.
Qed.

Lemma next_pk_fresh {A} (table : gmap nat A) : table !! next_pk table = None.
Proof.
  destruct (table !! next_pk table) as [a|] eqn:E; [|reflexivity].
  exfalso. unfold next_pk in E.
  apply elem_of_map_to_list in E.
  assert (Hin : S (max_list (List.map fst (map_to_list table)))
                ∈ List.map fst (map_to_list table)).
  { apply list_elem_of_In, in_map_iff. eexists. split; [|apply list_elem_of_In; exact E].
    reflexivity. }
  apply max_list_elem_of_le in Hin. lia.
Qed.

End Tables.

(** ** Cancellation *)

Section Cancellation.

(** The five ways through [CancelOrderView.post]. *)
Lemma cancel_inv db user pk r db' :
  CancelOrderView_post db user pk = (r, db') ->
  (PreOrder_get db pk user = None /\ r = OrderNotFound /\ db' = db) \/
  (exists o, PreOrder_get db pk user = Some o /\ po_is_cancelled o = true /\
             r = OrderAlreadyCancelled /\ db' = db) \/
  (exists o, PreOrder_get db pk user = Some o /\ po_is_cancelled o = false /\
     ((exists k s, StockBalance_get db (po_product o) = Got (k, s) /\
                   r = OrderCancelled /\
                   db' = StockBalance_save
                           (PreOrder_save db pk (mark_cancelled o)) k
                           (mk_stock (sb_product s)
                                     (sb_quantity s + po_quantity o))) \/
      (exists e, r = Unhandled e /\
                 db' = PreOrder_save db pk (mark_cancelled o) /\
                 forall k s, StockBalance_get db (po_product o) <> Got (k, s)))).
Proof.
  unfold CancelOrderView_post. intros H.
  destruct (PreOrder_get db pk user) as [o|]; [| injection H as <- <-; auto].
  right. destruct (po_is_cancelled o) eqn:Hc.
  - injection H as <- <-. left. exists o. auto.
  - right. exists o. split; [reflexivity | split; [exact Hc |]].
    change (StockBalance_get (PreOrder_save db pk (mark_cancelled o)) (po_product o))
      with (StockBalance_get db (po_product o)) in H.
    destruct (StockBalance_get db (po_product o)) as [[k s]| |];
      injection H as <- <-.
    + left. exists k, s. auto.
    + right. eexists. repeat split. discriminate.
    + right. eexists. repeat split. discriminate.
Qed.

Lemma cancel_already_cancelled db user pk o :
  preorders db !! pk = Some o -> po_user o = user ->
  po_is_cancelled o = true ->
  CancelOrderView_post db user pk = (OrderAlreadyCancelled, db).
Proof.
  intros Hl Hu Hc. unfold CancelOrderView_post.
  rewrite (proj2 (PreOrder_get_Some db pk user o) (conj Hl Hu)), Hc.
  reflexivity.
Qed.

(** No request reopens a cancelled order of [user]. *)
Lemma exec_keeps_cancelled db op user pk :
  (exists o, preorders db !! pk = Some o /\ po_user o = user /\
             po_is_cancelled o = true) ->
  exists o, preorders (snd (exec db op)) !! pk = Some o /\ po_user o = user /\
            po_is_cancelled o = true.
Proof.
  intros (o & Hl & Hu & Hc). destruct op as [u req now | u pk' | spk q now]; simpl.
  - destruct (PreOrderCreateView_create db u req now) as [r db'] eqn:E.
    apply create_inv in E as [[-> _] | (uid & pk' & o' & _ & _ & Hp)]; simpl.
    + exists o. auto.
    + destruct Hp as [? ? ? ? _ _ _ _ _ _ _ _ Hk ->]. simpl.
      exists o. rewrite lookup_insert_ne; [auto |].
      intros ->. rewrite Hk, next_pk_fresh in Hl. discriminate.
  - destruct (CancelOrderView_post db u pk') as [r db'] eqn:E.
    apply cancel_inv in E
      as [(_ & _ & ->) | [(? & _ & _ & _ & ->) | (o' & Hg & Hc' & Hw)]]; simpl.
    + exists o. auto.
    + exists o. auto.
    + apply PreOrder_get_Some in Hg as [Hl' Hu'].
      assert (Hne : pk' <> pk) by (intros ->; congruence).
      destruct Hw as [(k & s & _ & _ & ->) | (e & _ & -> & _)]; simpl;
        exists o; rewrite lookup_insert_ne by exact Hne; auto.
  - unfold StockUpdateView_update, StockUpdateView_perform_update,
      StockSerializer_save.
    destruct (stocks db !! spk); [| simpl; exists o; auto].
    destruct (q <? 0); [simpl; exists o; auto |].
    destruct (negb _); simpl; exists o; auto.
Qed.

Lemma run_keeps_cancelled ops db user pk :
  (exists o, preorders db !! pk = Some o /\ po_user o = user /\
             po_is_cancelled o = true) ->
  exists o, preorders (run db ops) !! pk = Some o /\ po_user o = user /\
            po_is_cancelled o = true.
Proof.
  revert db. induction ops as [|op ops IH]; intros db H; [exact H |].
  unfold run in *. simpl. apply IH. apply exec_keeps_cancelled. exact H.
Qed.

(** C4: a successful cancellation marks the order cancelled and adds its
    stored quantity to the stock row of its product, leaving every other
    stock row alone; from then on, directly or after any further requests,
    the same cancellation answers "already cancelled" and changes
    nothing. *)
Theorem cancel_twice_restores_once (db : DB) (user pk : nat) (db1 : DB) :
  CancelOrderView_post db user pk = (OrderCancelled, db1) ->
  exists o k s,
    preorders db !! pk = Some o /\ po_user o = user /\
    po_is_cancelled o = false /\
    StockBalance_get db (po_product o) = Got (k, s) /\
    StockBalance_get db1 (po_product o)
    = Got (k, mk_stock (sb_product s) (sb_quantity s + po_quantity o)) /\
    (forall k', k' <> k -> stocks db1 !! k' = stocks db !! k') /\
    preorders db1 !! pk = Some (mark_cancelled o) /\
    CancelOrderView_post db1 user pk = (OrderAlreadyCancelled, db1) /\
    forall ops,
      CancelOrderView_post (run db1 ops) user pk
      = (OrderAlreadyCancelled, run db1 ops).
Proof.
  intros H.
  apply cancel_inv in H
    as [(_ & [=] & _) | [(? & _ & _ & [=] & _) | (o & Hg & Hc & Hw)]].
  destruct Hw as [(k & s & Hs & _ & ->) | (e & [=] & _)].
  apply PreOrder_get_Some in Hg as [Hl Hu].
  assert (Hl1 : preorders (StockBalance_save (PreOrder_save db pk (mark_cancelled o))
                  k (mk_stock (sb_product s) (sb_quantity s + po_quantity o)))
                !! pk = Some (mark_cancelled o))
    by (simpl; apply lookup_insert_eq).
  exists o, k, s. repeat (split; [assumption |]).
  split; [| split; [| split; [exact Hl1 | split]]].
  - apply (StockBalance_get_save _ _ _ s); [exact Hs |].
    apply StockBalance_get_Got in Hs as [_ Hp]. exact Hp.
  - intros k' Hne. simpl. apply lookup_insert_ne. congruence.
  - eapply cancel_already_cancelled; [exact Hl1 | exact Hu | reflexivity].
  - intros ops.
    destruct (run_keeps_cancelled ops _ user pk
                (ex_intro _ _ (conj Hl1 (conj Hu eq_refl))))
      as (o' & Hl' & Hu' & Hc').
    eapply cancel_already_cancelled; eassumption.
Qed.

Lemma cancel_twice_restores_once_witness :
  CancelOrderView_post shop_one_order 1 1
  = (OrderCancelled,
     StockBalance_save
       (PreOrder_save shop_one_order 1 (an_order 1 1 2 true)) 1 (mk_stock 1 12)) /\
  CancelOrderView_post
    (StockBalance_save
       (PreOrder_save shop_one_order 1 (an_order 1 1 2 true)) 1 (mk_stock 1 12))
    1 1
  = (OrderAlreadyCancelled,
     StockBalance_save
       (PreOrder_save shop_one_order 1 (an_order 1 1 2 true)) 1 (mk_stock 1 12)).
Proof.
  assert (H : CancelOrderView_post shop_one_order 1 1
              = (OrderCancelled,
                 StockBalance_save
                   (PreOrder_save shop_one_order 1 (an_order 1 1 2 true)) 1
                   (mk_stock 1 12))) by reflexivity.
  split; [exact H |].
  destruct (cancel_twice_restores_once _ _ _ _ H)
    as (o & k & s & _ & _ & _ & _ & _ & _ & _ & Hagain & _).
  exact Hagain.
Defined.

End Cancellation.

(** ** Stock never goes below zero *)

Section NoOversell.

Lemma exec_preserves_ok db op : db_ok db -> db_ok (snd (exec db op)).
Proof.
  intros [Hs Ho]. unfold db_ok, stock_nonneg, orders_nonneg in *.
  destruct op as [u req now | u pk | spk q now]; simpl.
  - destruct (PreOrderCreateView_create db u req now) as [r db'] eqn:E.
    apply create_inv in E as [[-> _] | (uid & pk & o & _ & _ & Hp)]; simpl.
    + auto.
    + destruct Hp as [product slot k s _ _ Hpos _ Hg Hle _ _ _ ->]. simpl.
      split; apply map_Forall_insert_2; simpl; auto; lia.
  - destruct (CancelOrderView_post db u pk) as [r db'] eqn:E.
    apply cancel_inv in E
      as [(_ & _ & ->) | [(? & _ & _ & _ & ->) | (o & Hg & _ & Hw)]]; simpl;
      [auto | auto |].
    apply PreOrder_get_Some in Hg as [Hl _].
    pose proof (map_Forall_lookup_1 _ _ _ _ Ho Hl) as Hq. simpl in Hq.
    destruct Hw as [(k & s & Hk & _ & ->) | (e & _ & -> & _)]; simpl.
    + apply StockBalance_get_Got in Hk as [Hk _].
      pose proof (map_Forall_lookup_1 _ _ _ _ Hs Hk) as Hsq. simpl in Hsq.
      split; apply map_Forall_insert_2; simpl; auto; lia.
    + split; [assumption |]. apply map_Forall_insert_2; simpl; auto.
  - unfold StockUpdateView_update, StockUpdateView_perform_update,
      StockSerializer_save.
    destruct (stocks db !! spk); [| simpl; auto].
    destruct (Z.ltb_spec q 0); [simpl; auto |].
    destruct (negb _); simpl; [auto |].
    split; [| assumption]. apply map_Forall_insert_2; simpl; auto.
Qed.

Lemma run_preserves_ok ops db : db_ok db -> db_ok (run db ops).
Proof.
  revert db. induction ops as [|op ops IH]; intros db H; [exact H |].
  unfold run in *. simpl. apply IH, exec_preserves_ok, H.
Qed.

(** C1: starting from a database whose stored quantities are not negative,
    no sequence of placements, cancellations and stock updates leaves a
    stock quantity negative; a placement that passes validation and asks
    for more than the stock row holds is refused with the
    insufficient-stock error, whose message gives the quantity at hand,
    and writes nothing; and that error is only ever given in this way. *)
Theorem stock_never_negative :
  (forall db ops,
      db_ok db ->
      db_ok (run db ops) /\
      forall k s, stocks (run db ops) !! k = Some s -> 0 <= sb_quantity s) /\
  (forall db uid req now product qty slot stock_pk stock,
      strip (req_product_name req) <> EmptyString ->
      resolve_product db (strip (req_product_name req)) = Exact product ->
      req_quantity req = Some qty -> 0 < qty ->
      DeliverySlot_get db (upper (strip (req_slot req))) = Got slot ->
      address_ok (strip (req_delivery_address req)) = true ->
      StockBalance_get db (product_id product) = Got (stock_pk, stock) ->
      sb_quantity stock < qty ->
      PreOrderCreateView_create db (Authenticated uid) req now
      = (InsufficientStock (product_name product) (sb_quantity stock), db)) /\
  (forall db user req now name available db',
      PreOrderCreateView_create db user req now
      = (InsufficientStock name available, db') ->
      db' = db /\
      error_text (InsufficientStock name available)
      = Some ("Insufficient stock for " ++ name ++ ". Available: "
              ++ str_of_int available)%string /\
      exists product stock_pk stock qty,
        resolve_product db (strip (req_product_name req)) = Exact product /\
        name = product_name product /\
        StockBalance_get db (product_id product) = Got (stock_pk, stock) /\
        available = sb_quantity stock /\
        req_quantity req = Some qty /\ available < qty).
Proof.
  split; [| split].
  - intros db ops Hok. pose proof (run_preserves_ok ops db Hok) as Hrun.
    split; [exact Hrun |]. intros k s Hk.
    destruct Hrun as [Hs _]. exact (map_Forall_lookup_1 _ _ _ _ Hs Hk).
  - intros db uid req now product qty slot stock_pk stock
           Hname Hres Hqty Hpos Hslot Haddr Hstock Hlt.
    rewrite (create_accepts db req now uid product qty slot stock_pk stock)
      by assumption.
    apply Z.ltb_lt in Hlt. rewrite Hlt. reflexivity.
  - intros db user req now name available db' H.
    apply create_insufficient_inv in H as [-> Hex].
    split; [reflexivity | split; [reflexivity | exact Hex]].
Qed.

Lemma shop_ok : db_ok shop.
Proof.
  split.
  - unfold stock_nonneg. apply map_Forall_lookup. intros k s Hk.
    change (stocks shop) with
      (<[1%nat := mk_stock 1 10]> (<[2%nat := mk_stock 2 5]> (∅ : gmap nat StockBalance))) in Hk.
    apply lookup_insert_Some in Hk as [[_ <-] | [_ Hk]]; [simpl; lia |].
    apply lookup_insert_Some in Hk as [[_ <-] | [_ Hk]]; [simpl; lia |].
    rewrite lookup_empty in Hk. discriminate.
  - unfold orders_nonneg. apply map_Forall_empty.
Qed.

Lemma stock_never_negative_witness :
  db_ok shop /\
  db_ok (run shop [PlaceOrder (Authenticated 1) (apple_request 6) noon_before_cutoff;
                   PlaceOrder (Authenticated 2) (apple_request 6) noon_before_cutoff;
                   CancelOrder 1 1;
                   AdjustStock 2 0 (mk_datetime 739001 (mk_time 8 30 0 0))]) /\
  PreOrderCreateView_create shop (Authenticated 1) (apple_request 11)
    noon_before_cutoff
  = (InsufficientStock "Apple" 10, shop) /\
  error_text (InsufficientStock "Apple" 10)
  = Some "Insufficient stock for Apple. Available: 10"%string.
Proof.
  assert (Hrefused :
            PreOrderCreateView_create shop (Authenticated 1) (apple_request 11)
              noon_before_cutoff
            = (InsufficientStock "Apple" 10, shop)).
  { apply (proj1 (proj2 stock_never_negative) shop 1%nat (apple_request 11)
             noon_before_cutoff (mk_product 1 "Apple") 11
             (mk_slot 3 "EVENING") 1%nat (mk_stock 1 10)).
    - discriminate.
    - reflexivity.
    - reflexivity.
    - lia.
    - reflexivity.
    - reflexivity.
    - reflexivity.
    - simpl. lia. }
  split; [exact shop_ok |]. split; [| split; [exact Hrefused |]].
  - exact (proj1 (proj1 stock_never_negative shop _ shop_ok)).
  - exact (proj1 (proj2 (proj2 (proj2 stock_never_negative) _ _ _ _ _ _ _
                           Hrefused))).
Defined.

(** Stock 10, two placements of 6 one after the other: the first is
    served and leaves 4, the second is refused. *)
Example six_then_six :
  let first := PreOrderCreateView_create shop (Authenticated 1)
                 (apple_request 6) noon_before_cutoff in
  let second := PreOrderCreateView_create (snd first) (Authenticated 2)
                  (apple_request 6) noon_before_cutoff in
  status (fst first) = 201 /\
  stocks (snd first) !! 1%nat = Some (mk_stock 1 4) /\
  fst second = InsufficientStock "Apple" 4 /\
  snd second = snd first.
Proof. vm_compute. repeat split. Qed.

End NoOversell.

(** ** All-or-nothing writes *)

Section Atomicity.

(** A placement either writes nothing and reports a failure, or stores the
    order under a fresh key and takes its quantity off the stock row of its
    product. *)
Lemma create_all_or_nothing db user req now r db' :
  PreOrderCreateView_create db user req now = (r, db') ->
  (db' = db /\ forall pk o, r <> OrderCreated pk o) \/
  (exists pk o k s,
      r = OrderCreated pk o /\
      preorders db !! pk = None /\
      preorders db' = <[pk := o]> (preorders db) /\
      stocks db !! k = Some s /\ sb_product s = po_product o /\
      stocks db' =
        <[k := mk_stock (sb_product s) (sb_quantity s - po_quantity o)]>
          (stocks db)).
Proof.
  intros H. apply create_inv in H as [Hsame | (uid & pk & o & _ & -> & Hp)];
    [left; exact Hsame | right].
  destruct Hp as [product slot k s _ _ _ _ Hg _ _ Ho -> ->].
  apply StockBalance_get_Got in Hg as [Hk Hprod].
  exists (next_pk (preorders db)), o, k, s.
  split; [reflexivity |]. split; [apply next_pk_fresh |].
  split; [reflexivity |]. split; [exact Hk |].
  split; [rewrite Ho; simpl; exact Hprod | reflexivity].
Qed.

(** A cancellation whose product has a stock row either writes nothing and
    reports a failure, or flips the flag and restores the quantity. *)
Lemma cancel_all_or_nothing_with_stock db user pk r db' :
  (forall o, preorders db !! pk = Some o ->
             exists k s, StockBalance_get db (po_product o) = Got (k, s)) ->
  CancelOrderView_post db user pk = (r, db') ->
  (db' = db /\ r <> OrderCancelled) \/
  (exists o k s,
      r = OrderCancelled /\
      preorders db !! pk = Some o /\
      preorders db' = <[pk := mark_cancelled o]> (preorders db) /\
      stocks db !! k = Some s /\ sb_product s = po_product o /\
      stocks db' =
        <[k := mk_stock (sb_product s) (sb_quantity s + po_quantity o)]>
          (stocks db)).
Proof.
  intros Hstock H.
  apply cancel_inv in H
    as [(_ & -> & ->) | [(? & _ & _ & -> & ->) | (o & Hg & _ & Hw)]];
    [left; split; [reflexivity | discriminate] ..|].
  apply PreOrder_get_Some in Hg as [Hl _].
  destruct Hw as [(k & s & Hk & -> & ->) | (e & _ & _ & Hno)].
  - right. exists o, k, s. apply StockBalance_get_Got in Hk as [Hk Hp].
    repeat split; assumption.
  - exfalso. destruct (Hstock o Hl) as (k & s & Hk). exact (Hno k s Hk).
Qed.

(** C2: what [CancelOrderView.post] does when the product of the order has
    no stock row.  The order of user 1 is active before the call; the call
    ends in the uncaught [StockBalance.DoesNotExist] (a 500 response) after
    the cancelled flag has been saved, so the order is left cancelled while
    no stock was restored.  [PreOrderCreateView.create] meets the same
    missing row with a 404 and writes nothing. *)
Theorem cancel_without_stock_row_half_applied :
  let r := fst (CancelOrderView_post shop_without_stock 1 1) in
  let db' := snd (CancelOrderView_post shop_without_stock 1 1) in
  r = Unhandled StockBalanceDoesNotExist /\ status r = 500 /\
  preorders shop_without_stock !! 1%nat = Some (an_order 1 1 2 false) /\
  preorders db' !! 1%nat = Some (an_order 1 1 2 true) /\
  stocks db' = stocks shop_without_stock /\
  db' <> shop_without_stock /\
  PreOrderCreateView_create shop_without_stock (Authenticated 1)
    (apple_request 1) noon_before_cutoff
  = (StockNotFound, shop_without_stock).
Proof.
  cbv zeta.
  assert (H : CancelOrderView_post shop_without_stock 1 1
              = (Unhandled StockBalanceDoesNotExist,
                 PreOrder_save shop_without_stock 1 (an_order 1 1 2 true)))
    by reflexivity.
  rewrite H. simpl fst. simpl snd.
  split; [reflexivity |]. split; [reflexivity |]. split; [reflexivity |].
  split; [reflexivity |]. split; [reflexivity |]. split; [| reflexivity].
  intros Heq.
  assert (Hl : preorders (PreOrder_save shop_without_stock 1 (an_order 1 1 2 true))
               !! 1%nat = preorders shop_without_stock !! 1%nat)
    by (rewrite Heq; reflexivity).
  vm_compute in Hl. discriminate.
Qed.

End Atomicity.

(** ** The report *)

Section Report.

#[local] Instance quantity_desc_total : Total quantity_desc.
Proof. intros a b. unfold quantity_desc. lia. Qed.

#[local] Instance quantity_desc_trans : Transitive quantity_desc.
Proof. intros a b c. unfold quantity_desc. lia. Qed.

Lemma range_active_spec db lo hi pk o :
  In (pk, o) (PreOrder_filter_range_active db lo hi) <-> reported db lo hi pk o.
Proof.
  unfold PreOrder_filter_range_active, reported. rewrite filter_In. simpl.
  rewrite <- list_elem_of_In, elem_of_map_to_list.
  rewrite !andb_true_iff, negb_true_iff, !Z.leb_le. tauto.
Qed.

Lemma report_row_Some db kv row :
  report_row db kv = Some row <->
  exists username product,
    users db !! po_user (snd kv) = Some username /\
    List.find (fun p => Nat.eqb (product_id p) (po_product (snd kv)))
              (products db) = Some product /\
    row = mk_row (fst kv) username (product_name product)
                 (po_quantity (snd kv)) (po_created_at (snd kv))
                 (po_delivery_date (snd kv)).
Proof.
  unfold report_row.
  destruct (users db !! po_user (snd kv)) as [u|];
    [destruct (List.find _ (products db)) as [p|] |].
  - split.
    + intros [= <-]. exists u, p. auto.
    + intros (u' & p' & [= <-] & [= <-] & ->). reflexivity.
  - split; [discriminate | intros (? & ? & _ & [=] & _)].
  - split; [discriminate | intros (? & ? & [=] & _)].
Qed.

Lemma report_row_id db kv row : report_row db kv = Some row -> rr_id row = fst kv.
Proof.
  intros H. apply report_row_Some in H as (? & ? & _ & _ & ->). reflexivity.
Qed.

(** Each order contributes at most one row. *)
Lemma report_ids_NoDup db (f : nat * PreOrder -> bool) (l : list (nat * PreOrder)) :
  NoDup (List.map fst l) ->
  NoDup (List.map rr_id (omap (report_row db) (List.filter f l))).
Proof.
  induction l as [|kv l IH]; intros Hnd; [constructor |].
  simpl in Hnd. apply NoDup_cons in Hnd as [Hnotin Hnd]. simpl.
  destruct (f kv); [| auto]. simpl.
  destruct (report_row db kv) as [row|] eqn:E; [| auto]. simpl.
  apply NoDup_cons. split; [| auto].
  intros Hin. apply Hnotin.
  apply list_elem_of_In, in_map_iff in Hin as (row' & Hid & Hrow').
  apply list_elem_of_In, list_elem_of_omap in Hrow' as (kv' & Hkv' & E').
  apply list_elem_of_In, filter_In in Hkv' as [Hkv' _].
  apply report_row_id in E, E'. rewrite <- E, <- Hid, E'.
  apply list_elem_of_In, in_map. exact Hkv'.
Qed.

(** For a start date that is not after the end date the view ends in the
    unbound local. *)
Lemma report_unbound db start end_ :
  start <= end_ ->
  TopProductsReportView_get db (Some start) (Some end_)
  = Unhandled UnboundLocalError.
Proof.
  intros H. unfold TopProductsReportView_get.
  destruct (Z.ltb_spec end_ start); [lia | reflexivity].
Qed.

(** C8, as the code has it: for a start date after the end date the report
    holds exactly one row for each non-cancelled order whose delivery date
    lies between the two dates, bounds included (the order joined with its
    user name and its product name), with the order's own quantity, by
    descending quantity; nothing is summed per product. *)
Theorem top_products_lists_orders (db : DB) (start end_ : date) :
  end_ < start ->
  exists rows,
    TopProductsReportView_get db (Some start) (Some end_) = Report rows /\
    (forall row,
        In row rows <->
        exists pk o username product,
          reported db end_ start pk o /\
          users db !! po_user o = Some username /\
          List.find (fun p => Nat.eqb (product_id p) (po_product o))
                    (products db) = Some product /\
          row = mk_row pk username (product_name product) (po_quantity o)
                       (po_created_at o) (po_delivery_date o)) /\
    NoDup (List.map rr_id rows) /\
    StronglySorted quantity_desc rows.
Proof.
  intros Hlt. unfold TopProductsReportView_get.
  apply Z.ltb_lt in Hlt. rewrite Hlt. cbv zeta.
  set (found := omap (report_row db) (PreOrder_filter_range_active db end_ start)).
  pose proof (merge_sort_Permutation quantity_desc found) as Hperm.
  eexists. split; [reflexivity |]. unfold order_by_quantity_desc.
  split; [| split].
  - intros row. rewrite <- list_elem_of_In, Hperm. unfold found.
    rewrite list_elem_of_omap. split.
    + intros ([pk o] & Hin & Hrow).
      apply list_elem_of_In, range_active_spec in Hin.
      apply report_row_Some in Hrow as (u & p & Hu & Hp & ->).
      exists pk, o, u, p. auto.
    + intros (pk & o & u & p & Hrep & Hu & Hp & ->).
      exists (pk, o). split.
      * apply list_elem_of_In, range_active_spec. exact Hrep.
      * apply report_row_Some. exists u, p. auto.
  - assert (Hp' : List.map rr_id (merge_sort quantity_desc found)
                  ≡ₚ List.map rr_id found)
      by (apply (fmap_Permutation rr_id); exact Hperm).
    rewrite Hp'. unfold found, PreOrder_filter_range_active.
    apply report_ids_NoDup. apply NoDup_fst_map_to_list.
  - apply StronglySorted_merge_sort; typeclasses eauto.
Qed.

Lemma top_products_lists_orders_witness :
  739000 < 739005 /\
  exists rows,
    TopProductsReportView_get shop_two_orders (Some 739005) (Some 739000)
    = Report rows /\
    StronglySorted quantity_desc rows.
Proof.
  assert (Hlt : 739000 < 739005) by lia.
  split; [exact Hlt |].
  destruct (top_products_lists_orders shop_two_orders 739005 739000 Hlt)
    as (rows & Hget & _ & _ & Hsorted).
  exists rows. split; [exact Hget | exact Hsorted].
Defined.

(** C8, as the claim has it, fails: with two active orders for apples the
    report carries two Apple rows, 6 and 1, not one row of 7. *)
Lemma top_products_not_aggregated :
  exists pairs,
    report_pairs
      (TopProductsReportView_get shop_two_orders (Some 739005) (Some 739000))
    = Some pairs /\
    pairs = [("Apple", 6); ("Apple", 1)]%string /\
    total_quantity shop_two_orders 739000 739005 "Apple" = 7 /\
    ~ aggregated_per_product shop_two_orders 739000 739005 pairs.
Proof.
  exists [("Apple", 6); ("Apple", 1)]%string.
  split; [vm_compute; reflexivity |]. split; [reflexivity |].
  split; [vm_compute; reflexivity |].
  intros [Hnd _]. simpl in Hnd.
  apply NoDup_cons in Hnd as [Hnotin _]. apply Hnotin. left.
Qed.

End Report.

(** ** Placements served at the same time *)

Section Concurrency.

(** A request that is given every turn is the view: the cut at the ORM
    calls changes nothing for a request that runs alone. *)
Lemma steps_alone db user req now :
  steps 5 db (AtProduct user req now)
  = (Finished (fst (PreOrderCreateView_create db user req now)),
     snd (PreOrderCreateView_create db user req now)).
Proof.
  unfold PreOrderCreateView_create, resolve_product.
  cbn [steps step].
  destruct user as [|uid]; [reflexivity |].
  destruct (is_empty (strip (req_product_name req))); [reflexivity |].
  destruct (Product_filter_iexact db (strip (req_product_name req)))
    as [|product rest].
  - cbn [steps step].
    destruct (Product_filter_icontains db (strip (req_product_name req)))
      as [|candidate candidates] eqn:E; [reflexivity |].
    cbn [steps step]. rewrite E. reflexivity.
  - destruct (req_quantity req) as [qty|]; [| reflexivity].
    destruct (qty <=? 0); [reflexivity |].
    cbn [steps step].
    destruct (DeliverySlot_get db (upper (strip (req_slot req)))) as [slot| |];
      [| reflexivity ..].
    destruct (is_empty (strip (req_delivery_address req))); [reflexivity |].
    destruct (negb (any_char isalpha (strip (req_delivery_address req))));
      [reflexivity |].
    destruct (negb (all_chars address_char_ok (strip (req_delivery_address req))));
      [reflexivity |].
    cbn [steps step].
    destruct (StockBalance_get db (product_id product)) as [[k s]| |];
      [| reflexivity ..].
    destruct (sb_quantity s <? qty); [reflexivity |].
    destruct (compute_delivery_date now) as [d|]; reflexivity.
Qed.

(** Consecutive turns of one request are its steps. *)
Lemma interleave_app db pool s1 s2 :
  interleave db pool (s1 ++ s2)
  = interleave (snd (interleave db pool s1)) (fst (interleave db pool s1)) s2.
Proof.
  unfold interleave. rewrite fold_left_app.
  destruct (fold_left _ s1 (pool, db)); reflexivity.
Qed.

Lemma interleave_cons db pool i schedule :
  interleave db pool (i :: schedule)
  = interleave (snd (turn db pool i)) (fst (turn db pool i)) schedule.
Proof.
  unfold interleave. cbn [fold_left fst snd].
  destruct (turn db pool i); reflexivity.
Qed.

Lemma interleave_replicate n db pool i p :
  pool !! i = Some p ->
  interleave db pool (replicate n i)
  = (<[i := fst (steps n db p)]> pool, snd (steps n db p)).
Proof.
  revert db pool p. induction n as [|n IH]; intros db pool p Hi.
  - simpl. rewrite list_insert_id by exact Hi. reflexivity.
  - change (replicate (S n) i) with ([i] ++ replicate n i)%list.
    rewrite interleave_app. unfold interleave at 2 3. simpl fold_left.
    unfold turn. rewrite Hi. cbn [steps].
    destruct (step db p) as [p' db'] eqn:E. cbn [fst snd].
    rewrite (IH db' (<[i := p']> pool) p').
    + rewrite list_insert_insert_eq. reflexivity.
    + apply list_lookup_insert_eq. apply lookup_lt_Some in Hi. exact Hi.
Qed.

(** Served one after the other, two placements are two calls of the view,
    the second on the database the first has left. *)
Lemma serial_is_sequential db user1 req1 now1 user2 req2 now2 :
  let first := PreOrderCreateView_create db user1 req1 now1 in
  let second := PreOrderCreateView_create (snd first) user2 req2 now2 in
  serial db [AtProduct user1 req1 now1; AtProduct user2 req2 now2] [0; 1]%nat
  = ([Finished (fst first); Finished (fst second)], snd second).
Proof.
  cbv zeta. unfold serial.
  change (flat_map whole [0; 1]%nat)
    with (replicate 5 0%nat ++ replicate 5 1%nat)%list.
  rewrite interleave_app.
  rewrite (interleave_replicate 5 db _ 0 (AtProduct user1 req1 now1))
    by reflexivity.
  rewrite steps_alone. cbn [fst snd].
  rewrite (interleave_replicate 5 _ _ 1 (AtProduct user2 req2 now2))
    by reflexivity.
  rewrite steps_alone. reflexivity.
Qed.

(** Two placements for one product that both read its stock row before
    either writes are both served whenever each quantity alone is within
    the stock, whatever their sum; the row is left with what the later
    [save] wrote, the decrement of the earlier one is lost. *)
Lemma read_read_write_write
    db uid1 uid2 product q1 q2 slot1 slot2 a1 a2 now1 now2 k s d1 d2 :
  StockBalance_get db (product_id product) = Got (k, s) ->
  q1 <= sb_quantity s -> q2 <= sb_quantity s ->
  compute_delivery_date now1 = Some d1 ->
  compute_delivery_date now2 = Some d2 ->
  exists pk1 pk2 o1 o2 db',
    interleave db
      [AtStock uid1 product q1 slot1 a1 now1;
       AtStock uid2 product q2 slot2 a2 now2]
      [0; 1; 0; 0; 1; 1]%nat
    = ([Finished (OrderCreated pk1 o1); Finished (OrderCreated pk2 o2)], db') /\
    pk1 <> pk2 /\
    po_quantity o1 = q1 /\ po_quantity o2 = q2 /\
    po_is_cancelled o1 = false /\ po_is_cancelled o2 = false /\
    preorders db' = <[pk2 := o2]> (<[pk1 := o1]> (preorders db)) /\
    stocks db'
    = <[k := mk_stock (sb_product s) (sb_quantity s - q2)]> (stocks db).
Proof.
  intros Hget Hq1 Hq2 Hd1 Hd2.
  apply Z.ltb_ge in Hq1. apply Z.ltb_ge in Hq2.
  rewrite interleave_cons. unfold turn at 1 2.
  cbn [lookup list_lookup insert list_insert step].
  rewrite Hget, Hq1, Hd1. cbn [fst snd].
  rewrite interleave_cons. unfold turn at 1 2.
  cbn [lookup list_lookup insert list_insert step].
  rewrite Hget, Hq2, Hd2. cbn [fst snd].
  rewrite interleave_cons. unfold turn at 1 2.
  cbn [lookup list_lookup insert list_insert step PreOrder_create fst snd].
  rewrite interleave_cons. unfold turn at 1 2.
  cbn [lookup list_lookup insert list_insert step fst snd].
  rewrite interleave_cons. unfold turn at 1 2.
  cbn [lookup list_lookup insert list_insert step PreOrder_create fst snd].
  rewrite interleave_cons. unfold turn at 1 2.
  cbn [lookup list_lookup insert list_insert step fst snd].
  unfold interleave. cbn [fold_left].
  eexists _, _, _, _, _. split; [reflexivity |].
  split.
  { intros Heq.
    pose proof (next_pk_fresh
                  (<[next_pk (preorders db) :=
                       mk_preorder uid1 (product_id product) (slot_id slot1) q1
                                   now1 d1 a1 false]> (preorders db))) as Hfresh.
    simpl in Heq. rewrite <- Heq in Hfresh.
    rewrite lookup_insert_eq in Hfresh. discriminate. }
  repeat (split; [reflexivity |]).
  simpl. apply insert_insert_eq.
Qed.

(** C9: the scenario of the claim, stock 10 and two placements of 6, with
    the two requests served at the same time.  Served one after the other,
    which is the view called twice, one placement is created and the other
    refused with "Available: 4", in either order.  When both make their
    stock query before either writes, both are answered 201: two active
    orders of 6 stand against the 10 that were in stock, the stock row says
    4 (the second [save] overwrote the first), and no serial order of the
    two requests gives these responses. *)
Theorem concurrent_placements_oversell :
  let first := PreOrderCreateView_create shop (Authenticated 1)
                 (apple_request 6) noon_before_cutoff in
  let second := PreOrderCreateView_create (snd first) (Authenticated 2)
                  (apple_request 6) noon_before_cutoff in
  let pool' := fst (interleave shop six_and_six checks_then_writes) in
  let db' := snd (interleave shop six_and_six checks_then_writes) in
  on_hand shop 1 = 10 /\ reserved shop 1 = 0 /\
  serial shop six_and_six [0; 1]%nat
  = ([Finished (fst first); Finished (fst second)], snd second) /\
  status (fst first) = 201 /\ fst second = InsufficientStock "Apple" 4 /\
  on_hand (snd second) 1 = 4 /\ reserved (snd second) 1 = 6 /\
  (exists created,
      status created = 201 /\
      fst (serial shop six_and_six [1; 0]%nat)
      = [Finished (InsufficientStock "Apple" 4); Finished created]) /\
  (exists o1 o2,
      pool' = [Finished (OrderCreated 1 o1); Finished (OrderCreated 2 o2)] /\
      po_quantity o1 = 6 /\ po_quantity o2 = 6 /\
      po_is_cancelled o1 = false /\ po_is_cancelled o2 = false /\
      preorders db' = {[ 1%nat := o1; 2%nat := o2 ]}) /\
  stocks db' !! 1%nat = Some (mk_stock 1 4) /\
  on_hand db' 1 = 4 /\ reserved db' 1 = 12 /\
  ~ linearizable shop six_and_six checks_then_writes.
Proof.
  cbv zeta.
  assert (H01 : fst (serial shop six_and_six [0; 1]%nat)
                = [Finished (OrderCreated 1
                     (mk_preorder 1 1 3 6 noon_before_cutoff 739001
                                  "12 Main St." false));
                   Finished (InsufficientStock "Apple" 4)])
    by (vm_compute; reflexivity).
  assert (H10 : fst (serial shop six_and_six [1; 0]%nat)
                = [Finished (InsufficientStock "Apple" 4);
                   Finished (OrderCreated 1
                     (mk_preorder 2 1 3 6 noon_before_cutoff 739001
                                  "12 Main St." false))])
    by (vm_compute; reflexivity).
  assert (Hboth : fst (interleave shop six_and_six checks_then_writes)
                  = [Finished (OrderCreated 1
                       (mk_preorder 1 1 3 6 noon_before_cutoff 739001
                                    "12 Main St." false));
                     Finished (OrderCreated 2
                       (mk_preorder 2 1 3 6 noon_before_cutoff 739001
                                    "12 Main St." false))])
    by (vm_compute; reflexivity).
  split; [vm_compute; reflexivity |]. split; [vm_compute; reflexivity |].
  split; [exact (serial_is_sequential shop _ _ _ _ _ _) |].
  split; [reflexivity |]. split; [vm_compute; reflexivity |].
  split; [vm_compute; reflexivity |]. split; [vm_compute; reflexivity |].
  split.
  { eexists. rewrite H10. split; [| reflexivity]. reflexivity. }
  split.
  { eexists _, _. rewrite Hboth. split; [reflexivity |].
    split; [reflexivity |]. split; [reflexivity |].
    split; [reflexivity |]. split; [reflexivity |].
    vm_compute. reflexivity. }
  split; [vm_compute; reflexivity |].
  split; [vm_compute; reflexivity |].
  split; [vm_compute; reflexivity |].
  intros (order & Hp & Heq). rewrite Hboth in Heq.
  symmetry in Hp. apply Permutation_length_2_inv in Hp as [-> | ->].
  - rewrite H01 in Heq. discriminate.
  - rewrite H10 in Heq. discriminate.
Qed.

End Concurrency.

(** * Further properties of the views *)

(** ** Integrity constraints *)

Section Integrity.

Lemma StockBalance_get_unique db k s :
  stock_unique db -> stocks db !! k = Some s ->
  StockBalance_get db (sb_product s) = Got (k, s).
Proof.
  intros Hu Hk. unfold StockBalance_get. apply get_one_Got.
  match goal with
  | |- map_to_list ?m = _ => assert (Hf : m = {[k := s]})
  end.
  { apply map_eq. intros i. destruct (decide (i = k)) as [-> | Hne].
    - rewrite lookup_singleton_eq. apply map_lookup_filter_Some. auto.
    - rewrite lookup_singleton_ne by congruence.
      match goal with |- ?l = None => destruct l as [x|] eqn:E end;
        [| reflexivity].
      apply map_lookup_filter_Some in E as [Hi Hp]. simpl in Hp.
      exfalso. apply Hne. exact (Hu i k x s Hi Hk Hp). }
  rewrite Hf. apply map_to_list_singleton.
Qed.

(** Rewriting a stock row without changing its product keeps the
    constraints. *)
Lemma consistent_stock_save db k s s' :
  consistent db -> stocks db !! k = Some s -> sb_product s' = sb_product s ->
  consistent (StockBalance_save db k s').
Proof.
  intros [Hu Ho] Hk Hp. split.
  - intros k1 k2 s1 s2 H1 H2 Heq. simpl in H1, H2.
    apply lookup_insert_Some in H1 as [[<- <-] | [Hn1 H1]];
      apply lookup_insert_Some in H2 as [[<- <-] | [Hn2 H2]].
    + reflexivity.
    + apply (Hu k k2 s s2 Hk H2). congruence.
    + apply (Hu k1 k s1 s H1 Hk). congruence.
    + exact (Hu k1 k2 s1 s2 H1 H2 Heq).
  - intros pk o Hl. simpl in Hl. destruct (Ho pk o Hl) as (k0 & s0 & Hk0 & Hp0).
    destruct (decide (k0 = k)) as [-> | Hne].
    + exists k, s'. simpl. rewrite lookup_insert_eq. split; [reflexivity |].
      congruence.
    + exists k0, s0. simpl. rewrite lookup_insert_ne by congruence. auto.
Qed.

(** Storing an order for a product that has a stock row keeps them too. *)
Lemma consistent_order_save db pk o :
  consistent db ->
  (exists k s, stocks db !! k = Some s /\ sb_product s = po_product o) ->
  consistent (set_preorders db (<[pk := o]> (preorders db))).
Proof.
  intros [Hu Ho] Hex. split; [exact Hu |].
  intros pk' o' Hl. simpl in Hl.
  apply lookup_insert_Some in Hl as [[<- <-] | [_ Hl]]; [exact Hex |].
  exact (Ho pk' o' Hl).
Qed.

Lemma placed_product db req now uid pk o db' :
  placed db req now uid pk o db' ->
  exists k s,
    StockBalance_get db (po_product o) = Got (k, s) /\
    stocks db !! k = Some s /\ sb_product s = po_product o /\
    po_quantity o <= sb_quantity s /\
    preorders db !! pk = None /\
    db' = StockBalance_save (set_preorders db (<[pk := o]> (preorders db))) k
            (mk_stock (sb_product s) (sb_quantity s - po_quantity o)).
Proof.
  intros [product slot k s _ _ _ _ Hg Hle _ Ho Hpk Hdb].
  assert (Hprod : po_product o = product_id product) by (rewrite Ho; reflexivity).
  rewrite Hprod. exists k, s.
  pose proof (StockBalance_get_Got _ _ _ _ Hg) as [Hk Hp].
  repeat split; try assumption. rewrite Hpk. apply next_pk_fresh.
Qed.

(** Placing and cancelling keep the constraints. *)
Lemma exec_preserves_consistent db op :
  consistent db -> is_customer_op op -> consistent (snd (exec db op)).
Proof.
  intros Hc Hop. destruct op as [u req now | u pk | spk q now]; simpl;
    [| | destruct Hop].
  - destruct (PreOrderCreateView_create db u req now) as [r db'] eqn:E.
    apply create_inv in E as [[-> _] | (uid & pk & o & _ & _ & Hp)]; simpl;
      [exact Hc |].
    apply placed_product in Hp as (k & s & _ & Hk & Hprod & _ & _ & ->).
    apply (consistent_stock_save _ k s); [| exact Hk | reflexivity].
    apply consistent_order_save; [exact Hc |]. exists k, s. auto.
  - destruct (CancelOrderView_post db u pk) as [r db'] eqn:E.
    apply cancel_inv in E
      as [(_ & _ & ->) | [(? & _ & _ & _ & ->) | (o & Hg & _ & Hw)]]; simpl;
      [exact Hc | exact Hc |].
    apply PreOrder_get_Some in Hg as [Hl _].
    assert (Hc1 : consistent (PreOrder_save db pk (mark_cancelled o))).
    { apply consistent_order_save; [exact Hc |]. destruct Hc as [_ Ho].
      exact (Ho pk o Hl). }
    destruct Hw as [(k & s & Hk & _ & ->) | (e & _ & -> & _)]; [| exact Hc1].
    apply StockBalance_get_Got in Hk as [Hk _].
    apply (consistent_stock_save _ k s); [exact Hc1 | exact Hk | reflexivity].
Qed.

Lemma shop_consistent : consistent shop.
Proof.
  split.
  - intros k1 k2 s1 s2 H1 H2 Heq.
    change (stocks shop) with
      (<[1%nat := mk_stock 1 10]>
         (<[2%nat := mk_stock 2 5]> (∅ : gmap nat StockBalance))) in H1, H2.
    rewrite !lookup_insert_Some, lookup_empty in H1, H2.
    destruct H1 as [[<- <-] | [_ [[<- <-] | [_ [=]]]]];
      destruct H2 as [[<- <-] | [_ [[<- <-] | [_ [=]]]]];
      first [reflexivity | discriminate].
  - intros pk o Hl. change (preorders shop) with (∅ : gmap nat PreOrder) in Hl.
    rewrite lookup_empty in Hl. discriminate.
Qed.

End Integrity.

(** ** Stock accounting *)

Section Accounting.

Lemma sum_Permutation (l1 l2 : list Z) :
  l1 ≡ₚ l2 -> foldr Z.add 0 l1 = foldr Z.add 0 l2.
Proof.
  induction 1 as [| x l l' _ IH | x y l | l l' l'' _ IH1 _ IH2]; simpl; lia.
Qed.

Lemma total_insert_fresh {A} (f : A -> Z) (m : gmap nat A) k x :
  m !! k = None -> total f (<[k := x]> m) = total f m + f x.
Proof.
  intros Hk. unfold total.
  rewrite (sum_Permutation _ (List.map (fun kv => f (snd kv))
                                       ((k, x) :: map_to_list m))).
  - simpl. lia.
  - apply (fmap_Permutation (fun kv : nat * A => f (snd kv))).
    apply map_to_list_insert. exact Hk.
Qed.

(** Overwriting a row replaces its contribution to the sum. *)
Lemma total_insert {A} (f : A -> Z) (m : gmap nat A) k x :
  total f (<[k := x]> m) = total f m - from_option f 0 (m !! k) + f x.
Proof.
  destruct (m !! k) as [y|] eqn:Hk; simpl.
  - rewrite <- (insert_delete_eq m k x).
    rewrite <- (insert_delete_id m k y Hk) at 2.
    rewrite !total_insert_fresh by apply lookup_delete_eq. lia.
  - rewrite total_insert_fresh by exact Hk. lia.
Qed.

Lemma exec_conserves db op product :
  consistent db -> is_customer_op op ->
  on_hand (snd (exec db op)) product + reserved (snd (exec db op)) product
  = on_hand db product + reserved db product.
Proof.
  intros Hc Hop. destruct op as [u req now | u pk | spk q now]; simpl;
    [| | destruct Hop].
  - destruct (PreOrderCreateView_create db u req now) as [r db'] eqn:E.
    pose proof E as E'.
    apply create_inv in E as [[-> _] | (uid & pk & o & _ & _ & Hp)]; simpl;
      [reflexivity |].
    assert (Hact : po_is_cancelled o = false)
      by (destruct Hp as [? ? ? ? _ _ _ _ _ _ _ -> _ _]; reflexivity).
    apply placed_product in Hp as (k & s & _ & Hk & Hprod & _ & Hfresh & ->).
    unfold on_hand, reserved. simpl.
    rewrite !total_insert, Hk, Hfresh. simpl. rewrite Hact, Hprod.
    destruct (Nat.eqb (po_product o) product); lia.
  - destruct (CancelOrderView_post db u pk) as [r db'] eqn:E.
    apply cancel_inv in E
      as [(_ & _ & ->) | [(? & _ & _ & _ & ->) | (o & Hg & Hact & Hw)]]; simpl;
      [reflexivity | reflexivity |].
    apply PreOrder_get_Some in Hg as [Hl _].
    destruct Hw as [(k & s & Hk & _ & ->) | (e & _ & _ & Hno)].
    + apply StockBalance_get_Got in Hk as [Hk Hprod].
      unfold on_hand, reserved. simpl.
      rewrite !total_insert, Hk, Hl. simpl. rewrite Hact, Hprod.
      destruct (Nat.eqb (po_product o) product); lia.
    + exfalso. destruct Hc as [Hu Ho]. destruct (Ho pk o Hl) as (k & s & Hk & Hp).
      apply (Hno k s). rewrite <- Hp. apply StockBalance_get_unique; assumption.
Qed.

Example conserved_amounts :
  let db := run shop
              [PlaceOrder (Authenticated 1) (apple_request 6) noon_before_cutoff;
               PlaceOrder (Authenticated 2) (apple_request 3) noon_before_cutoff;
               CancelOrder 1 1] in
  on_hand shop 1 = 10 /\ reserved shop 1 = 0 /\
  on_hand db 1 = 7 /\ reserved db 1 = 3.
Proof. vm_compute. repeat split. Qed.

End Accounting.

(** ** Quantities and their column *)

Section Capacity.

Lemma total_nonneg {A} (f : A -> Z) (m : gmap nat A) :
  (forall k x, m !! k = Some x -> 0 <= f x) -> 0 <= total f m.
Proof.
  induction m as [|k x m Hk IH] using map_ind; intros H.
  - unfold total. rewrite map_to_list_empty. simpl. lia.
  - rewrite total_insert_fresh by exact Hk.
    assert (0 <= f x) by (apply (H k), lookup_insert_eq).
    assert (0 <= total f m).
    { apply IH. intros k' x' Hk'. apply (H k').
      rewrite lookup_insert_ne; [exact Hk' |]. intros ->. congruence. }
    lia.
Qed.

Lemma total_zero {A} (f : A -> Z) (m : gmap nat A) :
  (forall k x, m !! k = Some x -> f x = 0) -> total f m = 0.
Proof.
  induction m as [|k x m Hk IH] using map_ind; intros H.
  - unfold total. rewrite map_to_list_empty. reflexivity.
  - rewrite total_insert_fresh by exact Hk.
    rewrite (H k x) by apply lookup_insert_eq.
    rewrite IH; [reflexivity |]. intros k' x' Hk'. apply (H k').
    rewrite lookup_insert_ne; [exact Hk' |]. intros ->. congruence.
Qed.

(** With one stock row per product, what is on hand of a product is what
    its row holds. *)
Lemma on_hand_row db k s :
  stock_unique db -> stocks db !! k = Some s ->
  on_hand db (sb_product s) = sb_quantity s.
Proof.
  intros Hu Hk. unfold on_hand.
  rewrite <- (insert_delete_id (stocks db) k s Hk).
  rewrite total_insert_fresh by apply lookup_delete_eq.
  rewrite Nat.eqb_refl. rewrite total_zero; [lia |].
  intros k' s' Hk'. apply lookup_delete_Some in Hk' as [Hne Hk'].
  destruct (Nat.eqb_spec (sb_product s') (sb_product s)) as [Heq |];
    [| reflexivity].
  exfalso. apply Hne. exact (Hu k k' s s' Hk Hk' (eq_sym Heq)).
Qed.

Lemma on_hand_nonneg db product : stock_nonneg db -> 0 <= on_hand db product.
Proof.
  intros Hs. unfold on_hand. apply total_nonneg. intros k s Hk.
  pose proof (map_Forall_lookup_1 _ _ _ _ Hs Hk) as Hq. simpl in Hq.
  destruct (Nat.eqb (sb_product s) product); lia.
Qed.

Lemma reserved_nonneg db product : orders_nonneg db -> 0 <= reserved db product.
Proof.
  intros Ho. unfold reserved. apply total_nonneg. intros k o Hk.
  pose proof (map_Forall_lookup_1 _ _ _ _ Ho Hk) as Hq. simpl in Hq.
  destruct (po_is_cancelled o); [lia |].
  destruct (Nat.eqb (po_product o) product); lia.
Qed.

(** An active order is part of what is reserved of its product. *)
Lemma reserved_covers db pk o :
  orders_nonneg db -> preorders db !! pk = Some o ->
  po_is_cancelled o = false ->
  po_quantity o <= reserved db (po_product o).
Proof.
  intros Ho Hl Hact. unfold reserved.
  rewrite <- (insert_delete_id (preorders db) pk o Hl).
  rewrite total_insert_fresh by apply lookup_delete_eq.
  rewrite Hact, Nat.eqb_refl.
  match goal with
  | |- _ <= total ?g ?m + _ => assert (0 <= total g m)
  end; [| lia].
  apply total_nonneg. intros k' o' Hk'.
  apply lookup_delete_Some in Hk' as [_ Hk'].
  pose proof (map_Forall_lookup_1 _ _ _ _ Ho Hk') as Hq. simpl in Hq.
  destruct (po_is_cancelled o'); [lia |].
  destruct (Nat.eqb (po_product o') (po_product o)); lia.
Qed.

(** On a sound database every stock row is within its column, and so is
    each row with an active order of its product added back. *)
Lemma sound_row column_max db k s :
  sound column_max db -> stocks db !! k = Some s ->
  column_holds column_max (sb_quantity s).
Proof.
  intros ([Hu _] & [Hs Ho] & Hcap) Hk. unfold column_holds.
  pose proof (map_Forall_lookup_1 _ _ _ _ Hs Hk) as Hq. simpl in Hq.
  pose proof (Hcap (sb_product s)) as Hc.
  rewrite (on_hand_row db k s Hu Hk) in Hc.
  pose proof (reserved_nonneg db (sb_product s) Ho). lia.
Qed.

Lemma sound_restore column_max db pk o k s :
  sound column_max db ->
  preorders db !! pk = Some o -> po_is_cancelled o = false ->
  stocks db !! k = Some s -> sb_product s = po_product o ->
  column_holds column_max (sb_quantity s + po_quantity o).
Proof.
  intros ([Hu _] & [Hs Ho] & Hcap) Hl Hact Hk Hp. unfold column_holds.
  pose proof (map_Forall_lookup_1 _ _ _ _ Hs Hk) as Hq. simpl in Hq.
  pose proof (map_Forall_lookup_1 _ _ _ _ Ho Hl) as Hoq. simpl in Hoq.
  pose proof (Hcap (sb_product s)) as Hc.
  rewrite (on_hand_row db k s Hu Hk) in Hc.
  pose proof (reserved_covers db pk o Ho Hl Hact) as Hr. rewrite <- Hp in Hr.
  lia.
Qed.

Lemma exec_preserves_sound column_max db op :
  sound column_max db -> is_customer_op op ->
  sound column_max (snd (exec db op)).
Proof.
  intros (Hc & Hok & Hcap) Hop. split; [| split].
  - apply exec_preserves_consistent; assumption.
  - apply exec_preserves_ok; assumption.
  - intros product. rewrite exec_conserves by assumption. apply Hcap.
Qed.

Lemma run_preserves_sound column_max ops db :
  sound column_max db -> Forall is_customer_op ops ->
  sound column_max (run db ops).
Proof.
  revert db. induction ops as [|op ops IH]; intros db H Hops; [exact H |].
  apply Forall_cons in Hops as [Hop Hops].
  unfold run in *. simpl. apply IH; [| exact Hops].
  apply exec_preserves_sound; assumption.
Qed.

Lemma run_conserves ops db product :
  consistent db -> Forall is_customer_op ops ->
  on_hand (run db ops) product + reserved (run db ops) product
  = on_hand db product + reserved db product.
Proof.
  revert db. induction ops as [|op ops IH]; intros db Hc Hops; [reflexivity |].
  apply Forall_cons in Hops as [Hop Hops].
  unfold run in *. simpl. rewrite IH.
  - apply exec_conserves; assumption.
  - apply exec_preserves_consistent; assumption.
  - exact Hops.
Qed.

(** X1: on a sound database (one stock row per product, a stock row for
    every order's product, no negative quantity, and stock plus active
    orders of each product within the column) placements and
    cancellations never lead to a cancellation that ends in an unhandled
    exception.  After any sequence of them the database is sound again, and
    a cancellation on it answers not-found or already-cancelled and writes
    nothing, or it succeeds; in each case every stock row it leaves is a
    quantity the column holds, so the [save] of the restored quantity does
    not raise either. *)
Theorem cancel_never_crashes_when_consistent
    (column_max : Z) (db : DB) (ops : list Op) :
  sound column_max db -> Forall is_customer_op ops ->
  sound column_max (run db ops) /\
  forall user pk,
    let r := fst (CancelOrderView_post (run db ops) user pk) in
    let db' := snd (CancelOrderView_post (run db ops) user pk) in
    ((r = OrderNotFound /\ db' = run db ops) \/
     (r = OrderAlreadyCancelled /\ db' = run db ops) \/
     r = OrderCancelled) /\
    forall k s, stocks db' !! k = Some s ->
                column_holds column_max (sb_quantity s).
Proof.
  intros Hs Hops. pose proof (run_preserves_sound _ ops db Hs Hops) as Hrun.
  split; [exact Hrun |]. intros user pk. cbv zeta.
  pose proof (exec_preserves_sound column_max (run db ops)
                (CancelOrder user pk) Hrun I) as Hafter.
  simpl in Hafter.
  split; [| intros k s Hk; exact (sound_row _ _ k s Hafter Hk)].
  destruct (CancelOrderView_post (run db ops) user pk) as [r db'] eqn:E. simpl.
  apply cancel_inv in E
    as [(_ & -> & ->) | [(? & _ & _ & -> & ->) | (o & Hg & _ & Hw)]];
    [auto | auto |].
  destruct Hw as [(k & s & _ & -> & _) | (e & _ & _ & Hno)]; [auto |].
  exfalso. apply PreOrder_get_Some in Hg as [Hl _].
  destruct Hrun as [[Hu Ho] _]. destruct (Ho pk o Hl) as (k & s & Hk & Hp).
  apply (Hno k s). rewrite <- Hp. apply StockBalance_get_unique; assumption.
Qed.

Lemma shop_sound : sound 2147483647 shop.
Proof.
  split; [exact shop_consistent | split; [exact shop_ok |]].
  intros product. unfold on_hand, reserved, total.
  change (map_to_list (preorders shop)) with (@nil (nat * PreOrder)).
  assert (Hrows : map_to_list (stocks shop) ≡ₚ
                  [(1%nat, mk_stock 1 10); (2%nat, mk_stock 2 5)]).
  { change (stocks shop) with
      (<[1%nat := mk_stock 1 10]> ({[2%nat := mk_stock 2 5]}
                                    : gmap nat StockBalance)).
    rewrite map_to_list_insert by reflexivity.
    rewrite map_to_list_singleton. reflexivity. }
  rewrite (sum_Permutation _
             (List.map (fun kv : nat * StockBalance =>
                          if Nat.eqb (sb_product (snd kv)) product
                          then sb_quantity (snd kv) else 0)
                       [(1%nat, mk_stock 1 10); (2%nat, mk_stock 2 5)])).
  - simpl. destruct product as [|[|[|?]]]; simpl; lia.
  - apply (fmap_Permutation
             (fun kv : nat * StockBalance =>
                if Nat.eqb (sb_product (snd kv)) product
                then sb_quantity (snd kv) else 0)).
    exact Hrows.
Qed.

Lemma cancel_never_crashes_when_consistent_witness :
  sound 2147483647 shop /\
  Forall is_customer_op
    [PlaceOrder (Authenticated 1) (apple_request 6) noon_before_cutoff;
     CancelOrder 1 1;
     PlaceOrder (Authenticated 2) (apple_request 3) noon_before_cutoff] /\
  sound 2147483647
    (run shop
       [PlaceOrder (Authenticated 1) (apple_request 6) noon_before_cutoff;
        CancelOrder 1 1;
        PlaceOrder (Authenticated 2) (apple_request 3) noon_before_cutoff]).
Proof.
  assert (Hops : Forall is_customer_op
            [PlaceOrder (Authenticated 1) (apple_request 6) noon_before_cutoff;
             CancelOrder 1 1;
             PlaceOrder (Authenticated 2) (apple_request 3) noon_before_cutoff]).
  { repeat constructor. }
  split; [exact shop_sound | split; [exact Hops |]].
  exact (proj1 (cancel_never_crashes_when_consistent _ shop _ shop_sound Hops)).
Defined.

(** X2: on a sound database placements and cancellations only move
    quantities between a product's stock and its active orders: after any
    sequence of them, what the stock rows of a product hold plus what its
    active orders have taken is what it was before, and each of the two
    amounts is a quantity the column holds. *)
Theorem place_and_cancel_conserve_stock
    (column_max : Z) (db : DB) (ops : list Op) (product : nat) :
  sound column_max db -> Forall is_customer_op ops ->
  on_hand (run db ops) product + reserved (run db ops) product
  = on_hand db product + reserved db product /\
  column_holds column_max (on_hand (run db ops) product) /\
  column_holds column_max (reserved (run db ops) product).
Proof.
  intros Hs Hops.
  pose proof (run_preserves_sound _ ops db Hs Hops) as (_ & [Hsn Hon] & Hcap).
  destruct Hs as (Hc & _ & _).
  split; [apply run_conserves; assumption |].
  pose proof (on_hand_nonneg (run db ops) product Hsn).
  pose proof (reserved_nonneg (run db ops) product Hon).
  pose proof (Hcap product). unfold column_holds. lia.
Qed.

Lemma place_and_cancel_conserve_stock_witness :
  sound 2147483647 shop /\
  Forall is_customer_op
    [PlaceOrder (Authenticated 1) (apple_request 6) noon_before_cutoff;
     PlaceOrder (Authenticated 2) (apple_request 3) noon_before_cutoff;
     CancelOrder 1 1] /\
  on_hand (run shop
             [PlaceOrder (Authenticated 1) (apple_request 6) noon_before_cutoff;
              PlaceOrder (Authenticated 2) (apple_request 3) noon_before_cutoff;
              CancelOrder 1 1]) 1
  + reserved (run shop
                [PlaceOrder (Authenticated 1) (apple_request 6) noon_before_cutoff;
                 PlaceOrder (Authenticated 2) (apple_request 3) noon_before_cutoff;
                 CancelOrder 1 1]) 1
  = on_hand shop 1 + reserved shop 1.
Proof.
  assert (Hops : Forall is_customer_op
            [PlaceOrder (Authenticated 1) (apple_request 6) noon_before_cutoff;
             PlaceOrder (Authenticated 2) (apple_request 3) noon_before_cutoff;
             CancelOrder 1 1]).
  { repeat constructor. }
  split; [exact shop_sound | split; [exact Hops |]].
  exact (proj1 (place_and_cancel_conserve_stock _ shop _ 1%nat shop_sound Hops)).
Defined.

End Capacity.

(** ** The order table *)

Section OrderTable.

Lemma mark_cancelled_idem o : mark_cancelled (mark_cancelled o) = mark_cancelled o.
Proof. reflexivity. Qed.

Lemma exec_keeps_orders db op pk o :
  preorders db !! pk = Some o ->
  preorders (snd (exec db op)) !! pk = Some o \/
  preorders (snd (exec db op)) !! pk = Some (mark_cancelled o).
Proof.
  intros Hl. destruct op as [u req now | u pk' | spk q now]; simpl.
  - destruct (PreOrderCreateView_create db u req now) as [r db'] eqn:E.
    apply create_inv in E as [[-> _] | (uid & pk' & o' & _ & _ & Hp)]; simpl;
      [left; exact Hl |].
    apply placed_product in Hp as (k & s & _ & _ & _ & _ & Hfresh & ->). simpl.
    left. rewrite lookup_insert_ne by congruence. exact Hl.
  - destruct (CancelOrderView_post db u pk') as [r db'] eqn:E.
    apply cancel_inv in E
      as [(_ & _ & ->) | [(? & _ & _ & _ & ->) | (o' & Hg & _ & Hw)]]; simpl;
      [left; exact Hl | left; exact Hl |].
    apply PreOrder_get_Some in Hg as [Hl' _].
    assert (Hsaved : preorders (PreOrder_save db pk' (mark_cancelled o')) !! pk
                     = Some o \/
                     preorders (PreOrder_save db pk' (mark_cancelled o')) !! pk
                     = Some (mark_cancelled o)).
    { simpl. destruct (decide (pk' = pk)) as [-> | Hne].
      - right. rewrite lookup_insert_eq. congruence.
      - left. rewrite lookup_insert_ne by exact Hne. exact Hl. }
    destruct Hw as [(k & s & _ & _ & ->) | (e & _ & -> & _)]; exact Hsaved.
  - unfold StockUpdateView_update, StockUpdateView_perform_update,
      StockSerializer_save.
    destruct (stocks db !! spk); [| left; exact Hl].
    destruct (q <? 0); [left; exact Hl |].
    destruct (negb _); left; exact Hl.
Qed.

(** X3: no request deletes or rewrites an order.  Whatever sequence of
    placements, cancellations and stock updates follows, an order that is in
    the table stays under its key with its user, product, slot, quantity,
    dates and address; the only thing that may change is its cancelled flag,
    from false to true. *)
Theorem orders_are_only_ever_cancelled
    (db : DB) (ops : list Op) (pk : nat) (o : PreOrder) :
  preorders db !! pk = Some o ->
  preorders (run db ops) !! pk = Some o \/
  preorders (run db ops) !! pk = Some (mark_cancelled o).
Proof.
  revert db o. induction ops as [|op ops IH]; intros db o Hl; [left; exact Hl |].
  unfold run in *. simpl.
  destruct (exec_keeps_orders db op pk o Hl) as [H | H].
  - exact (IH _ _ H).
  - destruct (IH _ _ H) as [H' | H']; right; exact H'.
Qed.

Lemma orders_are_only_ever_cancelled_witness :
  preorders shop_one_order !! 1%nat = Some (an_order 1 1 2 false) /\
  (preorders (run shop_one_order
                [PlaceOrder (Authenticated 2) (apple_request 3) noon_before_cutoff;
                 CancelOrder 1 1; CancelOrder 1 1]) !! 1%nat
   = Some (an_order 1 1 2 false) \/
   preorders (run shop_one_order
                [PlaceOrder (Authenticated 2) (apple_request 3) noon_before_cutoff;
                 CancelOrder 1 1; CancelOrder 1 1]) !! 1%nat
   = Some (mark_cancelled (an_order 1 1 2 false))).
Proof.
  assert (Hl : preorders shop_one_order !! 1%nat = Some (an_order 1 1 2 false))
    by reflexivity.
  split; [exact Hl |].
  exact (orders_are_only_ever_cancelled shop_one_order _ 1%nat _ Hl).
Defined.

(** The address checks a stored order went through. *)
Lemma create_address_ok db user req now pk o db' :
  PreOrderCreateView_create db user req now = (OrderCreated pk o, db') ->
  address_ok (strip (req_delivery_address req)) = true.
Proof.
  unfold PreOrderCreateView_create, PreOrder_create, address_ok. intros H.
  destruct user as [|uid]; [discriminate |].
  destruct (is_empty (strip (req_product_name req))); [discriminate |].
  destruct (resolve_product _ _) as [product| |]; [| discriminate ..].
  destruct (req_quantity req) as [qty|]; [| discriminate].
  destruct (qty <=? 0); [discriminate |].
  destruct (DeliverySlot_get _ _) as [slot| |]; [| discriminate ..].
  destruct (is_empty (strip (req_delivery_address req))); [discriminate |].
  destruct (any_char isalpha (strip (req_delivery_address req)));
    [| discriminate].
  destruct (all_chars address_char_ok (strip (req_delivery_address req)));
    [reflexivity | discriminate].
Qed.

Lemma DeliverySlot_get_Got db name slot :
  DeliverySlot_get db name = Got slot ->
  In slot (slots db) /\ slot_name slot = name.
Proof.
  unfold DeliverySlot_get. intros H. apply get_one_Got in H.
  assert (Hin : In slot (List.filter (fun s => String.eqb (slot_name s) name)
                                     (slots db)))
    by (rewrite H; left; reflexivity).
  apply filter_In in Hin as [Hin Heq]. apply String.eqb_eq in Heq. auto.
Qed.

Lemma resolve_product_Exact db name product :
  resolve_product db name = Exact product ->
  In product (products db) /\ iexact (product_name product) name = true.
Proof.
  unfold resolve_product. intros H.
  destruct (Product_filter_iexact db name) as [|p rest] eqn:E.
  - destruct (Product_filter_icontains db name); discriminate.
  - injection H as <-.
    assert (Hin : In p (Product_filter_iexact db name))
      by (rewrite E; left; reflexivity).
    unfold Product_filter_iexact in Hin. apply filter_In in Hin. exact Hin.
Qed.

(** Stripping keeps text within ASCII. *)
Lemma all_chars_lstrip p s : all_chars p s = true -> all_chars p (lstrip s) = true.
Proof.
  induction s as [|c s IH]; [reflexivity |]. intros H. simpl.
  destruct (isspace c); [| exact H].
  simpl in H. apply andb_true_iff in H as [_ H]. exact (IH H).
Qed.

Lemma all_chars_rstrip p s : all_chars p s = true -> all_chars p (rstrip s) = true.
Proof.
  induction s as [|c s IH]; [reflexivity |]. intros H. simpl in *.
  apply andb_true_iff in H as [Hc H]. specialize (IH H).
  destruct (rstrip s) as [|c' r].
  - destruct (isspace c); [reflexivity |]. simpl. rewrite Hc. reflexivity.
  - change (p c && all_chars p (String c' r) = true). rewrite Hc. exact IH.
Qed.

Lemma is_ascii_strip s : is_ascii s = true -> is_ascii (strip s) = true.
Proof.
  unfold is_ascii, strip. intros H. apply all_chars_rstrip, all_chars_lstrip, H.
Qed.

(** X4: every order the create view stores for a request whose text is
    within ASCII is well formed.  It belongs to the authenticated
    requester, is active, carries the requested quantity, which is
    positive, refers to a product of the catalogue whose name is the
    requested one up to case and to a slot of the slot table whose name is
    the upper-cased request, keeps the stripped address, which is ASCII
    text, is not empty, holds a letter and only letters, digits, spaces and
    ",.-"; and it is in the table under the key the response reports, which
    was free before. *)
Theorem created_order_well_formed
    (db : DB) (user : RequestUser) (req : PlaceRequest) (now : datetime)
    (pk : nat) (o : PreOrder) (db' : DB) :
  ascii_request req ->
  PreOrderCreateView_create db user req now = (OrderCreated pk o, db') ->
  user = Authenticated (po_user o) /\
  po_is_cancelled o = false /\
  req_quantity req = Some (po_quantity o) /\ 0 < po_quantity o /\
  (exists product,
      In product (products db) /\ product_id product = po_product o /\
      iexact (product_name product) (strip (req_product_name req)) = true) /\
  (exists slot,
      In slot (slots db) /\ slot_id slot = po_slot o /\
      slot_name slot = upper (strip (req_slot req))) /\
  po_delivery_address o = strip (req_delivery_address req) /\
  is_ascii (po_delivery_address o) = true /\
  address_ok (po_delivery_address o) = true /\
  preorders db !! pk = None /\ preorders db' !! pk = Some o.
Proof.
  intros (_ & _ & Hascii) H.
  pose proof (create_address_ok _ _ _ _ _ _ _ H) as Haddr.
  apply create_inv in H as [[_ Hno] | (uid & pk' & o' & -> & Heq & Hp)];
    [exfalso; exact (Hno pk o eq_refl) |].
  injection Heq as <- <-.
  destruct Hp as [product slot k s Hres Hq Hpos Hslot _ _ _ Ho Hpk Hdb].
  apply resolve_product_Exact in Hres as [Hpin Hpname].
  apply DeliverySlot_get_Got in Hslot as [Hsin Hsname].
  assert (Hu : po_user o = uid) by (rewrite Ho; reflexivity).
  assert (Hc : po_is_cancelled o = false) by (rewrite Ho; reflexivity).
  assert (Hpr : po_product o = product_id product) by (rewrite Ho; reflexivity).
  assert (Hsl : po_slot o = slot_id slot) by (rewrite Ho; reflexivity).
  assert (Had : po_delivery_address o = strip (req_delivery_address req))
    by (rewrite Ho; reflexivity).
  rewrite Hu. split; [reflexivity |]. split; [exact Hc |].
  split; [exact Hq |]. split; [exact Hpos |].
  split; [exists product; auto |]. split; [exists slot; auto |].
  split; [exact Had |].
  split; [rewrite Had; apply is_ascii_strip; exact Hascii |].
  split; [rewrite Had; exact Haddr |].
  split; [rewrite Hpk; apply next_pk_fresh |].
  rewrite Hdb. simpl. apply lookup_insert_eq.
Qed.

Lemma created_order_well_formed_witness :
  ascii_request (apple_request 6) /\
  PreOrderCreateView_create shop (Authenticated 1) (apple_request 6)
    noon_before_cutoff
  = (OrderCreated 1 (mk_preorder 1 1 3 6 noon_before_cutoff 739001
                                 "12 Main St." false),
     snd (PreOrderCreateView_create shop (Authenticated 1) (apple_request 6)
            noon_before_cutoff)) /\
  address_ok "12 Main St." = true.
Proof.
  assert (Ha : ascii_request (apple_request 6)) by (repeat split).
  assert (Hc : PreOrderCreateView_create shop (Authenticated 1) (apple_request 6)
                 noon_before_cutoff
               = (OrderCreated 1 (mk_preorder 1 1 3 6 noon_before_cutoff 739001
                                              "12 Main St." false),
                  snd (PreOrderCreateView_create shop (Authenticated 1)
                         (apple_request 6) noon_before_cutoff)))
    by reflexivity.
  split; [exact Ha |]. split; [exact Hc |].
  pose proof (created_order_well_formed _ _ _ _ _ _ _ Ha Hc)
    as (_ & _ & _ & _ & _ & _ & _ & _ & Haddr & _).
  exact Haddr.
Defined.

End OrderTable.

(** ** Placement and cancellation together *)

Section PlaceAndCancel.

Lemma cancel_succeeds db user pk o k s :
  preorders db !! pk = Some o -> po_user o = user ->
  po_is_cancelled o = false ->
  StockBalance_get db (po_product o) = Got (k, s) ->
  CancelOrderView_post db user pk
  = (OrderCancelled,
     StockBalance_save (PreOrder_save db pk (mark_cancelled o)) k
       (mk_stock (sb_product s) (sb_quantity s + po_quantity o))).
Proof.
  intros Hl Hu Hc Hk. unfold CancelOrderView_post.
  rewrite (proj2 (PreOrder_get_Some db pk user o) (conj Hl Hu)), Hc.
  change (StockBalance_get (PreOrder_save db pk (mark_cancelled o)) (po_product o))
    with (StockBalance_get db (po_product o)).
  rewrite Hk. reflexivity.
Qed.



(** A validated request within stock: the order and the row it leaves. *)
Lemma create_served db uid req now product qty slot k s d :
  strip (req_product_name req) <> EmptyString ->
  resolve_product db (strip (req_product_name req)) = Exact product ->
  req_quantity req = Some qty -> 0 < qty ->
  DeliverySlot_get db (upper (strip (req_slot req))) = Got slot ->
  address_ok (strip (req_delivery_address req)) = true ->
  StockBalance_get db (product_id product) = Got (k, s) ->
  compute_delivery_date now = Some d ->
  qty <= sb_quantity s ->
  let o := mk_preorder uid (product_id product) (slot_id slot) qty now d
                       (strip (req_delivery_address req)) false in
  let db' := StockBalance_save
               (set_preorders db (<[next_pk (preorders db) := o]> (preorders db)))
               k (mk_stock (sb_product s) (sb_quantity s - qty)) in
  PreOrderCreateView_create db (Authenticated uid) req now
  = (OrderCreated (next_pk (preorders db)) o, db') /\
  StockBalance_get db' (product_id product)
  = Got (k, mk_stock (sb_product s) (sb_quantity s - qty)).
Proof.
  intros Hname Hres Hqty Hpos Hslot Haddr Hstock Hdate Hle. cbv zeta.
  pose proof (create_accepts db req now uid product qty slot k s
                Hname Hres Hqty Hpos Hslot Haddr Hstock) as Hc.
  destruct (Z.ltb_spec (sb_quantity s) qty) as [Hlt | _]; [lia |].
  rewrite Hdate in Hc. cbv zeta in Hc.
  pose proof (StockBalance_get_Got _ _ _ _ Hstock) as [_ Hprod].
  split; [exact Hc |].
  apply (StockBalance_get_save _ _ _ s); [exact Hstock | exact Hprod].
Qed.

(** X6: the stock check is exact.  A request that passes validation for a
    product whose stock row holds at least the requested quantity is always
    served: the order is created and the row is left with the difference.
    Asking for all that is there leaves 0, and the same request, repeated by
    any user at any time, is then refused with "Available: 0". *)
Theorem placement_within_stock_is_served
    (db : DB) (uid : nat) (req : PlaceRequest) (now : datetime)
    (product : Product) (qty : Z) (slot : DeliverySlot)
    (k : nat) (s : StockBalance) (d : date) :
  strip (req_product_name req) <> EmptyString ->
  resolve_product db (strip (req_product_name req)) = Exact product ->
  req_quantity req = Some qty -> 0 < qty ->
  DeliverySlot_get db (upper (strip (req_slot req))) = Got slot ->
  address_ok (strip (req_delivery_address req)) = true ->
  StockBalance_get db (product_id product) = Got (k, s) ->
  compute_delivery_date now = Some d ->
  qty <= sb_quantity s ->
  exists pk o db',
    PreOrderCreateView_create db (Authenticated uid) req now
    = (OrderCreated pk o, db') /\
    po_quantity o = qty /\
    StockBalance_get db' (product_id product)
    = Got (k, mk_stock (sb_product s) (sb_quantity s - qty)) /\
    (qty = sb_quantity s ->
     forall uid' now',
       PreOrderCreateView_create db' (Authenticated uid') req now'
       = (InsufficientStock (product_name product) 0, db')).
Proof.
  intros Hname Hres Hqty Hpos Hslot Haddr Hstock Hdate Hle.
  destruct (create_served db uid req now product qty slot k s d
              Hname Hres Hqty Hpos Hslot Haddr Hstock Hdate Hle) as [Hc Hafter].
  eexists _, _, _. split; [exact Hc |]. split; [reflexivity |].
  split; [exact Hafter |].
  intros Hall uid' now'.
  rewrite (create_accepts _ req now' uid' product qty slot k
             (mk_stock (sb_product s) (sb_quantity s - qty)));
    try assumption.
  simpl sb_quantity. replace (sb_quantity s - qty) with 0 by lia.
  destruct (Z.ltb_spec 0 qty); [reflexivity | lia].
Qed.

Lemma placement_within_stock_is_served_witness :
  exists pk o db',
    PreOrderCreateView_create shop (Authenticated 1) (apple_request 10)
      noon_before_cutoff
    = (OrderCreated pk o, db') /\
    StockBalance_get db' 1 = Got (1%nat, mk_stock 1 0).
Proof.
  destruct (placement_within_stock_is_served shop 1 (apple_request 10)
              noon_before_cutoff (mk_product 1 "Apple") 10
              (mk_slot 3 "EVENING") 1 (mk_stock 1 10) 739001)
    as (pk & o & db' & Hc & _ & Hs & _).
  - discriminate.
  - reflexivity.
  - reflexivity.
  - lia.
  - reflexivity.
  - reflexivity.
  - reflexivity.
  - reflexivity.
  - simpl. lia.
  - exists pk, o, db'. split; [exact Hc | exact Hs].
Defined.

End PlaceAndCancel.

(** ** Stock updates and availability *)

Section Availability.

(** X7: a stock update takes effect at once.  After [perform_update] has
    written quantity [q] to the stock row of a product during an update
    window, a request for that product that passes validation is served
    when it asks for at most [q], leaving the difference, and refused with
    the new quantity in the message when it asks for more. *)
Theorem stock_update_sets_availability
    (db : DB) (product : Product) (k : nat) (row : StockBalance) (q : Z)
    (update_time : datetime)
    (uid : nat) (req : PlaceRequest) (now : datetime)
    (qty : Z) (slot : DeliverySlot) (d : date) :
  valid_time (dt_time update_time) ->
  inside_update_windows (dt_time update_time) ->
  StockBalance_get db (product_id product) = Got (k, row) ->
  strip (req_product_name req) <> EmptyString ->
  resolve_product db (strip (req_product_name req)) = Exact product ->
  req_quantity req = Some qty -> 0 < qty ->
  DeliverySlot_get db (upper (strip (req_slot req))) = Got slot ->
  address_ok (strip (req_delivery_address req)) = true ->
  compute_delivery_date now = Some d ->
  exists db1,
    StockUpdateView_perform_update db (mk_serializer k row q) update_time
    = (StockUpdated k (mk_stock (sb_product row) q), db1) /\
    StockBalance_get db1 (product_id product)
    = Got (k, mk_stock (sb_product row) q) /\
    (q < qty ->
     PreOrderCreateView_create db1 (Authenticated uid) req now
     = (InsufficientStock (product_name product) q, db1)) /\
    (qty <= q ->
     exists pk o db2,
       PreOrderCreateView_create db1 (Authenticated uid) req now
       = (OrderCreated pk o, db2) /\
       StockBalance_get db2 (product_id product)
       = Got (k, mk_stock (sb_product row) (q - qty))).
Proof.
  intros Hvt Hin Hstock Hname Hres Hqty Hpos Hslot Haddr Hdate.
  assert (Hupd : StockUpdateView_perform_update db (mk_serializer k row q)
                   update_time
                 = (StockUpdated k (mk_stock (sb_product row) q),
                    StockBalance_save db k (mk_stock (sb_product row) q))).
  { unfold StockUpdateView_perform_update, StockSerializer_save.
    rewrite (proj2 (in_update_slot_spec _ Hvt) Hin). reflexivity. }
  pose proof (StockBalance_get_Got _ _ _ _ Hstock) as [_ Hprod].
  assert (Hnew : StockBalance_get
                   (StockBalance_save db k (mk_stock (sb_product row) q))
                   (product_id product)
                 = Got (k, mk_stock (sb_product row) q))
    by (apply (StockBalance_get_save _ _ _ row); assumption).
  eexists. split; [exact Hupd |]. split; [exact Hnew |]. split.
  - intros Hlt.
    rewrite (create_accepts _ req now uid product qty slot k
               (mk_stock (sb_product row) q)); try assumption.
    simpl sb_quantity. apply Z.ltb_lt in Hlt. rewrite Hlt. reflexivity.
  - intros Hle.
    destruct (create_served
                (StockBalance_save db k (mk_stock (sb_product row) q))
                uid req now product qty slot k (mk_stock (sb_product row) q) d)
      as [Hc Hs]; try assumption.
    eexists _, _, _. split; [exact Hc | exact Hs].
Qed.

Lemma stock_update_sets_availability_witness :
  exists db1,
    StockUpdateView_perform_update shop (mk_serializer 1 (mk_stock 1 10) 20)
      (mk_datetime 739000 (mk_time 8 30 0 0))
    = (StockUpdated 1 (mk_stock 1 20), db1) /\
    (exists pk o db2,
        PreOrderCreateView_create db1 (Authenticated 1) (apple_request 15)
          noon_before_cutoff
        = (OrderCreated pk o, db2) /\
        StockBalance_get db2 1 = Got (1%nat, mk_stock 1 5)) /\
    PreOrderCreateView_create db1 (Authenticated 1) (apple_request 21)
      noon_before_cutoff
    = (InsufficientStock "Apple" 20, db1).
Proof.
  assert (Hv : valid_time (mk_time 8 30 0 0)) by (unfold valid_time; simpl; lia).
  assert (Hi : inside_update_windows (mk_time 8 30 0 0)).
  { unfold inside_update_windows.
    change (micros (mk_time 8 30 0 0)) with 30600000000. lia. }
  destruct (stock_update_sets_availability shop (mk_product 1 "Apple") 1
              (mk_stock 1 10) 20 (mk_datetime 739000 (mk_time 8 30 0 0))
              1 (apple_request 15) noon_before_cutoff 15 (mk_slot 3 "EVENING")
              739001 Hv Hi)
    as (db1 & Hupd & _ & _ & Hserved);
    [reflexivity | discriminate | reflexivity | reflexivity | lia | reflexivity
    | reflexivity | reflexivity |].
  destruct (stock_update_sets_availability shop (mk_product 1 "Apple") 1
              (mk_stock 1 10) 20 (mk_datetime 739000 (mk_time 8 30 0 0))
              1 (apple_request 21) noon_before_cutoff 21 (mk_slot 3 "EVENING")
              739001 Hv Hi)
    as (db1' & Hupd' & _ & Hrefused & _);
    [reflexivity | discriminate | reflexivity | reflexivity | lia | reflexivity
    | reflexivity | reflexivity |].
  assert (Heq : db1' = db1) by congruence. subst db1'.
  exists db1. split; [exact Hupd |]. split.
  - apply Hserved. lia.
  - apply Hrefused. lia.
Defined.

End Availability.

(** ** The slot listing and the report *)

Section Listing.

Lemma slot_active_spec db sid pk o :
  In (pk, o) (PreOrder_filter_slot_active db sid) <->
  preorders db !! pk = Some o /\ po_slot o = sid /\ po_is_cancelled o = false.
Proof.
  unfold PreOrder_filter_slot_active. rewrite filter_In. simpl.
  rewrite <- list_elem_of_In, elem_of_map_to_list.
  rewrite andb_true_iff, negb_true_iff, Nat.eqb_eq. tauto.
Qed.

Lemma NoDup_list_filter {A} (f : A -> bool) (l : list A) :
  NoDup l -> NoDup (List.filter f l).
Proof.
  induction 1 as [|x l Hx Hnd IH]; simpl; [constructor |].
  destruct (f x); [| exact IH]. constructor; [| exact IH].
  intros Hin. apply Hx. apply list_elem_of_In, filter_In in Hin as [Hin _].
  apply list_elem_of_In. exact Hin.
Qed.

Lemma list_found db text slot :
  text <> EmptyString ->
  DeliverySlot_get db (upper (strip text)) = Got slot ->
  OrderListBySlotView_list db (Some text)
  = match PreOrder_filter_slot_active db (slot_id slot) with
    | [] => NoOrdersFound (slot_name slot)
    | queryset => OrderList queryset
    end.
Proof.
  intros Hne Hslot. unfold OrderListBySlotView_list.
  destruct text as [|c text]; [congruence |]. simpl is_empty. cbv iota.
  rewrite Hslot. reflexivity.
Qed.

(** The rows of a listing are active orders of the table. *)
Lemma list_rows_active db slot_param rows pk o :
  OrderListBySlotView_list db slot_param = OrderList rows ->
  In (pk, o) rows ->
  preorders db !! pk = Some o /\ po_is_cancelled o = false.
Proof.
  unfold OrderListBySlotView_list. intros H Hin.
  destruct slot_param as [text|]; [| discriminate].
  destruct (is_empty text); [discriminate |].
  destruct (DeliverySlot_get _ _) as [slot| |]; [| discriminate ..].
  destruct (PreOrder_filter_slot_active db (slot_id slot)) as [|kv l] eqn:E;
    [discriminate |].
  injection H as <-. rewrite <- E in Hin.
  apply slot_active_spec in Hin. tauto.
Qed.

(** The rows of a report come from active orders of the table. *)
Lemma report_rows_active db start end_ rows row :
  TopProductsReportView_get db start end_ = Report rows ->
  In row rows ->
  exists o, preorders db !! rr_id row = Some o /\ po_is_cancelled o = false.
Proof.
  unfold TopProductsReportView_get, order_by_quantity_desc. intros H Hin.
  destruct start as [s|], end_ as [e|]; try discriminate.
  destruct (e <? s); [| discriminate]. cbv zeta in H. injection H as <-.
  apply list_elem_of_In in Hin. rewrite merge_sort_Permutation in Hin.
  apply list_elem_of_omap in Hin as ([pk o] & Hkv & Hrow).
  apply list_elem_of_In, range_active_spec in Hkv as (Hl & _ & Hc).
  apply report_row_id in Hrow. simpl in Hrow. rewrite Hrow.
  exists o. auto.
Qed.

(** X8: asked for a slot it can find, the listing shows exactly the orders
    of that slot that are not cancelled, each once: either there is none and
    the answer is the "no orders found" message with the slot's name, or the
    answer is the non-empty list of precisely those orders. *)
Theorem slot_listing_is_exact (db : DB) (text : string) (slot : DeliverySlot) :
  text <> EmptyString ->
  DeliverySlot_get db (upper (strip text)) = Got slot ->
  ((forall pk o, ~ listed db slot pk o) /\
   OrderListBySlotView_list db (Some text) = NoOrdersFound (slot_name slot)) \/
  (exists rows,
      OrderListBySlotView_list db (Some text) = OrderList rows /\
      rows <> [] /\ NoDup rows /\
      forall pk o, In (pk, o) rows <-> listed db slot pk o).
Proof.
  intros Hne Hslot. rewrite (list_found db text slot Hne Hslot).
  pose proof (fun pk o => slot_active_spec db (slot_id slot) pk o) as Hspec.
  assert (Hnd : NoDup (PreOrder_filter_slot_active db (slot_id slot))).
  { unfold PreOrder_filter_slot_active. apply NoDup_list_filter.
    apply NoDup_map_to_list. }
  destruct (PreOrder_filter_slot_active db (slot_id slot)) as [|kv l].
  - left. split; [| reflexivity]. intros pk o Hl. apply Hspec in Hl. destruct Hl.
  - right. eexists. split; [reflexivity |]. split; [discriminate |].
    split; [exact Hnd |]. intros pk o. unfold listed. apply Hspec.
Qed.

Lemma slot_listing_is_exact_witness :
  "morning"%string <> EmptyString /\
  DeliverySlot_get shop_two_orders (upper (strip "morning"))
  = Got (mk_slot 1 "MORNING") /\
  exists rows,
    OrderListBySlotView_list shop_two_orders (Some "morning") = OrderList rows /\
    In (1%nat, an_order 1 1 6 false) rows.
Proof.
  assert (Hne : "morning"%string <> EmptyString) by discriminate.
  assert (Hslot : DeliverySlot_get shop_two_orders (upper (strip "morning"))
                  = Got (mk_slot 1 "MORNING")) by reflexivity.
  split; [exact Hne | split; [exact Hslot |]].
  destruct (slot_listing_is_exact shop_two_orders "morning" _ Hne Hslot)
    as [[Hnone _] | (rows & Hlist & _ & _ & Hrows)].
  - exfalso. apply (Hnone 1%nat (an_order 1 1 6 false)). repeat split.
  - exists rows. split; [exact Hlist |]. apply Hrows. repeat split.
Defined.

(** X9: an order that was just placed is on the listing of its slot: asking
    for the slot with the text the customer sent returns a list that holds
    the new order. *)
Theorem placed_order_is_listed
    (db : DB) (user : RequestUser) (req : PlaceRequest) (now : datetime)
    (pk : nat) (o : PreOrder) (db1 : DB) :
  PreOrderCreateView_create db user req now = (OrderCreated pk o, db1) ->
  req_slot req <> EmptyString ->
  exists rows,
    OrderListBySlotView_list db1 (Some (req_slot req)) = OrderList rows /\
    In (pk, o) rows.
Proof.
  intros H Hne.
  apply create_inv in H as [[_ Hno] | (uid & pk' & o' & _ & Heq & Hp)];
    [exfalso; exact (Hno pk o eq_refl) |].
  injection Heq as <- <-.
  destruct Hp as [product slot k s _ _ _ Hslot _ _ _ Ho _ Hdb].
  assert (Hslot1 : DeliverySlot_get db1 (upper (strip (req_slot req))) = Got slot)
    by (rewrite Hdb; exact Hslot).
  assert (Hin : In (pk, o) (PreOrder_filter_slot_active db1 (slot_id slot))).
  { apply slot_active_spec. rewrite Hdb. simpl.
    split; [apply lookup_insert_eq |]. rewrite Ho. split; reflexivity. }
  rewrite (list_found db1 _ slot Hne Hslot1).
  destruct (PreOrder_filter_slot_active db1 (slot_id slot)) as [|kv l];
    [destruct Hin |].
  eexists. split; [reflexivity | exact Hin].
Qed.

Lemma placed_order_is_listed_witness :
  req_slot (apple_request 6) <> EmptyString /\
  exists db1 rows,
    PreOrderCreateView_create shop (Authenticated 1) (apple_request 6)
      noon_before_cutoff
    = (OrderCreated 1 (mk_preorder 1 1 3 6 noon_before_cutoff 739001
                                   "12 Main St." false), db1) /\
    OrderListBySlotView_list db1 (Some " Evening ") = OrderList rows.
Proof.
  assert (Hne : req_slot (apple_request 6) <> EmptyString) by discriminate.
  assert (Hc : PreOrderCreateView_create shop (Authenticated 1) (apple_request 6)
                 noon_before_cutoff
               = (OrderCreated 1 (mk_preorder 1 1 3 6 noon_before_cutoff 739001
                                              "12 Main St." false),
                  snd (PreOrderCreateView_create shop (Authenticated 1)
                         (apple_request 6) noon_before_cutoff)))
    by reflexivity.
  split; [exact Hne |].
  destruct (placed_order_is_listed _ _ _ _ _ _ _ Hc Hne) as (rows & Hlist & _).
  eexists _, rows. split; [exact Hc | exact Hlist].
Defined.

(** X10: a cancelled order is gone from what the operations side sees: after
    a successful cancellation its key is on no slot listing and in no row of
    the report, whatever slot or dates are asked for. *)
Theorem cancelled_order_is_hidden (db : DB) (user pk : nat) (db' : DB) :
  CancelOrderView_post db user pk = (OrderCancelled, db') ->
  (forall slot_param rows o,
      OrderListBySlotView_list db' slot_param = OrderList rows ->
      ~ In (pk, o) rows) /\
  (forall start end_ rows row,
      TopProductsReportView_get db' start end_ = Report rows ->
      In row rows -> rr_id row <> pk).
Proof.
  intros H.
  assert (Hc : exists o, preorders db' !! pk = Some o /\ po_is_cancelled o = true).
  { apply cancel_inv in H
      as [(_ & [=] & _) | [(? & _ & _ & [=] & _) | (o & _ & _ & Hw)]].
    destruct Hw as [(k & s & _ & _ & ->) | (e & [=] & _)].
    exists (mark_cancelled o). simpl. split; [apply lookup_insert_eq | reflexivity]. }
  destruct Hc as (oc & Hl & Hcancelled). split.
  - intros slot_param rows o Hlist Hin.
    apply (list_rows_active _ _ _ _ _ Hlist) in Hin as [Hl' Hact]. congruence.
  - intros start end_ rows row Hrep Hin Hid.
    destruct (report_rows_active _ _ _ _ _ Hrep Hin) as (o & Hl' & Hact).
    rewrite Hid in Hl'. congruence.
Qed.

Lemma cancelled_order_is_hidden_witness :
  exists db',
    CancelOrderView_post shop_two_orders 1 1 = (OrderCancelled, db') /\
    forall rows o,
      OrderListBySlotView_list db' (Some "morning") = OrderList rows ->
      ~ In (1%nat, o) rows.
Proof.
  assert (Hc : CancelOrderView_post shop_two_orders 1 1
               = (OrderCancelled, snd (CancelOrderView_post shop_two_orders 1 1)))
    by reflexivity.
  eexists. split; [exact Hc |].
  intros rows o.
  exact (proj1 (cancelled_order_is_hidden _ _ _ _ Hc) (Some "morning"%string)
           rows o).
Defined.

(** X11: the report view answers with a report only for a start date that
    lies after the end date.  For every pair of dates in order, a single day
    included, it ends in the unhandled [UnboundLocalError]; with a date that
    does not parse it answers "invalid date format". *)
Theorem report_needs_reversed_dates (db : DB) (start end_ : option date) :
  (TopProductsReportView_get db start end_ = InvalidDateFormat <->
   start = None \/ end_ = None) /\
  (TopProductsReportView_get db start end_ = Unhandled UnboundLocalError <->
   exists s e, start = Some s /\ end_ = Some e /\ s <= e) /\
  ((exists rows, TopProductsReportView_get db start end_ = Report rows) <->
   exists s e, start = Some s /\ end_ = Some e /\ e < s).
Proof.
  unfold TopProductsReportView_get.
  destruct start as [s|], end_ as [e|];
    try (split; [split; [auto | reflexivity] |
                 split; split;
                   [discriminate | intros (? & ? & [=] & [=] & _)
                   | intros [? [=]] | intros (? & ? & [=] & [=] & _)]]).
  destruct (Z.ltb_spec e s) as [Hlt | Hge]; cbv zeta.
  - split; [split; [discriminate | intros [[=] | [=]]] |]. split; split.
    + discriminate.
    + intros (s' & e' & [= <-] & [= <-] & Hle). lia.
    + intros _. exists s, e. auto.
    + intros _. eexists. reflexivity.
  - split; [split; [discriminate | intros [[=] | [=]]] |]. split; split.
    + intros _. exists s, e. auto.
    + reflexivity.
    + intros [rows [=]].
    + intros (s' & e' & [= <-] & [= <-] & Hlt). lia.
Qed.

End Listing.

(** ** Roles and permissions *)

Section Permissions.

Lemma customer_check r :
  IsCustomer_has_permission r = true <->
  exists uid u, r = Account uid u /\ cu_role u = "customer"%string.
Proof.
  unfold IsCustomer_has_permission. destruct r as [|uid u]; simpl.
  - split; [discriminate | intros (? & ? & [=] & _)].
  - rewrite String.eqb_eq. split.
    + intros H. exists uid, u. auto.
    + intros (? & ? & [= <- <-] & H). exact H.
Qed.

Lemma ops_manager_check r :
  IsOpsManager_has_permission r = true <->
  exists uid u, r = Account uid u /\ cu_role u = "ops_manager"%string.
Proof.
  unfold IsOpsManager_has_permission. destruct r as [|uid u]; simpl.
  - split; [discriminate | intros (? & ? & [=] & _)].
  - rewrite String.eqb_eq. split.
    + intros H. exists uid, u. auto.
    + intros (? & ? & [= <- <-] & H). exact H.
Qed.

Lemma single_permission v p r :
  permission_classes v = [p] -> check_permissions v r = has_permission p r.
Proof.
  intros H. unfold check_permissions. rewrite H. simpl. apply andb_true_r.
Qed.

(** X12: the two roles separate the endpoints.  Placing and cancelling are
    open to exactly the authenticated accounts with role "customer"; stock
    updates, the slot listing and the report to exactly those with role
    "ops_manager"; no requester passes both checks, and the anonymous user
    passes neither.  A request that fails the check of its endpoint is
    refused and leaves the database as it was. *)
Theorem roles_separate_endpoints (r : Requester) :
  let customer := exists uid u, r = Account uid u /\ cu_role u = "customer"%string in
  let ops := exists uid u, r = Account uid u /\ cu_role u = "ops_manager"%string in
  (check_permissions PreOrderCreateView r = true <-> customer) /\
  (check_permissions CancelOrderView r = true <-> customer) /\
  (check_permissions StockUpdateView r = true <-> ops) /\
  (check_permissions OrderListBySlotView r = true <-> ops) /\
  (check_permissions TopProductsReportView r = true <-> ops) /\
  ~ (customer /\ ops) /\
  (~ customer ->
   forall db req now pk,
     place_order db r req now = (Refused, db) /\
     cancel_order db r pk = (Refused, db)) /\
  (~ ops ->
   forall db pk quantity now slot_param start end_,
     update_stock db r pk quantity now = (Refused, db) /\
     list_orders db r slot_param = Refused /\
     top_products db r start end_ = Refused).
Proof.
  cbv zeta.
  rewrite !(single_permission _ IsCustomer) by reflexivity.
  rewrite !(single_permission _ IsOpsManager) by reflexivity.
  simpl has_permission.
  split; [apply customer_check |]. split; [apply customer_check |].
  split; [apply ops_manager_check |]. split; [apply ops_manager_check |].
  split; [apply ops_manager_check |]. split.
  - intros [(uid & u & -> & Hc) (uid' & u' & [= <- <-] & Ho)]. congruence.
  - split.
    + intros Hnot db req now pk.
      assert (Hf : IsCustomer_has_permission r = false).
      { destruct (IsCustomer_has_permission r) eqn:E; [| reflexivity].
        exfalso. apply Hnot, customer_check, E. }
      unfold place_order, cancel_order.
      rewrite !(single_permission _ IsCustomer) by reflexivity.
      simpl has_permission. rewrite Hf. destruct r; auto.
    + intros Hnot db pk quantity now slot_param start end_.
      assert (Hf : IsOpsManager_has_permission r = false).
      { destruct (IsOpsManager_has_permission r) eqn:E; [| reflexivity].
        exfalso. apply Hnot, ops_manager_check, E. }
      unfold update_stock, list_orders, top_products.
      rewrite !(single_permission _ IsOpsManager) by reflexivity.
      simpl has_permission. rewrite Hf. auto.
Qed.

Lemma roles_separate_endpoints_witness :
  ~ (exists uid u, Account 7 (mk_user "ops" "ops_manager" false) = Account uid u /\
                   cu_role u = "customer"%string) /\
  place_order shop (Account 7 (mk_user "ops" "ops_manager" false))
    (apple_request 1) noon_before_cutoff
  = (Refused, shop) /\
  ~ (exists uid u, Account 1 (mk_user "cust" "customer" false) = Account uid u /\
                   cu_role u = "ops_manager"%string) /\
  update_stock shop (Account 1 (mk_user "cust" "customer" false)) 1 99
    (mk_datetime 739000 (mk_time 8 30 0 0))
  = (Refused, shop).
Proof.
  assert (H1 : ~ (exists uid u,
                     Account 7 (mk_user "ops" "ops_manager" false) = Account uid u /\
                     cu_role u = "customer"%string))
    by (intros (? & ? & [= <- <-] & H); discriminate H).
  assert (H2 : ~ (exists uid u,
                     Account 1 (mk_user "cust" "customer" false) = Account uid u /\
                     cu_role u = "ops_manager"%string))
    by (intros (? & ? & [= <- <-] & H); discriminate H).
  split; [exact H1 |]. split; [| split; [exact H2 |]].
  - pose proof (roles_separate_endpoints
                  (Account 7 (mk_user "ops" "ops_manager" false)))
      as (_ & _ & _ & _ & _ & _ & Hrefused & _).
    exact (proj1 (Hrefused H1 shop (apple_request 1) noon_before_cutoff 1%nat)).
  - pose proof (roles_separate_endpoints
                  (Account 1 (mk_user "cust" "customer" false)))
      as (_ & _ & _ & _ & _ & _ & _ & Hrefused).
    exact (proj1 (Hrefused H2 shop 1%nat 99
                    (mk_datetime 739000 (mk_time 8 30 0 0)) None None None)).
Defined.

(** X13: behind its permission check the create view never gives its own
    "authentication required" answer, and an order created through the
    endpoint belongs to the requesting account, which is a customer. *)
Theorem place_order_requester_is_customer
    (db : DB) (r : Requester) (req : PlaceRequest) (now : datetime)
    (response : Response) (db' : DB) :
  place_order db r req now = (Handled response, db') ->
  response <> AuthenticationRequired /\
  forall pk o,
    response = OrderCreated pk o ->
    exists u, r = Account (po_user o) u /\ is_customer u = true.
Proof.
  unfold place_order. rewrite (single_permission _ IsCustomer) by reflexivity.
  simpl has_permission. intros H.
  destruct (IsCustomer_has_permission r) eqn:Hperm; [| discriminate].
  apply customer_check in Hperm as (uid & u & -> & Hrole).
  change (request_user (Account uid u)) with (Authenticated uid) in H.
  destruct (PreOrderCreateView_create db (Authenticated uid) req now)
    as [resp db1] eqn:E.
  injection H as <- <-. split.
  - intros ->. unfold PreOrderCreateView_create, PreOrder_create in E.
    destruct (is_empty _); [discriminate |].
    destruct (resolve_product _ _); [| discriminate ..].
    destruct (req_quantity req) as [qty|]; [| discriminate].
    destruct (qty <=? 0); [discriminate |].
    destruct (DeliverySlot_get _ _); [| discriminate ..].
    destruct (is_empty _); [discriminate |].
    destruct (negb _); [discriminate |].
    destruct (negb _); [discriminate |].
    destruct (StockBalance_get _ _) as [[k s]| |]; [| discriminate ..].
    destruct (sb_quantity s <? qty); [discriminate |].
    destruct (compute_delivery_date now); discriminate.
  - intros pk o ->.
    apply create_inv in E as [[_ Hno] | (uid' & pk' & o' & Hu & Heq & Hp)];
      [exfalso; exact (Hno pk o eq_refl) |].
    injection Hu as <-. injection Heq as <- <-.
    assert (Huser : po_user o = uid)
      by (destruct Hp as [? ? ? ? _ _ _ _ _ _ _ -> _ _]; reflexivity).
    exists u. rewrite Huser. split; [reflexivity |].
    unfold is_customer. apply String.eqb_eq. exact Hrole.
Qed.

Lemma place_order_requester_is_customer_witness :
  exists db',
    place_order shop (Account 1 (mk_user "cust" "customer" false))
      (apple_request 6) noon_before_cutoff
    = (Handled (OrderCreated 1 (mk_preorder 1 1 3 6 noon_before_cutoff 739001
                                            "12 Main St." false)), db') /\
    OrderCreated 1 (mk_preorder 1 1 3 6 noon_before_cutoff 739001
                                "12 Main St." false)
    <> AuthenticationRequired.
Proof.
  assert (H : place_order shop (Account 1 (mk_user "cust" "customer" false))
                (apple_request 6) noon_before_cutoff
              = (Handled (OrderCreated 1
                            (mk_preorder 1 1 3 6 noon_before_cutoff 739001
                                         "12 Main St." false)),
                 snd (place_order shop (Account 1 (mk_user "cust" "customer" false))
                        (apple_request 6) noon_before_cutoff)))
    by reflexivity.
  eexists. split; [exact H |].
  exact (proj1 (place_order_requester_is_customer _ _ _ _ _ _ H)).
Defined.

End Permissions.

(** ** Signing up *)

Section Signup.

Lemma username_taken_spec (accounts : gmap nat CustomUser) value :
  username_taken accounts value = true <->
  exists k u, accounts !! k = Some u /\ cu_username u = value.
Proof.
  unfold username_taken. rewrite existsb_exists. split.
  - intros ([k u] & Hin & Heq). simpl in Heq. apply String.eqb_eq in Heq.
    apply list_elem_of_In, elem_of_map_to_list in Hin. eauto.
  - intros (k & u & Hl & Heq). exists (k, u). split.
    + apply list_elem_of_In, elem_of_map_to_list. exact Hl.
    + simpl. apply String.eqb_eq. exact Heq.
Qed.

Lemma insert_fresh_username (accounts : gmap nat CustomUser) user :
  usernames_unique accounts ->
  username_taken accounts (cu_username user) = false ->
  usernames_unique (<[next_pk accounts := user]> accounts).
Proof.
  intros Hu Hfree k1 k2 u1 u2 H1 H2 Heq.
  assert (Hno : forall k u, accounts !! k = Some u ->
                            cu_username u <> cu_username user).
  { intros k u Hl Hsame.
    assert (Ht : username_taken accounts (cu_username user) = true)
      by (apply username_taken_spec; eauto).
    congruence. }
  apply lookup_insert_Some in H1 as [[<- <-] | [_ H1]];
    apply lookup_insert_Some in H2 as [[<- <-] | [_ H2]].
  - reflexivity.
  - exfalso. apply (Hno k2 u2 H2). congruence.
  - exfalso. apply (Hno k1 u1 H1). congruence.
  - exact (Hu k1 k2 u1 u2 H1 H2 Heq).
Qed.

(** X14: signing up keeps user names unique.  A sign-up is rejected, with
    the failing fields marked and without a write, when the username field
    fails or its name is in the table, when the password field fails, or
    when the role is outside the two choices.  Otherwise, that is for a
    username and a password that pass their fields, a name that is not in
    the table and a role that is absent or one of the choices, exactly one
    account is added under a fresh key, with that name, the role that was
    sent (or "customer" when none was) and no staff flag, and from then on
    the name counts as taken. *)
Theorem signup_keeps_usernames_unique
    (accounts : gmap nat CustomUser) (request : SignupRequest)
    (response : SignupResponse) (accounts' : gmap nat CustomUser) :
  usernames_unique accounts ->
  SignupView_create accounts request = (response, accounts') ->
  usernames_unique accounts' /\
  ((response = Rejected (failed (checked_username accounts request))
                        (failed (sr_password request))
                        (negb (role_valid (sr_role request))) /\
    accounts' = accounts /\
    (sr_username request = None \/
     (exists value, sr_username request = Some value /\
                    username_taken accounts value = true) \/
     sr_password request = None \/
     role_valid (sr_role request) = false)) \/
   (exists pk user value password,
       sr_username request = Some value /\
       username_taken accounts value = false /\
       sr_password request = Some password /\
       role_valid (sr_role request) = true /\
       response = SignedUp pk user /\
       accounts !! pk = None /\ accounts' = <[pk := user]> accounts /\
       user = mk_user value (default "customer"%string (sr_role request)) false /\
       username_taken accounts' value = true)).
Proof.
  intros Hu H. unfold SignupView_create, SignupSerializer_is_valid,
    checked_username, validate_username in *.
  destruct (sr_username request) as [value|] eqn:Hname.
  - destruct (username_taken accounts value) eqn:Htaken.
    + assert (response = Rejected true (failed (sr_password request))
                                  (negb (role_valid (sr_role request))) /\
              accounts' = accounts) as [-> ->].
      { destruct (sr_password request), (role_valid (sr_role request));
          injection H as <- <-; split; reflexivity. }
      split; [exact Hu |]. left. split; [reflexivity |].
      split; [reflexivity |]. right. left. exists value. auto.
    + destruct (sr_password request) as [password|] eqn:Hpass.
      * destruct (role_valid (sr_role request)) eqn:Hrole.
        -- simpl in H. injection H as <- <-. split.
           ++ apply (insert_fresh_username accounts
                       (mk_user value
                          (default "customer"%string (sr_role request)) false));
                assumption.
           ++ right. eexists (next_pk accounts), _, value, password.
              split; [reflexivity |]. split; [exact Htaken |].
              split; [reflexivity |]. split; [reflexivity |].
              split; [reflexivity |]. split; [apply next_pk_fresh |].
              split; [reflexivity |]. split; [reflexivity |].
              apply username_taken_spec. eexists _, _.
              split; [apply lookup_insert_eq | reflexivity].
        -- injection H as <- <-. split; [exact Hu |]. left.
        split; [reflexivity | split; [reflexivity | auto 8]].
      * assert (response = Rejected false true
                                    (negb (role_valid (sr_role request))) /\
                accounts' = accounts) as [-> ->].
        { destruct (role_valid (sr_role request));
            injection H as <- <-; split; reflexivity. }
        split; [exact Hu |]. left.
        split; [reflexivity | split; [reflexivity | auto 8]].
  - assert (response = Rejected true (failed (sr_password request))
                                (negb (role_valid (sr_role request))) /\
            accounts' = accounts) as [-> ->].
    { destruct (sr_password request), (role_valid (sr_role request));
        injection H as <- <-; split; reflexivity. }
    split; [exact Hu |]. left.
        split; [reflexivity | split; [reflexivity | auto 8]].
Qed.

Lemma signup_keeps_usernames_unique_witness :
  usernames_unique (∅ : gmap nat CustomUser) /\
  exists pk user accounts',
    SignupView_create ∅ (mk_signup_request (Some "newuser") (Some "s3cret") None)
    = (SignedUp pk user, accounts') /\
    usernames_unique accounts'.
Proof.
  assert (Hu : usernames_unique (∅ : gmap nat CustomUser)).
  { intros k1 k2 u1 u2 H1. rewrite lookup_empty in H1. discriminate. }
  assert (H : SignupView_create ∅
                (mk_signup_request (Some "newuser") (Some "s3cret") None)
              = (SignedUp 1 (mk_user "newuser" "customer" false),
                 snd (SignupView_create ∅
                        (mk_signup_request (Some "newuser") (Some "s3cret") None))))
    by reflexivity.
  split; [exact Hu |]. eexists _, _, _. split; [exact H |].
  exact (proj1 (signup_keeps_usernames_unique _ _ _ _ Hu H)).
Defined.

(** X15: the public sign-up stores the role the request sends.  For a
    username and a password that pass their fields, a name that is not in
    the table and either of the two roles, the account is created with that
    role; sent "ops_manager", it passes the permission checks of the stock
    update, the slot listing and the report. *)
Theorem signup_stores_requested_role
    (accounts : gmap nat CustomUser) (request : SignupRequest)
    (value password role : string) :
  sr_username request = Some value -> username_taken accounts value = false ->
  sr_password request = Some password ->
  sr_role request = Some role -> In role (List.map fst ROLE_CHOICES) ->
  exists pk user,
    SignupView_create accounts request
    = (SignedUp pk user, <[pk := user]> accounts) /\
    cu_username user = value /\ cu_role user = role /\
    (role = "ops_manager"%string ->
     check_permissions StockUpdateView (Account pk user) = true /\
     check_permissions OrderListBySlotView (Account pk user) = true /\
     check_permissions TopProductsReportView (Account pk user) = true).
Proof.
  intros Hname Hfree Hpass Hsent Hrole.
  unfold SignupView_create, SignupSerializer_is_valid, checked_username,
    validate_username. rewrite Hname, Hfree, Hpass, Hsent.
  assert (Hvalid : role_valid (Some role) = true)
    by (destruct Hrole as [<- | [<- | []]]; reflexivity).
  rewrite Hvalid. simpl.
  eexists _, _. split; [reflexivity |]. split; [reflexivity |].
  split; [reflexivity |]. intros ->. repeat split.
Qed.

Lemma signup_stores_requested_role_witness :
  username_taken (∅ : gmap nat CustomUser) "mallory" = false /\
  In "ops_manager"%string (List.map fst ROLE_CHOICES) /\
  exists pk user,
    SignupView_create ∅
      (mk_signup_request (Some "mallory") (Some "pass1234")
                         (Some "ops_manager"%string))
    = (SignedUp pk user, <[pk := user]> ∅) /\
    cu_role user = "ops_manager"%string.
Proof.
  assert (Hfree : username_taken (∅ : gmap nat CustomUser) "mallory" = false)
    by reflexivity.
  assert (Hrole : In "ops_manager"%string (List.map fst ROLE_CHOICES))
    by (right; left; reflexivity).
  split; [exact Hfree | split; [exact Hrole |]].
  destruct (signup_stores_requested_role ∅
              (mk_signup_request (Some "mallory") (Some "pass1234")
                                 (Some "ops_manager"%string))
              "mallory" "pass1234" "ops_manager"
              eq_refl Hfree eq_refl eq_refl Hrole)
    as (pk & user & Hc & _ & Hr & _).
  exists pk, user. split; [exact Hc | exact Hr].
Defined.

(** X16: creating an ops manager is for staff only and always yields an ops
    manager.  The anonymous user is answered "not authenticated", an
    authenticated account without the staff flag "permission denied", both
    without a write.  For a staff account the request goes through the same
    validation as a sign-up: a failing field rejects it without a write,
    and for a username and a password that pass their fields, a name that
    is not in the table and a role that is absent or one of the choices the
    new account has role "ops_manager" whatever role the request sent. *)
Theorem ops_manager_creation
    (accounts : gmap nat CustomUser) (r : Requester) (request : SignupRequest) :
  (is_authenticated r = false ->
   OpsManagerCreateView_create accounts r request
   = (NotAuthenticated, accounts)) /\
  (is_authenticated r = true -> is_staff r = false ->
   OpsManagerCreateView_create accounts r request
   = (PermissionDenied, accounts)) /\
  (is_staff r = true ->
   (checked_username accounts request = None \/
    sr_password request = None \/ role_valid (sr_role request) = false) ->
   OpsManagerCreateView_create accounts r request
   = (Rejected (failed (checked_username accounts request))
               (failed (sr_password request))
               (negb (role_valid (sr_role request))), accounts)) /\
  (is_staff r = true ->
   forall value password,
     sr_username request = Some value ->
     username_taken accounts value = false ->
     sr_password request = Some password ->
     role_valid (sr_role request) = true ->
     exists pk user,
       OpsManagerCreateView_create accounts r request
       = (SignedUp pk user, <[pk := user]> accounts) /\
       accounts !! pk = None /\
       user = mk_user value "ops_manager" false /\
       IsOpsManager_has_permission (Account pk user) = true).
Proof.
  unfold OpsManagerCreateView_create, OpsManagerCreateView_permission_denied.
  rewrite (single_permission _ IsAdminUser) by reflexivity. simpl has_permission.
  split; [| split; [| split]].
  - intros Hauth. destruct r as [|uid u]; [reflexivity | discriminate].
  - intros Hauth Hstaff. rewrite Hstaff, Hauth. reflexivity.
  - intros Hstaff Hfail. rewrite Hstaff. unfold SignupSerializer_is_valid.
    destruct (checked_username accounts request) as [value|];
      destruct (sr_password request) as [password|];
      destruct (role_valid (sr_role request));
      try reflexivity.
    destruct Hfail as [[=] | [[=] | [=]]].
  - intros Hstaff value password Hname Hfree Hpass Hvalid. rewrite Hstaff.
    unfold SignupSerializer_is_valid, checked_username, validate_username.
    rewrite Hname, Hfree, Hpass, Hvalid. simpl.
    eexists _, _. split; [reflexivity |]. split; [apply next_pk_fresh |].
    split; reflexivity.
Qed.

Lemma ops_manager_creation_witness :
  is_authenticated (Account 1 (mk_user "cust" "customer" false)) = true /\
  is_staff (Account 1 (mk_user "cust" "customer" false)) = false /\
  OpsManagerCreateView_create ∅ (Account 1 (mk_user "cust" "customer" false))
    (mk_signup_request (Some "ops2") (Some "pass1234") None)
  = (PermissionDenied, ∅) /\
  is_staff (Account 9 (mk_user "admin" "customer" true)) = true /\
  username_taken (∅ : gmap nat CustomUser) "ops2" = false /\
  exists pk user,
    OpsManagerCreateView_create ∅ (Account 9 (mk_user "admin" "customer" true))
      (mk_signup_request (Some "ops2") (Some "pass1234")
                         (Some "customer"%string))
    = (SignedUp pk user, <[pk := user]> ∅) /\
    user = mk_user "ops2" "ops_manager" false.
Proof.
  assert (Ha : is_authenticated (Account 1 (mk_user "cust" "customer" false)) = true)
    by reflexivity.
  assert (Hs : is_staff (Account 1 (mk_user "cust" "customer" false)) = false)
    by reflexivity.
  assert (Hs' : is_staff (Account 9 (mk_user "admin" "customer" true)) = true)
    by reflexivity.
  assert (Hfree : username_taken (∅ : gmap nat CustomUser) "ops2" = false)
    by reflexivity.
  split; [exact Ha |]. split; [exact Hs |]. split; [| split; [exact Hs' |]].
  - exact (proj1 (proj2 (ops_manager_creation ∅
             (Account 1 (mk_user "cust" "customer" false))
             (mk_signup_request (Some "ops2") (Some "pass1234") None))) Ha Hs).
  - split; [exact Hfree |].
    destruct (proj2 (proj2 (proj2 (ops_manager_creation ∅
                (Account 9 (mk_user "admin" "customer" true))
                (mk_signup_request (Some "ops2") (Some "pass1234")
                                   (Some "customer"%string)))))
                Hs' "ops2" "pass1234" eq_refl Hfree eq_refl eq_refl)
      as (pk & user & Hc & _ & Hu & _).
    exists pk, user. split; [exact Hc | exact Hu].
Defined.

End Signup.

(** ** The serializer's rules and the view's *)

Section SerializerRules.

Lemma assigned_is_computed (now : datetime) :
  valid_date (dt_date now) ->
  assigned_delivery_date now = compute_delivery_date now.
Proof.
  intros Hd. unfold assigned_delivery_date, compute_delivery_date, date_after.
  change (mk_time 18 0 0 0) with cutoff.
  destruct (time_ge (dt_time now) cutoff).
  - symmetry. apply add_days_twice. exact Hd.
  - destruct (add_days (dt_date now) 1); reflexivity.
Qed.

(** X17: the serializer and the create view state the same rules.  For an
    order that comes without a delivery date and a valid [now], and a request
    the view has validated up to its stock check, [validate] accepts exactly
    when the view places the order, and then assigns the very date the view
    computes; it reports a missing stock row, naming the product, exactly
    when the view answers "Stock not found"; it reports insufficient stock
    exactly when the view does, with the same product name and available
    quantity; and it ends in an exception exactly when the view does. *)
Theorem serializer_agrees_with_view
    (db : DB) (product : Product) (quantity : Z) (now : datetime) :
  valid_date (dt_date now) ->
  PreOrderSerializer_validate db (mk_data (Some product) quantity None) now
  = match StockBalance_get db (product_id product) with
    | DoesNotExist => Invalid (NoStockRecord (product_name product))
    | MultipleObjectsReturned => Crashed StockMultipleObjects
    | Got (_, stock) =>
        if sb_quantity stock <? quantity
        then Invalid (InsufficientStockFor (product_name product)
                                           (sb_quantity stock))
        else match compute_delivery_date now with
             | Some d => Valid (mk_data (Some product) quantity (Some d))
             | None => Crashed DateOverflow
             end
    end /\
  forall uid req slot,
    strip (req_product_name req) <> EmptyString ->
    resolve_product db (strip (req_product_name req)) = Exact product ->
    req_quantity req = Some quantity -> 0 < quantity ->
    DeliverySlot_get db (upper (strip (req_slot req))) = Got slot ->
    address_ok (strip (req_delivery_address req)) = true ->
    (forall d,
        PreOrderSerializer_validate db (mk_data (Some product) quantity None) now
        = Valid (mk_data (Some product) quantity (Some d)) <->
        exists pk o db',
          PreOrderCreateView_create db (Authenticated uid) req now
          = (OrderCreated pk o, db') /\ po_delivery_date o = d) /\
    (forall name available,
        PreOrderSerializer_validate db (mk_data (Some product) quantity None) now
        = Invalid (InsufficientStockFor name available) <->
        PreOrderCreateView_create db (Authenticated uid) req now
        = (InsufficientStock name available, db)) /\
    (forall name,
        PreOrderSerializer_validate db (mk_data (Some product) quantity None) now
        = Invalid (NoStockRecord name) <->
        name = product_name product /\
        PreOrderCreateView_create db (Authenticated uid) req now
        = (StockNotFound, db)) /\
    ((exists e,
         PreOrderSerializer_validate db (mk_data (Some product) quantity None) now
         = Crashed e) <->
     (exists e,
         PreOrderCreateView_create db (Authenticated uid) req now
         = (Unhandled e, db))).
Proof.
  intros Hd.
  assert (Hval :
    PreOrderSerializer_validate db (mk_data (Some product) quantity None) now
    = match StockBalance_get db (product_id product) with
      | DoesNotExist => Invalid (NoStockRecord (product_name product))
      | MultipleObjectsReturned => Crashed StockMultipleObjects
      | Got (_, stock) =>
          if sb_quantity stock <? quantity
          then Invalid (InsufficientStockFor (product_name product)
                                             (sb_quantity stock))
          else match compute_delivery_date now with
               | Some d => Valid (mk_data (Some product) quantity (Some d))
               | None => Crashed DateOverflow
               end
      end).
  { unfold PreOrderSerializer_validate, validate_cutoff. simpl.
    rewrite (assigned_is_computed now Hd). reflexivity. }
  split; [exact Hval |].
  intros uid req slot Hname Hres Hqty Hpos Hslot Haddr. rewrite Hval.
  destruct (StockBalance_get db (product_id product)) as [[k s]| |] eqn:Hstock.
  - rewrite (create_accepts db req now uid product quantity slot k s)
      by assumption.
    destruct (sb_quantity s <? quantity).
    + split; [| split; [| split]].
      * intros d. split; [discriminate | intros (? & ? & ? & [=] & _)].
      * intros name available. split; intros [= <- <-]; reflexivity.
      * intros name. split; [discriminate | intros [_ [=]]].
      * split; intros [e [=]].
    + destruct (compute_delivery_date now) as [d0|]; cbv zeta.
      * split; [| split; [| split]].
        -- intros d. split.
           ++ intros [= <-]. eexists _, _, _. split; reflexivity.
           ++ intros (pk & o & db' & [= <- <- <-] & <-). reflexivity.
        -- intros name available. split; discriminate.
        -- intros name. split; [discriminate | intros [_ [=]]].
        -- split; intros [e [=]].
      * split; [| split; [| split]].
        -- intros d. split; [discriminate | intros (? & ? & ? & [=] & _)].
        -- intros name available. split; discriminate.
        -- intros name. split; [discriminate | intros [_ [=]]].
        -- split; intros _; eexists; reflexivity.
  - assert (Hc : PreOrderCreateView_create db (Authenticated uid) req now
                 = (StockNotFound, db)).
    { unfold PreOrderCreateView_create, address_ok in *.
      apply andb_true_iff in Haddr as [Haddr Hall].
      apply andb_true_iff in Haddr as [Hne Hany].
      destruct (strip (req_product_name req)) eqn:En; [congruence |].
      simpl is_empty. rewrite Hres, Hqty.
      destruct (Z.leb_spec quantity 0); [lia |]. rewrite Hslot.
      apply negb_true_iff in Hne. rewrite Hne, Hany, Hall. simpl negb. cbv iota.
      rewrite Hstock. reflexivity. }
    rewrite Hc. split; [| split; [| split]].
    + intros d. split; [discriminate | intros (? & ? & ? & [=] & _)].
    + intros name available. split; discriminate.
    + intros name. split.
      * intros [= <-]. split; reflexivity.
      * intros [-> _]. reflexivity.
    + split; intros [e [=]].
  - assert (Hc : PreOrderCreateView_create db (Authenticated uid) req now
                 = (Unhandled MultipleObjects, db)).
    { unfold PreOrderCreateView_create, address_ok in *.
      apply andb_true_iff in Haddr as [Haddr Hall].
      apply andb_true_iff in Haddr as [Hne Hany].
      destruct (strip (req_product_name req)) eqn:En; [congruence |].
      simpl is_empty. rewrite Hres, Hqty.
      destruct (Z.leb_spec quantity 0); [lia |]. rewrite Hslot.
      apply negb_true_iff in Hne. rewrite Hne, Hany, Hall. simpl negb. cbv iota.
      rewrite Hstock. reflexivity. }
    rewrite Hc. split; [| split; [| split]].
    + intros d. split; [discriminate | intros (? & ? & ? & [=] & _)].
    + intros name available. split; discriminate.
    + intros name. split; [discriminate | intros [_ [=]]].
    + split; intros _; eexists; reflexivity.
Qed.

Lemma serializer_agrees_with_view_witness :
  valid_date (dt_date noon_before_cutoff) /\
  PreOrderSerializer_validate shop
    (mk_data (Some (mk_product 1 "Apple")) 6 None) noon_before_cutoff
  = Valid (mk_data (Some (mk_product 1 "Apple")) 6 (Some 739001)) /\
  exists pk o db',
    PreOrderCreateView_create shop (Authenticated 1) (apple_request 6)
      noon_before_cutoff
    = (OrderCreated pk o, db') /\ po_delivery_date o = 739001.
Proof.
  assert (Hd : valid_date (dt_date noon_before_cutoff))
    by (unfold valid_date, date_min, date_max; simpl; lia).
  assert (Hv : PreOrderSerializer_validate shop
                 (mk_data (Some (mk_product 1 "Apple")) 6 None) noon_before_cutoff
               = Valid (mk_data (Some (mk_product 1 "Apple")) 6 (Some 739001)))
    by reflexivity.
  split; [exact Hd | split; [exact Hv |]].
  destruct (serializer_agrees_with_view shop (mk_product 1 "Apple") 6
              noon_before_cutoff Hd) as [_ Hagree].
  destruct (Hagree 1%nat (apple_request 6) (mk_slot 3 "EVENING"))
    as [Hdate _];
    [discriminate | reflexivity | reflexivity | lia | reflexivity | reflexivity |].
  exact (proj1 (Hdate 739001) Hv).
Defined.

(** X18: for an order that names its delivery date, the serializer's cut-off
    check refuses only one date: tomorrow, when it is 18:00 or later.
    Before 18:00 every date passes, and from 18:00 on every other date
    passes too, today and any past day included. *)
Theorem supplied_date_rule
    (data : OrderData) (now : datetime) (delivery_date : date) :
  valid_time (dt_time now) ->
  dt_date now + 1 <= date_max -> date_min <= dt_date now + 1 ->
  vd_delivery_date data = Some delivery_date ->
  (micros (dt_time now) < micros cutoff -> validate_cutoff data now = Valid data) /\
  (micros cutoff <= micros (dt_time now) ->
   (delivery_date = dt_date now + 1 ->
    validate_cutoff data now = Invalid NextDayAfterCutoff) /\
   (delivery_date <> dt_date now + 1 -> validate_cutoff data now = Valid data)).
Proof.
  intros Ht Hhi Hlo Hdd. unfold validate_cutoff, date_after. rewrite Hdd.
  change (mk_time 18 0 0 0) with cutoff.
  pose proof (time_ge_micros (dt_time now) cutoff Ht valid_cutoff) as Hge.
  rewrite (add_days_in_range (dt_date now) 1) by lia.
  destruct (time_ge (dt_time now) cutoff).
  - split.
    + intros Hlt. assert (micros cutoff <= micros (dt_time now))
        by (apply Hge; reflexivity). lia.
    + intros _. split.
      * intros ->. rewrite Z.eqb_refl. reflexivity.
      * intros Hne. apply Z.eqb_neq in Hne. rewrite Hne. reflexivity.
  - split; [reflexivity |].
    intros Hle. apply Hge in Hle. discriminate.
Qed.

Lemma supplied_date_rule_witness :
  valid_time (mk_time 19 0 0 0) /\
  validate_cutoff (mk_data None 1 (Some 738000))
    (mk_datetime 739000 (mk_time 19 0 0 0))
  = Valid (mk_data None 1 (Some 738000)) /\
  validate_cutoff (mk_data None 1 (Some 739001))
    (mk_datetime 739000 (mk_time 19 0 0 0))
  = Invalid NextDayAfterCutoff.
Proof.
  assert (Ht : valid_time (mk_time 19 0 0 0)) by (unfold valid_time; simpl; lia).
  assert (Hhi : 739000 + 1 <= date_max) by (unfold date_max; lia).
  assert (Hlo : date_min <= 739000 + 1) by (unfold date_min; lia).
  assert (Hge : micros cutoff <= micros (mk_time 19 0 0 0)) by discriminate.
  split; [exact Ht |]. split.
  - apply (proj2 (supplied_date_rule (mk_data None 1 (Some 738000))
             (mk_datetime 739000 (mk_time 19 0 0 0)) 738000 Ht Hhi Hlo eq_refl)
             Hge).
    simpl. lia.
  - apply (proj2 (supplied_date_rule (mk_data None 1 (Some 739001))
             (mk_datetime 739000 (mk_time 19 0 0 0)) 739001 Ht Hhi Hlo eq_refl)
             Hge).
    reflexivity.
Defined.

End SerializerRules.

(** ** Responses of the create view *)

Section CreateResponses.

(** The response tells whether something was written. *)
Lemma create_response_kinds db user req now r db' :
  PreOrderCreateView_create db user req now = (r, db') ->
  (exists pk o, r = OrderCreated pk o) \/
  (db' = db /\ status r <> 201 /\
   (status r = 500 \/ exists text, error_text r = Some text)).
Proof.
  unfold PreOrderCreateView_create, PreOrder_create. intros H.
  destruct user as [|uid];
    [injection H as <- <-; right; repeat split; try discriminate; right; eauto |].
  destruct (is_empty _);
    [injection H as <- <-; right; repeat split; try discriminate; right; eauto |].
  destruct (resolve_product _ _) as [product| |];
    [| injection H as <- <-; right; repeat split; try discriminate; right; eauto ..].
  destruct (req_quantity req) as [qty|];
    [| injection H as <- <-; right; repeat split; try discriminate; right; eauto].
  destruct (qty <=? 0);
    [injection H as <- <-; right; repeat split; try discriminate; right; eauto |].
  destruct (DeliverySlot_get _ _) as [slot| |];
    [| injection H as <- <-; right; repeat split; try discriminate; right; eauto
     | injection H as <- <-; right; repeat split; try discriminate; left; reflexivity].
  destruct (is_empty _);
    [injection H as <- <-; right; repeat split; try discriminate; right; eauto |].
  destruct (negb _);
    [injection H as <- <-; right; repeat split; try discriminate; right; eauto |].
  destruct (negb _);
    [injection H as <- <-; right; repeat split; try discriminate; right; eauto |].
  destruct (StockBalance_get _ _) as [[stock_pk stock]| |];
    [| injection H as <- <-; right; repeat split; try discriminate; right; eauto
     | injection H as <- <-; right; repeat split; try discriminate; left; reflexivity].
  destruct (sb_quantity stock <? qty);
    [injection H as <- <-; right; repeat split; try discriminate; right; eauto |].
  destruct (compute_delivery_date now) as [d|];
    [| injection H as <- <-; right; repeat split; try discriminate; left; reflexivity].
  injection H as <- <-. left. eauto.
Qed.

(** X21: the status of the create view's answer tells whether it wrote.  The
    status is 201 exactly when an order was stored, and then the database
    has changed; with every other status the database is the one before
    the call, and unless the status is 500 the answer carries an error
    text. *)
Theorem create_status_tells_write
    (db : DB) (user : RequestUser) (req : PlaceRequest) (now : datetime)
    (r : Response) (db' : DB) :
  PreOrderCreateView_create db user req now = (r, db') ->
  (status r = 201 <-> exists pk o, r = OrderCreated pk o) /\
  (status r = 201 -> db' <> db) /\
  (status r <> 201 ->
   db' = db /\ (status r = 500 \/ exists text, error_text r = Some text)).
Proof.
  intros H. pose proof (create_response_kinds _ _ _ _ _ _ H) as Hkinds.
  split; [| split].
  - split.
    + intros Hs. destruct Hkinds as [Hc | (_ & Hn & _)]; [exact Hc | contradiction].
    + intros (pk & o & ->). reflexivity.
  - intros Hs. destruct Hkinds as [(pk & o & ->) | (_ & Hn & _)]; [| contradiction].
    apply create_inv in H as [[_ Hno] | (uid & pk' & o' & _ & Heq & Hp)];
      [exfalso; exact (Hno pk o eq_refl) |].
    injection Heq as <- <-.
    apply placed_product in Hp as (k & s & _ & _ & _ & _ & Hfresh & ->).
    intros Heq.
    assert (Hl : preorders
                   (StockBalance_save
                      (set_preorders db (<[pk := o]> (preorders db))) k
                      (mk_stock (sb_product s) (sb_quantity s - po_quantity o)))
                 !! pk = Some o) by (simpl; apply lookup_insert_eq).
    rewrite Heq in Hl. congruence.
  - intros Hs. destruct Hkinds as [(pk & o & ->) | (Hdb & _ & Htext)];
      [exfalso; apply Hs; reflexivity |].
    split; assumption.
Qed.

Lemma create_status_tells_write_witness :
  PreOrderCreateView_create shop (Authenticated 1) (apple_request 11)
    noon_before_cutoff
  = (InsufficientStock "Apple" 10, shop) /\
  status (InsufficientStock "Apple" 10) <> 201 /\
  exists text, error_text (InsufficientStock "Apple" 10) = Some text.
Proof.
  assert (H : PreOrderCreateView_create shop (Authenticated 1) (apple_request 11)
                noon_before_cutoff
              = (InsufficientStock "Apple" 10, shop)) by reflexivity.
  assert (Hs : status (InsufficientStock "Apple" 10) <> 201) by discriminate.
  split; [exact H | split; [exact Hs |]].
  destruct (proj2 (proj2 (create_status_tells_write _ _ _ _ _ _ H)) Hs)
    as [_ [H500 | Htext]].
  - discriminate H500.
  - exact Htext.
Defined.

Lemma find_by_key {A} (key : A -> nat) (l : list A) (x : A) :
  NoDup (List.map key l) -> In x l ->
  List.find (fun y => Nat.eqb (key y) (key x)) l = Some x.
Proof.
  induction l as [|a l IH]; intros Hnd Hin; [destruct Hin |].
  simpl in Hnd. apply NoDup_cons in Hnd as [Hnotin Hnd]. simpl.
  destruct Hin as [-> | Hin].
  - rewrite Nat.eqb_refl. reflexivity.
  - destruct (Nat.eqb_spec (key a) (key x)) as [Heq | _]; [| auto].
    exfalso. apply Hnotin. rewrite Heq.
    apply list_elem_of_In, in_map. exact Hin.
Qed.

(** X22: the 201 answer echoes the request.  With unique primary keys in the
    product and slot tables and the requester in the user table, the
    rendering of a freshly created order shows the key of the order, the
    requested quantity, the upper-cased slot of the request, the computed
    delivery date, the requester's user name, the stripped address, and the
    product under its catalogue name, which is the requested name up to
    case. *)
Theorem created_order_is_echoed
    (db : DB) (user : RequestUser) (req : PlaceRequest) (now : datetime)
    (pk : nat) (o : PreOrder) (db' : DB) (username : string) :
  PreOrderCreateView_create db user req now = (OrderCreated pk o, db') ->
  product_ids_unique db -> slot_ids_unique db ->
  users db !! po_user o = Some username ->
  exists view,
    PreOrderSerializer_data db' pk o = Some view /\
    ov_id view = pk /\
    req_quantity req = Some (ov_quantity view) /\
    ov_slot_name view = upper (strip (req_slot req)) /\
    compute_delivery_date now = Some (ov_delivery_date view) /\
    ov_user_name view = username /\
    ov_delivery_address_output view = strip (req_delivery_address req) /\
    iexact (ov_product view) (strip (req_product_name req)) = true.
Proof.
  intros H Hpu Hsu Huser.
  apply create_inv in H as [[_ Hno] | (uid & pk' & o' & _ & Heq & Hp)];
    [exfalso; exact (Hno pk o eq_refl) |].
  injection Heq as <- <-.
  destruct Hp as [product slot k s Hres Hq _ Hslot _ _ Hdate Ho _ Hdb].
  apply resolve_product_Exact in Hres as [Hpin Hpname].
  apply DeliverySlot_get_Got in Hslot as [Hsin Hsname].
  assert (Hpr : po_product o = product_id product) by (rewrite Ho; reflexivity).
  assert (Hsl : po_slot o = slot_id slot) by (rewrite Ho; reflexivity).
  assert (Had : po_delivery_address o = strip (req_delivery_address req))
    by (rewrite Ho; reflexivity).
  unfold PreOrderSerializer_data. rewrite Hdb. simpl.
  rewrite Hsl, Hpr, Huser.
  rewrite (find_by_key slot_id (slots db) slot Hsu Hsin).
  rewrite (find_by_key product_id (products db) product Hpu Hpin).
  eexists. split; [reflexivity |]. simpl.
  repeat split; assumption.
Qed.

Lemma created_order_is_echoed_witness :
  exists o db' view,
    PreOrderCreateView_create shop (Authenticated 1) (apple_request 6)
      noon_before_cutoff
    = (OrderCreated 1 o, db') /\
    PreOrderSerializer_data db' 1 o = Some view /\
    ov_product view = "Apple"%string /\ ov_slot_name view = "EVENING"%string.
Proof.
  assert (Hc : PreOrderCreateView_create shop (Authenticated 1) (apple_request 6)
                 noon_before_cutoff
               = (OrderCreated 1 (mk_preorder 1 1 3 6 noon_before_cutoff 739001
                                              "12 Main St." false),
                  snd (PreOrderCreateView_create shop (Authenticated 1)
                         (apple_request 6) noon_before_cutoff)))
    by reflexivity.
  assert (Hpu : product_ids_unique shop).
  { refine (bool_decide_unpack (NoDup (List.map product_id (products shop))) _).
    vm_compute. exact I. }
  assert (Hsu : slot_ids_unique shop).
  { refine (bool_decide_unpack (NoDup (List.map slot_id (slots shop))) _).
    vm_compute. exact I. }
  assert (Hu : users shop !! 1%nat = Some "cust"%string) by reflexivity.
  destruct (created_order_is_echoed _ _ _ _ _ _ _ _ Hc Hpu Hsu Hu)
    as (view & Hdata & _ & _ & Hslot & _ & _ & _ & Hprod).
  eexists _, _, view. split; [exact Hc |]. split; [exact Hdata |].
  split; [| exact Hslot].
  unfold PreOrderSerializer_data in Hdata. simpl in Hdata.
  injection Hdata as <-. reflexivity.
Defined.

End CreateResponses.

(** ** Cancelling one's own order *)

Section OwnOrders.

(** X23: on a sound database (the constraints of the tables hold, no
    quantity is negative, and stock plus active orders of each product
    fit the column) the owner of an active order can always cancel it: the
    cancellation succeeds, the stock row of the product is written with its
    quantity plus the order's, which the column holds, what the active
    orders of the product hold shrinks by the same amount, and the database
    is sound again. *)
Theorem owner_can_cancel_active_order
    (column_max : Z) (db : DB) (pk : nat) (o : PreOrder) :
  sound column_max db ->
  preorders db !! pk = Some o -> po_is_cancelled o = false ->
  exists db' k s,
    CancelOrderView_post db (po_user o) pk = (OrderCancelled, db') /\
    preorders db' !! pk = Some (mark_cancelled o) /\
    stocks db !! k = Some s /\ sb_product s = po_product o /\
    stocks db'
    = <[k := mk_stock (sb_product s) (sb_quantity s + po_quantity o)]>
        (stocks db) /\
    column_holds column_max (sb_quantity s + po_quantity o) /\
    on_hand db' (po_product o) = on_hand db (po_product o) + po_quantity o /\
    reserved db' (po_product o) = reserved db (po_product o) - po_quantity o /\
    sound column_max db'.
Proof.
  intros Hs Hl Hact. pose proof Hs as ([Hu Ho] & _ & _).
  destruct (Ho pk o Hl) as (k & s & Hk & Hp).
  assert (Hget : StockBalance_get db (po_product o) = Got (k, s))
    by (rewrite <- Hp; apply StockBalance_get_unique; assumption).
  pose proof (cancel_succeeds db (po_user o) pk o k s Hl eq_refl Hact Hget)
    as Hcancel.
  pose proof (exec_preserves_sound column_max db (CancelOrder (po_user o) pk)
                Hs I) as Hafter.
  simpl in Hafter. rewrite Hcancel in Hafter. simpl snd in Hafter.
  eexists _, k, s. split; [exact Hcancel |].
  split; [simpl; apply lookup_insert_eq |].
  split; [exact Hk |]. split; [exact Hp |]. split; [reflexivity |].
  split; [exact (sound_restore column_max db pk o k s Hs Hl Hact Hk Hp) |].
  split; [| split; [| exact Hafter]].
  - unfold on_hand. simpl. rewrite total_insert, Hk. simpl.
    rewrite Hp, Nat.eqb_refl. lia.
  - unfold reserved. simpl. rewrite total_insert, Hl. simpl.
    rewrite Hact, Nat.eqb_refl. lia.
Qed.

Lemma shop_one_order_sound : sound 2147483647 shop_one_order.
Proof.
  destruct shop_sound as (Hc & [Hs _] & Hcap).
  split; [| split; [split |]].
  - apply (consistent_order_save shop 1%nat (an_order 1 1 2 false) Hc).
    exists 1%nat, (mk_stock 1 10). split; reflexivity.
  - exact Hs.
  - unfold orders_nonneg. change (preorders shop_one_order)
      with ({[1%nat := an_order 1 1 2 false]} : gmap nat PreOrder).
    apply map_Forall_singleton. simpl. lia.
  - intros product. pose proof (Hcap product) as H.
    change (on_hand shop_one_order product) with (on_hand shop product).
    unfold reserved, total in *.
    change (preorders shop) with (∅ : gmap nat PreOrder) in H.
    rewrite map_to_list_empty in H. simpl in H.
    change (preorders shop_one_order)
      with ({[1%nat := an_order 1 1 2 false]} : gmap nat PreOrder).
    rewrite map_to_list_singleton. simpl.
    pose proof (on_hand_row shop 1 (mk_stock 1 10) (proj1 Hc) eq_refl) as H1.
    pose proof (on_hand_row shop 2 (mk_stock 2 5) (proj1 Hc) eq_refl) as H2.
    simpl in H1, H2.
    destruct product as [|[|[|?]]]; simpl; try lia.
Qed.

Lemma owner_can_cancel_active_order_witness :
  sound 2147483647 shop_one_order /\
  preorders shop_one_order !! 1%nat = Some (an_order 1 1 2 false) /\
  exists db',
    CancelOrderView_post shop_one_order 1 1 = (OrderCancelled, db') /\
    on_hand db' 1 = on_hand shop_one_order 1 + 2.
Proof.
  assert (Hl : preorders shop_one_order !! 1%nat = Some (an_order 1 1 2 false))
    by reflexivity.
  split; [exact shop_one_order_sound | split; [exact Hl |]].
  destruct (owner_can_cancel_active_order _ shop_one_order 1 _
              shop_one_order_sound Hl eq_refl)
    as (db' & k & s & Hcancel & _ & _ & _ & _ & _ & Hon & _).
  exists db'. split; [exact Hcancel | exact Hon].
Defined.

End OwnOrders.

(** ** What one placement takes *)

Section ExactDecrement.

(** X24: a placement takes exactly its quantity from exactly its product.
    After a successful placement the stock rows of the ordered product hold
    the requested quantity less and its active orders that much more, while
    for every other product both amounts are what they were. *)
Theorem placement_takes_exactly_its_quantity
    (db : DB) (user : RequestUser) (req : PlaceRequest) (now : datetime)
    (pk : nat) (o : PreOrder) (db' : DB) (product : nat) :
  PreOrderCreateView_create db user req now = (OrderCreated pk o, db') ->
  on_hand db' product =
    on_hand db product - (if Nat.eqb (po_product o) product then po_quantity o else 0)
  /\
  reserved db' product =
    reserved db product + (if Nat.eqb (po_product o) product then po_quantity o else 0).
Proof.
  intros H.
  apply create_inv in H as [[_ Hno] | (uid & pk' & o' & _ & Heq & Hp)];
    [exfalso; exact (Hno pk o eq_refl) |].
  injection Heq as <- <-.
  assert (Hact : po_is_cancelled o = false)
    by (destruct Hp as [? ? ? ? _ _ _ _ _ _ _ -> _ _]; reflexivity).
  apply placed_product in Hp as (k & s & _ & Hk & Hprod & _ & Hfresh & ->).
  unfold on_hand, reserved. simpl.
  rewrite !total_insert, Hk, Hfresh. simpl. rewrite Hact, Hprod.
  destruct (Nat.eqb (po_product o) product); lia.
Qed.

Lemma placement_takes_exactly_its_quantity_witness :
  exists db',
    PreOrderCreateView_create shop (Authenticated 1) (apple_request 6)
      noon_before_cutoff
    = (OrderCreated 1 (mk_preorder 1 1 3 6 noon_before_cutoff 739001
                                   "12 Main St." false), db') /\
    on_hand db' 1 = on_hand shop 1 - 6 /\
    on_hand db' 2 = on_hand shop 2 - 0.
Proof.
  assert (Hc : PreOrderCreateView_create shop (Authenticated 1) (apple_request 6)
                 noon_before_cutoff
               = (OrderCreated 1 (mk_preorder 1 1 3 6 noon_before_cutoff 739001
                                              "12 Main St." false),
                  snd (PreOrderCreateView_create shop (Authenticated 1)
                         (apple_request 6) noon_before_cutoff)))
    by reflexivity.
  eexists. split; [exact Hc |]. split.
  - exact (proj1 (placement_takes_exactly_its_quantity _ _ _ _ _ _ _ 1%nat Hc)).
  - exact (proj1 (placement_takes_exactly_its_quantity _ _ _ _ _ _ _ 2%nat Hc)).
Defined.

End ExactDecrement.

(** ** Seeding *)

Section Seeding.

Lemma get_one_append {A} (l : list A) (x : A) :
  get_one (l ++ [x]) =
  match l with [] => Got x | _ => MultipleObjectsReturned end.
Proof. destruct l as [|a [|b l]]; reflexivity. Qed.

Lemma get_one_DoesNotExist {A} (l : list A) :
  get_one l = DoesNotExist <-> l = [].
Proof. destruct l as [|a [|b l]]; simpl; split; congruence. Qed.

(** Looking a name up after a row was appended to a list table. *)
Lemma get_after_append {A} (f : A -> bool) (l : list A) (x : A) :
  get_one (List.filter f (l ++ [x])) =
  if f x then match List.filter f l with
              | [] => Got x
              | _ => MultipleObjectsReturned
              end
  else get_one (List.filter f l).
Proof.
  rewrite List.filter_app. simpl. destruct (f x).
  - apply get_one_append.
  - rewrite app_nil_r. reflexivity.
Qed.

(** Looking a product up after a stock row was added under a free key. *)
Lemma StockBalance_get_after_insert db k s product :
  stocks db !! k = None ->
  StockBalance_get (StockBalance_save db k s) product =
  if Nat.eqb (sb_product s) product
  then match StockBalance_get db product with
       | DoesNotExist => Got (k, s)
       | _ => MultipleObjectsReturned
       end
  else StockBalance_get db product.
Proof.
  intros Hk. unfold StockBalance_get, StockBalance_save. simpl.
  destruct (Nat.eqb_spec (sb_product s) product) as [Hp | Hp].
  - rewrite map_filter_insert_True by exact Hp.
    set (fm := filter (fun kv : nat * StockBalance => sb_product (snd kv) = product)
                      (stocks db)).
    assert (Hfk : fm !! k = None).
    { unfold fm. apply map_lookup_filter_None. left. exact Hk. }
    pose proof (map_to_list_insert fm k s Hfk) as Hperm.
    destruct (map_to_list fm) as [|a l] eqn:E.
    + apply Permutation_singleton_r in Hperm. rewrite Hperm. reflexivity.
    + apply Permutation_length in Hperm. simpl in Hperm.
      destruct (map_to_list (<[k:=s]> fm)) as [|b [|c l']];
        try discriminate Hperm.
      destruct l; reflexivity.
  - rewrite map_filter_insert_False by exact Hp.
    rewrite delete_id by exact Hk. reflexivity.
Qed.

Lemma extends_refl db : extends db db.
Proof.
  unfold extends. repeat split; auto.
  - exists []. symmetry. apply app_nil_r.
  - exists []. symmetry. apply app_nil_r.
Qed.

Lemma extends_trans db1 db2 db3 :
  extends db1 db2 -> extends db2 db3 -> extends db1 db3.
Proof.
  intros ([ps1 Hp1] & [ss1 Hs1] & Hk1 & Hn1 & Ho1 & Hu1)
         ([ps2 Hp2] & [ss2 Hs2] & Hk2 & Hn2 & Ho2 & Hu2).
  unfold extends. split; [| split; [| split; [| split; [| split]]]].
  - exists (ps1 ++ ps2)%list. rewrite Hp2, Hp1. symmetry. apply app_assoc.
  - exists (ss1 ++ ss2)%list. rewrite Hs2, Hs1. symmetry. apply app_assoc.
  - auto.
  - intros k s H3. destruct (Hn2 k s H3) as [H2 | H50]; [| right; exact H50].
    exact (Hn1 k s H2).
  - congruence.
  - congruence.
Qed.

Lemma keeps_found_refl db : keeps_found db db.
Proof. unfold keeps_found. auto. Qed.

Lemma keeps_found_trans db1 db2 db3 :
  keeps_found db1 db2 -> keeps_found db2 db3 -> keeps_found db1 db3.
Proof.
  intros (Hp1 & Hs1 & Hd1) (Hp2 & Hs2 & Hd2). unfold keeps_found. auto.
Qed.

Lemma step_ok_refl db : step_ok db db.
Proof. split; [apply extends_refl | apply keeps_found_refl | auto]. Qed.

Lemma step_ok_trans db1 db2 db3 :
  step_ok db1 db2 -> step_ok db2 db3 -> step_ok db1 db3.
Proof.
  intros [He1 Hk1 Hu1] [He2 Hk2 Hu2]. split.
  - exact (extends_trans _ _ _ He1 He2).
  - exact (keeps_found_trans _ _ _ Hk1 Hk2).
  - auto.
Qed.

Lemma Product_get_or_create_ok db name p db1 :
  Product_get_or_create db name = Some (p, db1) ->
  Product_get db1 name = Got p /\ step_ok db db1.
Proof.
  unfold Product_get_or_create.
  destruct (Product_get db name) as [q| |] eqn:Hget; [| | discriminate].
  - intros [= <- <-]. split; [exact Hget | apply step_ok_refl].
  - intros [= <- <-].
    set (p := mk_product (next_id (List.map product_id (products db))) name).
    assert (Hafter : forall n,
      Product_get (set_products db (products db ++ [p])) n =
      if String.eqb name n
      then match List.filter (fun q => String.eqb (product_name q) n) (products db) with
           | [] => Got p
           | _ => MultipleObjectsReturned
           end
      else Product_get db n).
    { intros n. unfold Product_get. simpl.
      apply (get_after_append (fun q => String.eqb (product_name q) n)). }
    apply get_one_DoesNotExist in Hget.
    split.
    + rewrite Hafter, String.eqb_refl, Hget. reflexivity.
    + split.
      * unfold extends. simpl. repeat split; auto.
        -- exists [p]. reflexivity.
        -- exists []. symmetry. apply app_nil_r.
      * unfold keeps_found. split; [| split]; [| auto | auto].
        intros n q Hq. rewrite Hafter.
        destruct (String.eqb_spec name n) as [<- | _]; [| exact Hq].
        unfold Product_get in Hq. rewrite Hget in Hq. discriminate.
      * intros (Hu1 & Hu2 & Hu3). split; [| split]; [| exact Hu2 | exact Hu3].
        intros n. rewrite Hafter.
        destruct (String.eqb_spec name n) as [<- | _]; [| apply Hu1].
        rewrite Hget. discriminate.
Qed.

Lemma StockBalance_get_or_create_ok db product k s db1 :
  StockBalance_get_or_create db product 50 = Some (k, s, db1) ->
  StockBalance_get db1 product = Got (k, s) /\ step_ok db db1.
Proof.
  unfold StockBalance_get_or_create.
  destruct (StockBalance_get db product) as [[k0 s0]| |] eqn:Hget;
    [| | discriminate].
  - intros [= <- <- <-]. split; [exact Hget | apply step_ok_refl].
  - intros [= <- <- <-].
    pose proof (next_pk_fresh (stocks db)) as Hfresh.
    pose proof (fun pid => StockBalance_get_after_insert db
                  (next_pk (stocks db)) (mk_stock product 50) pid Hfresh)
      as Hafter. simpl sb_product in Hafter.
    split.
    + rewrite Hafter, Nat.eqb_refl, Hget. reflexivity.
    + split.
      * unfold extends. simpl. split; [| split; [| split; [| split; [| split]]]];
          try reflexivity.
        -- exists []. symmetry. apply app_nil_r.
        -- exists []. symmetry. apply app_nil_r.
        -- intros k s Hk. rewrite lookup_insert_ne; [exact Hk |].
           intros <-. congruence.
        -- intros k s Hk.
           apply lookup_insert_Some in Hk as [[_ <-] | [_ Hk]]; auto.
      * unfold keeps_found. split; [| split]; [auto | | auto].
        intros pid ks Hks. rewrite Hafter.
        destruct (Nat.eqb_spec product pid) as [<- | _]; [| exact Hks].
        congruence.
      * intros (Hu1 & Hu2 & Hu3). split; [| split]; [exact Hu1 | | exact Hu3].
        intros pid. rewrite Hafter.
        destruct (Nat.eqb_spec product pid) as [<- | _]; [| apply Hu2].
        rewrite Hget. discriminate.
Qed.

Lemma DeliverySlot_get_or_create_ok db name s db1 :
  DeliverySlot_get_or_create db name = Some (s, db1) ->
  DeliverySlot_get db1 name = Got s /\ step_ok db db1.
Proof.
  unfold DeliverySlot_get_or_create.
  destruct (DeliverySlot_get db name) as [q| |] eqn:Hget; [| | discriminate].
  - intros [= <- <-]. split; [exact Hget | apply step_ok_refl].
  - intros [= <- <-].
    set (s := mk_slot (next_id (List.map slot_id (slots db))) name).
    assert (Hafter : forall n,
      DeliverySlot_get (set_slots db (slots db ++ [s])) n =
      if String.eqb name n
      then match List.filter (fun q => String.eqb (slot_name q) n) (slots db) with
           | [] => Got s
           | _ => MultipleObjectsReturned
           end
      else DeliverySlot_get db n).
    { intros n. unfold DeliverySlot_get. simpl.
      apply (get_after_append (fun q => String.eqb (slot_name q) n)). }
    apply get_one_DoesNotExist in Hget.
    split.
    + rewrite Hafter, String.eqb_refl, Hget. reflexivity.
    + split.
      * unfold extends. simpl. repeat split; auto.
        -- exists []. symmetry. apply app_nil_r.
        -- exists [s]. reflexivity.
      * unfold keeps_found. split; [| split]; [auto | auto |].
        intros n q Hq. rewrite Hafter.
        destruct (String.eqb_spec name n) as [<- | _]; [| exact Hq].
        unfold DeliverySlot_get in Hq. rewrite Hget in Hq. discriminate.
      * intros (Hu1 & Hu2 & Hu3). split; [| split]; [exact Hu1 | exact Hu2 |].
        intros n. rewrite Hafter.
        destruct (String.eqb_spec name n) as [<- | _]; [| apply Hu3].
        rewrite Hget. discriminate.
Qed.

(** A run of the first loop that ends normally. *)
Lemma seed_products_ok names db db' :
  seed_products db names = Seeded db' ->
  step_ok db db' /\
  forall name, In name names ->
    exists p k s, Product_get db' name = Got p /\
                  StockBalance_get db' (product_id p) = Got (k, s).
Proof.
  revert db. induction names as [|name rest IH]; intros db H; simpl in H.
  - injection H as <-. split; [apply step_ok_refl | intros ? []].
  - destruct (Product_get_or_create db name) as [[p db1]|] eqn:E1;
      [| discriminate].
    destruct (StockBalance_get_or_create db1 (product_id p) 50)
      as [[[k s] db2]|] eqn:E2; [| discriminate].
    apply Product_get_or_create_ok in E1 as [Hp Hs1].
    apply StockBalance_get_or_create_ok in E2 as [Hk Hs2].
    destruct (IH _ H) as [Hs3 Hrest].
    split; [exact (step_ok_trans _ _ _ Hs1 (step_ok_trans _ _ _ Hs2 Hs3)) |].
    intros n [<- | Hin]; [| exact (Hrest n Hin)].
    exists p, k, s.
    destruct Hs2 as [_ (Hp2 & _ & _) _]. destruct Hs3 as [_ (Hp3 & Hk3 & _) _].
    split; [apply Hp3, Hp2, Hp | apply Hk3, Hk].
Qed.

Lemma seed_slots_ok names db db' :
  seed_slots db names = Seeded db' ->
  step_ok db db' /\
  forall name, In name names -> exists s, DeliverySlot_get db' name = Got s.
Proof.
  revert db. induction names as [|name rest IH]; intros db H; simpl in H.
  - injection H as <-. split; [apply step_ok_refl | intros ? []].
  - destruct (DeliverySlot_get_or_create db name) as [[s db1]|] eqn:E1;
      [| discriminate].
    apply DeliverySlot_get_or_create_ok in E1 as [Hs Hs1].
    destruct (IH _ H) as [Hs2 Hrest].
    split; [exact (step_ok_trans _ _ _ Hs1 Hs2) |].
    intros n [<- | Hin]; [| exact (Hrest n Hin)].
    exists s. destruct Hs2 as [_ (_ & _ & Hd) _]. apply Hd, Hs.
Qed.

(** Under the unique constraints neither loop crashes. *)
Lemma seed_products_runs names db :
  gets_are_unique db -> exists db', seed_products db names = Seeded db'.
Proof.
  revert db. induction names as [|name rest IH]; intros db Hu; simpl.
  - eexists. reflexivity.
  - destruct (Product_get_or_create db name) as [[p db1]|] eqn:E1.
    + pose proof (Product_get_or_create_ok _ _ _ _ E1) as [_ [_ _ Hu1]].
      specialize (Hu1 Hu).
      destruct (StockBalance_get_or_create db1 (product_id p) 50)
        as [[[k s] db2]|] eqn:E2.
      * pose proof (StockBalance_get_or_create_ok _ _ _ _ _ E2) as [_ [_ _ Hu2]].
        apply IH, Hu2, Hu1.
      * exfalso. unfold StockBalance_get_or_create in E2.
        destruct Hu1 as (_ & Hs & _). specialize (Hs (product_id p)).
        destruct (StockBalance_get db1 (product_id p)) as [[? ?]| |];
          [discriminate | discriminate | congruence].
    + exfalso. unfold Product_get_or_create in E1.
      destruct Hu as (Hp & _ & _). specialize (Hp name).
      destruct (Product_get db name); [discriminate | discriminate | congruence].
Qed.

Lemma seed_slots_runs names db :
  gets_are_unique db -> exists db', seed_slots db names = Seeded db'.
Proof.
  revert db. induction names as [|name rest IH]; intros db Hu; simpl.
  - eexists. reflexivity.
  - destruct (DeliverySlot_get_or_create db name) as [[s db1]|] eqn:E1.
    + pose proof (DeliverySlot_get_or_create_ok _ _ _ _ E1) as [_ [_ _ Hu1]].
      apply IH, Hu1, Hu.
    + exfalso. unfold DeliverySlot_get_or_create in E1.
      destruct Hu as (_ & _ & Hd). specialize (Hd name).
      destruct (DeliverySlot_get db name); [discriminate | discriminate | congruence].
Qed.

(** A database in which everything is found is left as it is. *)
Lemma seed_products_fixed names db :
  (forall name, In name names ->
     exists p k s, Product_get db name = Got p /\
                   StockBalance_get db (product_id p) = Got (k, s)) ->
  seed_products db names = Seeded db.
Proof.
  induction names as [|name rest IH]; intros H; simpl; [reflexivity |].
  destruct (H name (or_introl eq_refl)) as (p & k & s & Hp & Hk).
  unfold Product_get_or_create, StockBalance_get_or_create.
  rewrite Hp, Hk. apply IH. intros n Hn. apply H. right. exact Hn.
Qed.

Lemma seed_slots_fixed names db :
  (forall name, In name names -> exists s, DeliverySlot_get db name = Got s) ->
  seed_slots db names = Seeded db.
Proof.
  induction names as [|name rest IH]; intros H; simpl; [reflexivity |].
  destruct (H name (or_introl eq_refl)) as (s & Hs).
  unfold DeliverySlot_get_or_create. rewrite Hs.
  apply IH. intros n Hn. apply H. right. exact Hn.
Qed.

Lemma handle_ok db db' :
  handle db = Seeded db' -> step_ok db db' /\ seeded db'.
Proof.
  unfold handle. intros H.
  destruct (seed_products db products_data) as [db1|db1] eqn:E1; [| discriminate].
  apply seed_products_ok in E1 as [Hs1 Hfound].
  apply seed_slots_ok in H as [Hs2 Hslots].
  split; [exact (step_ok_trans _ _ _ Hs1 Hs2) |]. split; [| exact Hslots].
  intros name Hin. destruct (Hfound name Hin) as (p & k & s & Hp & Hk).
  exists p, k, s. destruct Hs2 as [_ (Hp2 & Hk2 & _) _].
  split; [apply Hp2, Hp | apply Hk2, Hk].
Qed.

(** X19: on a database that respects the unique constraints the seeding
    command runs to its end and leaves every product of its list in the
    catalogue with a stock row and every slot key in the slot table, so
    that the create view finds the three slots.  It only adds rows: the
    rows that were there keep their place and their values, a stock row it
    adds holds 50, and users and orders are untouched. *)
Theorem seeding_completes_the_tables (db : DB) :
  gets_are_unique db ->
  exists db',
    handle db = Seeded db' /\
    seeded db' /\ slots_seeded db' /\
    extends db db' /\ gets_are_unique db'.
Proof.
  intros Hu. unfold handle.
  destruct (seed_products_runs products_data db Hu) as [db1 E1].
  pose proof (seed_products_ok _ _ _ E1) as [[_ _ Hu1] _].
  destruct (seed_slots_runs slots_data db1 (Hu1 Hu)) as [db2 E2].
  assert (H : handle db = Seeded db2) by (unfold handle; rewrite E1; exact E2).
  exists db2. fold (handle db). split; [exact H |].
  apply handle_ok in H as [[He _ Hu2] Hseeded].
  split; [exact Hseeded |]. split; [| split; [exact He | exact (Hu2 Hu)]].
  intros name Hin. destruct Hseeded as [_ Hslots].
  destruct (Hslots name Hin) as (s & Hs).
  exists s. split; [exact Hs |].
  apply DeliverySlot_get_Got in Hs as [_ Hn]. exact Hn.
Qed.

Lemma empty_db_unique : gets_are_unique empty_db.
Proof. split; [| split]; intros x; discriminate. Qed.

Lemma seeding_completes_the_tables_witness :
  gets_are_unique empty_db /\
  exists db', handle empty_db = Seeded db' /\ slots_seeded db'.
Proof.
  split; [exact empty_db_unique |].
  destruct (seeding_completes_the_tables empty_db empty_db_unique)
    as (db' & H & _ & Hslots & _).
  exists db'. split; [exact H | exact Hslots].
Defined.

(** X20: seeding twice is seeding once.  When the command has run to its
    end, running it again on the result changes nothing. *)
Theorem seeding_is_idempotent (db db' : DB) :
  handle db = Seeded db' -> handle db' = Seeded db'.
Proof.
  intros H. apply handle_ok in H as [_ [Hprod Hslots]].
  unfold handle. rewrite (seed_products_fixed products_data db' Hprod).
  apply seed_slots_fixed. exact Hslots.
Qed.

Lemma handle_empty_db : handle empty_db = Seeded seeded_store.
Proof. vm_compute. reflexivity. Qed.

Lemma seeding_is_idempotent_witness :
  handle empty_db = Seeded seeded_store /\
  handle seeded_store = Seeded seeded_store.
Proof.
  split; [exact handle_empty_db |].
  exact (seeding_is_idempotent empty_db seeded_store handle_empty_db).
Defined.

(** Seeding the empty database: the seven products, each with 50 in stock,
    and the three slots. *)
Example seeded_empty_db :
  List.map product_name (products seeded_store) = products_data /\
  List.map slot_name (slots seeded_store) = slots_data /\
  List.map (fun kv => sb_quantity (snd kv)) (map_to_list (stocks seeded_store))
  = [50; 50; 50; 50; 50; 50; 50].
Proof. vm_compute. repeat split. Qed.

End Seeding.
